(** * UT2Hash: the hash index and the container decoder of [ut2hash.py]

    A shallow embedding of [Database], [HashGrabber.check_one_file] and
    [HashGrabber.scan_directory], with the library primitives they call
    ([hashlib.md5], [zlib.decompress], [struct.unpack], [os.path]) modelled
    next to them, and the properties of the specification stated over it.

    Conventions.  Python [int] is [Z]; [bytes] is [list byte]; [str] is
    [string], taken over the ASCII range (so [str.casefold] lowers [A]-[Z]
    and leaves every other character alone); [os.path] is [posixpath].
    A call that can raise returns a [result]. *)

From Stdlib Require Import ZArith List String Ascii Bool Lia Sorted Permutation.
From Stdlib Require Import Init.Byte.
Import ListNotations.

Local Open Scope string_scope.
Local Open Scope Z_scope.

(** ** Exceptions *)

Inductive exn : Type :=
| AssertionError      (* [assert] in [Database.put] *)
| IntegrityError      (* sqlite3: the primary key already exists *)
| OverflowError       (* sqlite3: an [int] outside the 64-bit range *)
| ZlibError           (* [zlib.error] *)
| ValueError          (* [zlib.decompress] with a negative [bufsize] *)
| OSError             (* [open] of an unreadable file *)
| UnboundLocalError.  (* a local variable read before its assignment *)

Inductive result (A : Type) : Type :=
| Ok (a : A)
| Raise (e : exn).

Arguments Ok {A} a.
Arguments Raise {A} e.

(** ** [bytes] and [struct.unpack] *)

Definition bytes : Type := list byte.

Definition byte_val (b : byte) : Z := Z.of_N (Byte.to_N b).

Definition byte_of (n : Z) : byte :=
  match Byte.of_N (Z.to_N (n mod 256)) with
  | Some b => b
  | None => x00
  end.

(** A little-endian unsigned integer. *)
Fixpoint le_uint (bs : bytes) : Z :=
  match bs with
  | [] => 0
  | b :: r => byte_val b + 256 * le_uint r
  end.

(** The [n] low bytes of [v], lowest first. *)
Definition le_bytes (n : nat) (v : Z) : bytes :=
  map (fun i => byte_of (Z.shiftr v (8 * Z.of_nat i))) (seq 0 n).

(** [struct.unpack("<II", b)]: [None] is [struct.error], raised unless
    [b] holds exactly eight bytes. *)
Definition unpack_II (b : bytes) : option (Z * Z) :=
  match b with
  | [b0; b1; b2; b3; b4; b5; b6; b7] =>
      Some (le_uint [b0; b1; b2; b3], le_uint [b4; b5; b6; b7])
  | _ => None
  end.

(** [f.read(n)] on what is left of an open file: the bytes read and the
    rest of the file. *)
Definition read (n : Z) (f : bytes) : bytes * bytes :=
  (firstn (Z.to_nat n) f, skipn (Z.to_nat n) f).

Definition blen (b : bytes) : Z := Z.of_nat (List.length b).

(** ** [hashlib.md5] (RFC 1321) *)

Module MD5.

Definition add32 (x y : Z) : Z := (x + y) mod 2 ^ 32.
Definition not32 (x : Z) : Z := Z.lxor x 0xffffffff.
Definition rotl32 (x n : Z) : Z :=
  Z.lor (Z.shiftl x n mod 2 ^ 32) (Z.shiftr x (32 - n)).

Definition T : list Z :=
  [ 0xd76aa478; 0xe8c7b756; 0x242070db; 0xc1bdceee;
    0xf57c0faf; 0x4787c62a; 0xa8304613; 0xfd469501;
    0x698098d8; 0x8b44f7af; 0xffff5bb1; 0x895cd7be;
    0x6b901122; 0xfd987193; 0xa679438e; 0x49b40821;
    0xf61e2562; 0xc040b340; 0x265e5a51; 0xe9b6c7aa;
    0xd62f105d; 0x02441453; 0xd8a1e681; 0xe7d3fbc8;
    0x21e1cde6; 0xc33707d6; 0xf4d50d87; 0x455a14ed;
    0xa9e3e905; 0xfcefa3f8; 0x676f02d9; 0x8d2a4c8a;
    0xfffa3942; 0x8771f681; 0x6d9d6122; 0xfde5380c;
    0xa4beea44; 0x4bdecfa9; 0xf6bb4b60; 0xbebfbc70;
    0x289b7ec6; 0xeaa127fa; 0xd4ef3085; 0x04881d05;
    0xd9d4d039; 0xe6db99e5; 0x1fa27cf8; 0xc4ac5665;
    0xf4292244; 0x432aff97; 0xab9423a7; 0xfc93a039;
    0x655b59c3; 0x8f0ccc92; 0xffeff47d; 0x85845dd1;
    0x6fa87e4f; 0xfe2ce6e0; 0xa3014314; 0x4e0811a1;
    0xf7537e82; 0xbd3af235; 0x2ad7d2bb; 0xeb86d391 ].

Definition shifts : list Z :=
  [ 7; 12; 17; 22; 7; 12; 17; 22; 7; 12; 17; 22; 7; 12; 17; 22;
    5; 9; 14; 20; 5; 9; 14; 20; 5; 9; 14; 20; 5; 9; 14; 20;
    4; 11; 16; 23; 4; 11; 16; 23; 4; 11; 16; 23; 4; 11; 16; 23;
    6; 10; 15; 21; 6; 10; 15; 21; 6; 10; 15; 21; 6; 10; 15; 21 ].

Definition regs : Type := (Z * Z * Z * Z)%type.

Definition init_regs : regs := (0x67452301, 0xefcdab89, 0x98badcfe, 0x10325476).

(** The sixteen little-endian words of a block. *)
Fixpoint words (bs : bytes) : list Z :=
  match bs with
  | b0 :: b1 :: b2 :: b3 :: r => le_uint [b0; b1; b2; b3] :: words r
  | _ => []
  end.

Definition step (M : list Z) (st : regs) (i : nat) : regs :=
  let '(a, b, c, d) := st in
  let '(f, g) :=
    if Nat.ltb i 16 then (Z.lor (Z.land b c) (Z.land (not32 b) d), i)
    else if Nat.ltb i 32 then
      (Z.lor (Z.land d b) (Z.land (not32 d) c), Nat.modulo (5 * i + 1) 16)
    else if Nat.ltb i 48 then
      (Z.lxor (Z.lxor b c) d, Nat.modulo (3 * i + 5) 16)
    else (Z.lxor c (Z.lor b (not32 d)), Nat.modulo (7 * i) 16) in
  let x := add32 (add32 (add32 f a) (nth i T 0)) (nth g M 0) in
  (d, add32 b (rotl32 x (nth i shifts 0)), b, c).

Definition compress (st : regs) (block : bytes) : regs :=
  let '(a, b, c, d) := st in
  let '(a', b', c', d') := fold_left (step (words block)) (seq 0 64) st in
  (add32 a a', add32 b b', add32 c c', add32 d d').

(** The hash object: the chaining value, the bytes of the block being
    filled (fewer than 64) and the number of bytes taken so far. *)
Record state : Type := mkState {
  chain : regs;
  pending : bytes;
  total : Z
}.

(** [hashlib.md5()] *)
Definition new : state :=
  {| chain := init_regs; pending := []; total := 0 |}.

Definition update_byte (h : state) (b : byte) : state :=
  let blk := (pending h ++ [b])%list in
  if Nat.eqb (List.length blk) 64
  then {| chain := compress (chain h) blk; pending := []; total := total h + 1 |}
  else {| chain := chain h; pending := blk; total := total h + 1 |}.

(** [h.update(data)] *)
Definition update (h : state) (data : bytes) : state :=
  fold_left update_byte data h.

(** The padding: a one bit, zeros up to 56 modulo 64, the length in bits
    on eight little-endian bytes. *)
Definition padding (h : state) : bytes :=
  let used := List.length (pending h) in
  let zeros := (if Nat.leb used 55 then 55 - used else 119 - used)%nat in
  (x80 :: repeat x00 zeros ++ le_bytes 8 ((8 * total h) mod 2 ^ 64))%list.

(** [h.digest()] *)
Definition digest (h : state) : bytes :=
  let '(a, b, c, d) := chain (update h (padding h)) in
  (le_bytes 4 a ++ le_bytes 4 b ++ le_bytes 4 c ++ le_bytes 4 d)%list.

Definition hex_digit (n : Z) : ascii :=
  ascii_of_nat (Z.to_nat (if n <? 10 then 48 + n else 87 + n)).

Fixpoint hex (bs : bytes) : string :=
  match bs with
  | [] => EmptyString
  | b :: r =>
      String (hex_digit (byte_val b / 16))
        (String (hex_digit (byte_val b mod 16)) (hex r))
  end.

(** [h.hexdigest()] *)
Definition hexdigest (h : state) : string := hex (digest h).

End MD5.

(** ** [zlib.decompress] (RFC 1950, RFC 1951)

    The inflate of zlib, with the checks zlib makes on a stream (stored
    lengths, code sets that are over-subscribed or incomplete, symbols
    without a code, distances reaching before the output).  [None] stands
    for every way inflate can fail, a stream that ends too early included;
    [zlib.decompress] turns each of them into [zlib.error]. *)

Module Zlib.

Definition bind {A B : Type} (o : option A) (k : A -> option B) : option B :=
  match o with
  | Some a => k a
  | None => None
  end.

Notation "' p <- e ;; k" := (bind e (fun p => k))
  (at level 100, p pattern, e at next level, right associativity).

(** The Adler-32 of the plain data, kept at the end of a zlib stream. *)
Definition adler32 (data : bytes) : Z :=
  let '(a, b) :=
    fold_left (fun '(a, b) x =>
                 let a' := (a + byte_val x) mod 65521 in
                 (a', (b + a') mod 65521))
              data (1, 0) in
  b * 65536 + a.

(** The input: the bits left of the byte being read, least significant
    first, and the bytes after it. *)
Definition bitstream : Type := (list bool * bytes)%type.

Definition byte_bits (b : byte) : list bool :=
  map (Z.testbit (byte_val b)) [0; 1; 2; 3; 4; 5; 6; 7].

Definition bits_left (s : bitstream) : nat :=
  (List.length (fst s) + 8 * List.length (snd s))%nat.

Definition getbit (s : bitstream) : option (Z * bitstream) :=
  match s with
  | (b :: cur, rest) => Some (Z.b2z b, (cur, rest))
  | ([], x :: rest) =>
      match byte_bits x with
      | b :: cur => Some (Z.b2z b, (cur, rest))
      | [] => None
      end
  | ([], []) => None
  end.

(** [n] bits as a number, the first bit read being the lowest. *)
Fixpoint getbits (n : nat) (s : bitstream) : option (Z * bitstream) :=
  match n with
  | O => Some (0, s)
  | S k =>
      '(b, s1) <- getbit s ;;
      '(v, s2) <- getbits k s1 ;;
      Some (b + 2 * v, s2)
  end.

(** A canonical Huffman code: how many codes there are of each length
    1..15, and the symbols ordered by code. *)
Record huffman : Type := mkHuffman {
  h_count : list nat;
  h_symbol : list nat
}.

Definition lengths_1_15 : list nat := seq 1 15.

Definition construct (lens : list nat) : huffman :=
  {| h_count :=
       map (fun l => List.length (filter (Nat.eqb l) lens)) lengths_1_15;
     h_symbol :=
       flat_map (fun l => filter (fun sym => Nat.eqb (nth sym lens O) l)
                                 (seq 0 (List.length lens)))
                lengths_1_15 |}.

(** The code space left unused: negative for an over-subscribed set of
    lengths, zero for a complete one. *)
Definition left_over (h : huffman) : Z :=
  fold_left (fun left c => 2 * left - Z.of_nat c) (h_count h) 1.

Definition max_length (lens : list nat) : nat := fold_left Nat.max lens O.

Inductive codetype : Type := CODES | LENS | DISTS.

(** What [inflate_table] accepts: a complete set; for literal/length and
    distance codes also a single code of one bit; for distance codes also
    no code at all. *)
Definition accepted (ty : codetype) (lens : list nat) : bool :=
  let left := left_over (construct lens) in
  match max_length lens, ty with
  | O, DISTS => true
  | O, _ => false
  | S O, CODES => left =? 0
  | S O, _ => 0 <=? left
  | _, _ => left =? 0
  end.

(** Read one symbol: codes are tried by increasing length. *)
Fixpoint decode_from (counts : list nat) (symbols : list nat)
    (code first index : nat) (s : bitstream) : option (nat * bitstream) :=
  match counts with
  | [] => None
  | cnt :: rest =>
      '(b, s1) <- getbit s ;;
      let code := (code + Z.to_nat b)%nat in
      if Nat.ltb code (first + cnt)
      then
        match nth_error symbols (index + (code - first)) with
        | Some sym => Some (sym, s1)
        | None => None
        end
      else decode_from rest symbols (2 * code) (2 * (first + cnt))
                       (index + cnt) s1
  end.

Definition decode (h : huffman) (s : bitstream) : option (nat * bitstream) :=
  decode_from (h_count h) (h_symbol h) 0 0 0 s.

Definition lbase : list Z :=
  [3; 4; 5; 6; 7; 8; 9; 10; 11; 13; 15; 17; 19; 23; 27; 31; 35; 43; 51; 59;
   67; 83; 99; 115; 131; 163; 195; 227; 258].
Definition lext : list nat :=
  [0; 0; 0; 0; 0; 0; 0; 0; 1; 1; 1; 1; 2; 2; 2; 2; 3; 3; 3; 3; 4; 4; 4; 4;
   5; 5; 5; 5; 0]%nat.
Definition dbase : list Z :=
  [1; 2; 3; 4; 5; 7; 9; 13; 17; 25; 33; 49; 65; 97; 129; 193; 257; 385; 513;
   769; 1025; 1537; 2049; 3073; 4097; 6145; 8193; 12289; 16385; 24577].
Definition dext : list nat :=
  [0; 0; 0; 0; 1; 1; 2; 2; 3; 3; 4; 4; 5; 5; 6; 6; 7; 7; 8; 8; 9; 9; 10; 10;
   11; 11; 12; 12; 13; 13]%nat.

(** The output is kept youngest byte first. *)
Fixpoint copy (len : nat) (dist : nat) (out : bytes) : bytes :=
  match len with
  | O => out
  | S k => copy k dist (nth (dist - 1) out x00 :: out)
  end.

(** The symbols of a block, up to its end-of-block. *)
Fixpoint codes (fuel : nat) (lencode distcode : huffman) (s : bitstream)
    (out : bytes) : option (bytes * bitstream) :=
  match fuel with
  | O => None
  | S fuel' =>
      '(sym, s1) <- decode lencode s ;;
      if Nat.ltb sym 256
      then codes fuel' lencode distcode s1 (byte_of (Z.of_nat sym) :: out)
      else if Nat.eqb sym 256 then Some (out, s1)
      else
        let i := (sym - 257)%nat in
        '(base, ext) <- match nth_error lbase i, nth_error lext i with
                        | Some b, Some e => Some (b, e)
                        | _, _ => None
                        end ;;
        '(extra, s2) <- getbits ext s1 ;;
        '(dsym, s3) <- decode distcode s2 ;;
        '(dbase', dext') <- match nth_error dbase dsym, nth_error dext dsym with
                            | Some b, Some e => Some (b, e)
                            | _, _ => None
                            end ;;
        '(dextra, s4) <- getbits dext' s3 ;;
        let dist := dbase' + dextra in
        if blen out <? dist then None
        else codes fuel' lencode distcode s4
                   (copy (Z.to_nat (base + extra)) (Z.to_nat dist) out)
  end.

Definition fixed_lencode : huffman :=
  construct (repeat 8 144 ++ repeat 9 112 ++ repeat 7 24 ++ repeat 8 8)%nat%list.
Definition fixed_distcode : huffman := construct (repeat 5%nat 32).

(** A stored block: skip to the byte boundary, LEN, its complement, and
    LEN bytes taken as they are. *)
Definition stored (s : bitstream) (out : bytes) : option (bytes * bitstream) :=
  match snd s with
  | l0 :: l1 :: n0 :: n1 :: rest =>
      let len := le_uint [l0; l1] in
      if negb (len =? Z.lxor (le_uint [n0; n1]) 0xffff) then None
      else if blen rest <? len then None
      else Some ((rev (firstn (Z.to_nat len) rest) ++ out)%list,
                 ([], skipn (Z.to_nat len) rest))
  | _ => None
  end.

Definition order : list nat :=
  [16; 17; 18; 0; 8; 7; 9; 6; 10; 5; 11; 4; 12; 3; 13; 2; 14; 1; 15]%nat.

Fixpoint getlens3 (n : nat) (s : bitstream) : option (list nat * bitstream) :=
  match n with
  | O => Some ([], s)
  | S k =>
      '(v, s1) <- getbits 3 s ;;
      '(r, s2) <- getlens3 k s1 ;;
      Some (Z.to_nat v :: r, s2)
  end.

Fixpoint index_of (x : nat) (l : list nat) : option nat :=
  match l with
  | [] => None
  | y :: r => if Nat.eqb x y then Some O else option_map S (index_of x r)
  end.

(** The lengths of the code length code, put back in symbol order. *)
Definition code_length_lens (read : list nat) : list nat :=
  map (fun sym => match index_of sym order with
                  | Some i => nth i read O
                  | None => O
                  end)
      (seq 0 19).

(** The literal/length and distance code lengths of a dynamic block,
    youngest first in [acc]. *)
Fixpoint code_lengths (fuel : nat) (h : huffman) (want : nat) (acc : list nat)
    (s : bitstream) : option (list nat * bitstream) :=
  match fuel with
  | O => None
  | S fuel' =>
      if Nat.leb want (List.length acc) then Some (rev acc, s)
      else
        '(sym, s1) <- decode h s ;;
        if Nat.ltb sym 16 then code_lengths fuel' h want (sym :: acc) s1
        else
          '(len, nbits, base) <-
             (if Nat.eqb sym 16
              then match acc with
                   | [] => None
                   | prev :: _ => Some (prev, 2, 3)
                   end
              else if Nat.eqb sym 17 then Some (O, 3, 3)
              else Some (O, 7, 11))%nat ;;
          '(extra, s2) <- getbits nbits s1 ;;
          let rep := (base + Z.to_nat extra)%nat in
          if Nat.ltb want (List.length acc + rep) then None
          else code_lengths fuel' h want (repeat len rep ++ acc)%list s2
  end.

Definition dynamic (s : bitstream) (out : bytes) : option (bytes * bitstream) :=
  '(hlit, s1) <- getbits 5 s ;;
  '(hdist, s2) <- getbits 5 s1 ;;
  '(hclen, s3) <- getbits 4 s2 ;;
  let nlen := Z.to_nat (hlit + 257) in
  let ndist := Z.to_nat (hdist + 1) in
  let ncode := Z.to_nat (hclen + 4) in
  if (Nat.ltb 286 nlen || Nat.ltb 30 ndist)%bool then None
  else
    '(read, s4) <- getlens3 ncode s3 ;;
    let cl := code_length_lens read in
    if negb (accepted CODES cl) then None
    else
      '(lens, s5) <- code_lengths (S (bits_left s4)) (construct cl)
                                  (nlen + ndist) [] s4 ;;
      if Nat.eqb (nth 256 lens O) O then None
      else
        let ll := firstn nlen lens in
        let dl := skipn nlen lens in
        if negb (accepted LENS ll && accepted DISTS dl) then None
        else codes (S (bits_left s5)) (construct ll) (construct dl) s5 out.

(** The blocks of a deflate stream, up to the one marked final. *)
Fixpoint blocks (fuel : nat) (s : bitstream) (out : bytes)
    : option (bytes * bitstream) :=
  match fuel with
  | O => None
  | S fuel' =>
      '(final, s1) <- getbit s ;;
      '(type, s2) <- getbits 2 s1 ;;
      '(out', s3) <-
         (if type =? 0 then stored s2 out
          else if type =? 1
               then codes (S (bits_left s2)) fixed_lencode fixed_distcode s2 out
          else if type =? 2 then dynamic s2 out
          else None) ;;
      if final =? 1 then Some (out', s3) else blocks fuel' s3 out'
  end.

(** A raw deflate stream at the head of [data]: the plain bytes and the
    input left after the last block, from the next byte boundary. *)
Definition inflate (data : bytes) : option (bytes * bytes) :=
  '(out, s) <- blocks (S (8 * List.length data)) ([], data) [] ;;
  Some (rev out, snd s).

Fixpoint be_uint_from (acc : Z) (bs : bytes) : Z :=
  match bs with
  | [] => acc
  | b :: r => be_uint_from (256 * acc + byte_val b) r
  end.

(** A zlib stream: two header bytes (method 8, a window of at most 32 KiB,
    a multiple of 31, no preset dictionary), the deflate stream, the
    Adler-32 of the plain data on four big-endian bytes. *)
Definition inflate_zlib (data : bytes) : option bytes :=
  match data with
  | cmf :: flg :: rest =>
      let c := byte_val cmf in
      let f := byte_val flg in
      if negb ((256 * c + f) mod 31 =? 0) then None
      else if negb (Z.land c 15 =? 8) then None
      else if 7 <? Z.shiftr c 4 then None
      else if Z.testbit f 5 then None
      else
        '(out, after) <- inflate rest ;;
        match after with
        | t0 :: t1 :: t2 :: t3 :: _ =>
            if be_uint_from 0 [t0; t1; t2; t3] =? adler32 out
            then Some out else None
        | _ => None
        end
  | _ => None
  end.

(** [zlib.decompress(data, wbits, bufsize)].  [wbits = 15] asks for a zlib
    stream and [wbits = -15] for a raw deflate stream, both with the
    32 KiB window; the smaller windows and the gzip wrappers are not
    modelled and read as an error.  [bufsize] is the size the output
    buffer starts with: the buffer grows as needed, so it does not bound
    the result (a negative one is refused).  Bytes after the end of the
    stream are ignored.  Memory is taken to be enough. *)
Definition decompress (data : bytes) (wbits bufsize : Z) : result bytes :=
  if bufsize <? 0 then Raise ValueError
  else if wbits =? 15 then
    match inflate_zlib data with
    | Some out => Ok out
    | None => Raise ZlibError
    end
  else if wbits =? -15 then
    match inflate data with
    | Some (out, _) => Ok out
    | None => Raise ZlibError
    end
  else Raise ZlibError.

End Zlib.

(** ** Strings *)

Module Str.

(** [str.casefold], on ASCII. *)
Definition casefold_char (c : ascii) : ascii :=
  let n := nat_of_ascii c in
  if (Nat.leb 65 n && Nat.leb n 90)%bool then ascii_of_nat (n + 32) else c.

Fixpoint casefold (s : string) : string :=
  match s with
  | EmptyString => EmptyString
  | String c r => String (casefold_char c) (casefold r)
  end.

Definition len (s : string) : Z := Z.of_nat (String.length s).

(** [s.endswith(q)] *)
Definition endswith (s q : string) : bool :=
  let n := String.length s in
  let m := String.length q in
  (Nat.leb m n && String.eqb (String.substring (n - m) m s) q)%bool.

(** [s[:-4]]: everything but the last four characters (nothing is left
    of a string of four characters or fewer). *)
Definition drop_last4 (s : string) : string :=
  String.substring 0 (String.length s - 4) s.

(** [c in s] for a single character. *)
Fixpoint contains (c : ascii) (s : string) : bool :=
  match s with
  | EmptyString => false
  | String d r => (Ascii.eqb c d || contains c r)%bool
  end.

(** [s.rpartition(sep)[2]]: what follows the last [sep], the whole string
    when there is none. *)
Fixpoint after_last (sep : ascii) (s : string) : string :=
  match s with
  | EmptyString => EmptyString
  | String c r =>
      if contains sep r then after_last sep r
      else if Ascii.eqb c sep then r
      else s
  end.

End Str.

(** ** [os.path] (posixpath) *)

Module Path.

Definition sep : ascii := "/"%char.
Definition extsep : string := ".".

(** [os.path.basename(p)]: [p[p.rfind('/')+1:]]. *)
Definition basename (p : string) : string := Str.after_last sep p.

(** [os.path.join(a, b)] for two components. *)
Definition join (a b : string) : string :=
  if String.prefix "/" b then b
  else if (String.eqb a EmptyString || Str.endswith a "/")%bool then a ++ b
  else a ++ "/" ++ b.

End Path.

(** ** The hash index: [class Database] *)

Module Database.

Definition PERIODICALLY_COMMIT : Z := 100.

(** A row of [hashes(id INTEGER PRIMARY KEY, filename TEXT, size INTEGER,
    md5 TEXT)]. *)
Record row : Type := mkRow {
  r_id : Z;
  r_filename : string;
  r_size : Z;
  r_md5 : string
}.

Definition table : Type := list row.

(** The store behind a connection.  [disk] is the committed table, what a
    later [sqlite3.connect] finds; [work] is the table as the connection
    sees it, pending changes included.  Every [Database] of the program is
    initialised as soon as it is opened ([HashGrabber.__init__], [set db]),
    so the table exists whenever a statement runs, and a missing table is
    not told apart from an empty one.  Rows are kept in insertion order. *)
Record t : Type := mkDb {
  disk : table;
  work : table;
  count : Z;
  force_casefold : bool
}.

(** [Database(fn)]: open the file; [__init__] sets [count = 0] and
    [force_casefold = False]. *)
Definition connect (committed : table) : t :=
  {| disk := committed; work := committed; count := 0; force_casefold := false |}.

(** [self.conn.commit()] *)
Definition commit (db : t) : t :=
  {| disk := work db; work := work db; count := count db;
     force_casefold := force_casefold db |}.

(** [SELECT MAX(id) FROM ...]: [None] is SQL NULL, for no row at all. *)
Definition max_id (rows : table) : option Z :=
  match rows with
  | [] => None
  | r :: rest => Some (fold_left Z.max (map r_id rest) (r_id r))
  end.

(** [initialize(delete)].  The two DDL statements run outside a
    transaction: the sqlite3 module of the interpreter the program targets
    commits what is pending before them, and they take effect on disk at
    once. *)
Definition initialize (delete : bool) (db : t) : t :=
  let rows := if delete then [] else work db in
  let c := match max_id rows with None => 0 | Some m => m end in
  {| disk := rows; work := rows; count := c + 1;
     force_casefold := force_casefold db |}.

Definition int64 (n : Z) : bool :=
  (Z.leb (- 2 ^ 63) n && Z.ltb n (2 ^ 63))%bool.

Definition has_id (i : Z) (rows : table) : bool :=
  existsb (fun r => Z.eqb (r_id r) i) rows.

(** [INSERT INTO hashes VALUES (?, ?, ?, ?)] *)
Definition insert (r : row) (rows : table) : result table :=
  if negb (int64 (r_id r) && int64 (r_size r)) then Raise OverflowError
  else if has_id (r_id r) rows then Raise IntegrityError
  else Ok (rows ++ [r])%list.

(** [put(fn, size, md5)] *)
Definition put (fn : string) (size : Z) (md5 : string) (db : t) : result t :=
  if negb (Z.eqb (Str.len md5) 32) then Raise AssertionError
  else
    let fn := if force_casefold db then Str.casefold fn else fn in
    match insert (mkRow (count db) fn size md5) (work db) with
    | Raise e => Raise e
    | Ok rows =>
        let db1 := {| disk := disk db; work := rows; count := count db + 1;
                      force_casefold := force_casefold db |} in
        if Z.eqb (count db1 mod PERIODICALLY_COMMIT) 0
        then Ok (commit db1) else Ok db1
    end.

(** [GROUP BY filename, md5], under the default BINARY collation. *)
Definition same_group (a b : row) : bool :=
  (String.eqb (r_filename a) (r_filename b) && String.eqb (r_md5 a) (r_md5 b))%bool.

(** The groups, each named by its first row. *)
Fixpoint group_heads (rows : table) : table :=
  match rows with
  | [] => []
  | r :: rest => r :: filter (fun x => negb (same_group r x)) (group_heads rest)
  end.

(** [SELECT MAX(id) AS maxid FROM hashes GROUP BY filename, md5] *)
Definition select_max_ids (rows : table) : list Z :=
  flat_map (fun g => match max_id (filter (same_group g) rows) with
                     | Some m => [m]
                     | None => []
                     end)
           (group_heads rows).

(** [DELETE FROM hashes WHERE id NOT IN (...)] *)
Definition delete_not_in (keep : list Z) (rows : table) : table :=
  filter (fun r => existsb (Z.eqb (r_id r)) keep) rows.

(** [remove_duplicates()] *)
Definition remove_duplicates (db : t) : t :=
  let rows := delete_not_in (select_max_ids (work db)) (work db) in
  commit {| disk := disk db; work := rows; count := count db;
            force_casefold := force_casefold db |}.

(** A row as the queries return it: [(filename, size, md5)]. *)
Definition selected (r : row) : string * Z * string :=
  (r_filename r, r_size r, r_md5 r).

(** [ORDER BY]: the rows are put in place one after the other.  Rows that
    compare equal keep the order of the table; SQL leaves their order
    open, and nothing below depends on it. *)
Fixpoint insert_by {A : Type} (leb : A -> A -> bool) (x : A) (l : list A)
    : list A :=
  match l with
  | [] => [x]
  | y :: r => if leb x y then x :: l else y :: insert_by leb x r
  end.

Definition order_by {A : Type} (leb : A -> A -> bool) (l : list A) : list A :=
  fold_right (insert_by leb) [] l.

(** [COLLATE NOCASE]: the upper case letters of ASCII are folded, then the
    strings are compared byte by byte. *)
Definition nocase_leb (a b : string) : bool :=
  String.leb (Str.casefold a) (Str.casefold b).

Definition by_filename_nocase (a b : string * Z * string) : bool :=
  nocase_leb (fst (fst a)) (fst (fst b)).

(** The default BINARY collation. *)
Definition by_filename (a b : string * Z * string) : bool :=
  String.leb (fst (fst a)) (fst (fst b)).

(** [find(md5)]: [SELECT filename, size, md5 FROM hashes WHERE md5=?
    ORDER BY filename COLLATE NOCASE], all rows fetched. *)
Definition find (md5 : string) (db : t) : list (string * Z * string) :=
  order_by by_filename_nocase
    (map selected (filter (fun r => String.eqb (r_md5 r) md5) (work db))).

(** [find_by_name(filename)]: the same with [WHERE filename=?]. *)
Definition find_by_name (filename : string) (db : t) : list (string * Z * string) :=
  order_by by_filename_nocase
    (map selected (filter (fun r => String.eqb (r_filename r) filename) (work db))).

(** [dump(raw=True)]: [SELECT filename, size, md5 FROM hashes ORDER BY
    filename], all rows fetched. *)
Definition dump_raw (db : t) : list (string * Z * string) :=
  order_by by_filename (map selected (work db)).

(** What [dump()] and [find_duplicates()] log, at level 3. *)
Inductive report : Type :=
| DumpedRow (filename : string) (size : Z) (md5 : string)
| DuplicateRow (filename md5 : string) (times : Z).

(** [dump()]: one message for each row fetched. *)
Definition dump (db : t) : list report :=
  map (fun r => DumpedRow (fst (fst r)) (snd (fst r)) (snd r)) (dump_raw db).

(** [count_rows()]: [SELECT COUNT( * ) FROM hashes]. *)
Definition count_rows (db : t) : Z := Z.of_nat (List.length (work db)).

(** [find_duplicates()]: [SELECT filename, md5, COUNT( * ) FROM hashes
    GROUP BY filename, md5 HAVING COUNT( * ) > 1], one message for each
    group fetched. *)
Definition find_duplicates (db : t) : list report :=
  flat_map (fun g =>
              let times := Z.of_nat (List.length (filter (same_group g) (work db))) in
              if 1 <? times then [DuplicateRow (r_filename g) (r_md5 g) times]
              else [])
           (group_heads (work db)).

(** [close()]: commit, then close the connection. *)
Definition close (db : t) : t := commit db.

(** What [GROUP BY filename, md5] groups by. *)
Definition name_and_digest (r : row) : string * string :=
  (r_filename r, r_md5 r).

(** [GROUP BY md5]. *)
Definition same_digest (a b : row) : bool := String.eqb (r_md5 a) (r_md5 b).

Fixpoint digest_heads (rows : table) : table :=
  match rows with
  | [] => []
  | r :: rest => r :: filter (fun x => negb (same_digest r x)) (digest_heads rest)
  end.

(** [find_duplicate_hashes()]: [SELECT filename, md5, COUNT(md5) FROM
    hashes GROUP BY md5 HAVING COUNT(md5) > 1], one message for each group
    fetched.  [filename] is a bare column of an aggregate query: SQLite
    takes it from a row of the group that it chooses; [pick] is that
    choice. *)
Definition find_duplicate_hashes (pick : table -> row) (db : t) : list report :=
  flat_map (fun g =>
              let group := filter (same_digest g) (work db) in
              let times := Z.of_nat (List.length group) in
              if 1 <? times then [DuplicateRow (r_filename (pick group)) (r_md5 g) times]
              else [])
           (digest_heads (work db)).


End Database.

(** ** Files and the log *)

(** A regular file: whether [open(fn, 'rb')] succeeds, and its bytes;
    [os.path.getsize] is their number. *)
Record file : Type := mkFile {
  readable : bool;
  content : bytes
}.

Definition getsize (f : file) : Z := blen (content f).

(** An entry of a directory, as [os.path.isfile] tells them apart. *)
Inductive dirent : Type :=
| Folder
| Regular (f : file).

(** The calls of [log], in the order they are made; each constructor is
    one call site and carries the values formatted into the message.  What
    reaches the console depends on the verbosity and is not modelled. *)
Inductive event : Type :=
| CompressedFile (fn : string)
| ExpectedEOF (fn : string) (chunks : Z)
| OversizeCompressed (fn : string) (cs : Z)
| OversizeUncompressed (fn : string) (us : Z)
| ZeroCompressed (fn : string) (cs : Z)
| ZeroUncompressed (fn : string) (us : Z)
| UnexpectedEOF (fn : string) (chunks : Z)
| CacheFile
| WeirdFiletype (ext fn : string)
| HugeFile
| SkippingFolder (fp : string)
| ParseError (rfn : string)
| NoHash (fn : string)
| Hashed (rfn : string) (size : Z) (md5 : string).

(** The [level=] of each call: 0 fatal, 1 error, 2 warning, 3 info,
    4 debug. *)
Definition level (e : event) : Z :=
  match e with
  | CompressedFile _ | ExpectedEOF _ _ | WeirdFiletype _ _ => 4
  | SkippingFolder _ | NoHash _ | Hashed _ _ _ => 4
  | OversizeCompressed _ _ | OversizeUncompressed _ _ | CacheFile => 2
  | ZeroCompressed _ _ | ZeroUncompressed _ _ => 1
  | UnexpectedEOF _ _ | HugeFile | ParseError _ => 1
  end.

(** ** [class HashGrabber] *)

Module HashGrabber.

(** What [check_one_file] returns: [(rfn, None, None)] is [(rfn, None)]
    here and [(rfn, size, md5)] is [(rfn, Some (size, md5))]. *)
Definition answer : Type := (string * option (Z * string))%type.

(** A run of [check_one_file]: the calls of [log] it made, and the value
    it returned or the exception that left it. *)
Definition run : Type := (list event * result answer)%type.

Definition say (e : list event) (r : run) : run := ((e ++ fst r)%list, snd r).

(** The [if]/[elif] chain on a chunk header: at most one message. *)
Definition validate (fn : string) (cs us : Z) : list event :=
  if 33096 <? cs then [OversizeCompressed fn cs]
  else if 32768 <? us then [OversizeUncompressed fn us]
  else if cs =? 0 then [ZeroCompressed fn cs]
  else if us =? 0 then [ZeroUncompressed fn us]
  else [].

(** The [while fs > 0] loop of the compressed branch together with the
    [return] that follows it.  [f] is what is left to read of the open
    file.  Every turn takes at least eight off [fs], so [fuel] at least
    [fs] is never used up ([decode_fuel] below). *)
Fixpoint decode (fuel : nat) (fn rfn : string) (f : bytes) (fs size : Z)
    (h : MD5.state) (chunks : Z) : run :=
  let done := ([], Ok (rfn, Some (size, MD5.hexdigest h))) in
  if fs <=? 0 then done
  else
    match fuel with
    | O => done
    | S fuel' =>
        let (header, f1) := read 8 f in
        match unpack_II header with
        | None => say [ExpectedEOF fn chunks] done
        | Some (cs, us) =>
            say (validate fn cs us)
              (let (chunk, f2) := read cs f1 in
               let fs := fs - (8 + cs) in
               if negb (blen chunk =? cs)
               then ([UnexpectedEOF fn chunks], Ok (rfn, None))
               else
                 match Zlib.decompress chunk 15 us with
                 | Raise e => ([], Raise e)
                 | Ok chunk =>
                     decode fuel' fn rfn f2 fs (size + us)
                            (MD5.update h chunk) (chunks + 1)
                 end)
        end
    end.

(** The [while True] loop of the plain branch: 32 KiB at a time until a
    read comes back empty. *)
Fixpoint hash_blocks (fuel : nat) (f : bytes) (h : MD5.state) : MD5.state :=
  match fuel with
  | O => h
  | S fuel' =>
      let (chunk, f1) := read 32768 f in
      match chunk with
      | [] => h
      | _ => hash_blocks fuel' f1 (MD5.update h chunk)
      end
  end.

Definition known_types : list string :=
  ["u"; "ucl"; "ukx"; "uxx"; "ka"; "ut2"; "ogg"; "uax"; "usx"; "utx"].

Definition is_compressed (fn : string) : bool :=
  Str.endswith (Str.casefold fn) (Path.extsep ++ "uz2")%string.

Definition is_known (fn : string) : bool :=
  existsb (Str.endswith (Str.casefold fn)) known_types.

(** [with open(fn, 'rb') as f: ...] *)
Definition with_open (f : file) (body : bytes -> run) : run :=
  if readable f then body (content f) else ([], Raise OSError).

(** [check_one_file(fn, skip_weird)], [f] being the file at [fn]. *)
Definition check_one_file (fn : string) (f : file) (skip_weird : bool) : run :=
  let h := MD5.new in
  let rfn := Path.basename fn in
  if is_compressed fn then
    let rfn := Path.basename (Str.drop_last4 fn) in
    say [CompressedFile fn]
      (let chunks := 0 in
       let fs := getsize f in
       let size := 0 in
       with_open f (fun f => decode (Z.to_nat fs) fn rfn f fs size h chunks))
  else
    let plain : run :=
      let size := getsize f in
      if 2147483647 <? size then ([HugeFile], Ok (rfn, None))
      else
        with_open f (fun f =>
          ([], Ok (rfn, Some (size, MD5.hexdigest
                                      (hash_blocks (S (List.length f)) f h))))) in
    if is_known fn then
      say (if Str.endswith (Str.casefold fn) "uxx" then [CacheFile] else [])
          plain
    else
      say [WeirdFiletype (Str.after_last "."%char fn) fn]
          (if skip_weird then ([], Ok (rfn, None)) else plain).

(** The state of [scan_directory] between two files: the index, and the
    local variable [rfn], unbound until a call of [check_one_file] has
    returned. *)
Record locals : Type := mkLocals {
  db : Database.t;
  rfn : option string
}.

(** One turn of the [for] loop.  [inr] is an exception leaving
    [scan_directory], with the index as it is at that point. *)
Definition scan_one (fp : string) (st : locals) (entry : string * dirent)
    : list event * (locals + (Database.t * exn)) :=
  let (fn, ent) := entry in
  let p := Path.join fp fn in
  match ent with
  | Folder => ([SkippingFolder fp], inl st)
  | Regular f =>
      let (ev, r) := check_one_file p f true in
      let handled : list event * (locals * option (string * Z * string)
                                  + (Database.t * exn)) :=
        match r with
        | Ok (rfn', None) => ([], inl (mkLocals (db st) (Some rfn'), None))
        | Ok (rfn', Some (size, md5)) =>
            ([], inl (mkLocals (db st) (Some rfn'), Some (rfn', size, md5)))
        | Raise _ =>
            match rfn st with
            | None => ([], inr (db st, UnboundLocalError))
            | Some name => ([ParseError name], inl (st, None))
            end
        end in
      match handled with
      | (ev1, inr x) => ((ev ++ ev1)%list, inr x)
      | (ev1, inl (st1, None)) => ((ev ++ ev1 ++ [NoHash fn])%list, inl st1)
      | (ev1, inl (st1, Some (name, size, md5))) =>
          let ev2 := (ev ++ ev1 ++ [Hashed name size md5])%list in
          match Database.put name size md5 (db st1) with
          | Ok db' => (ev2, inl (mkLocals db' (rfn st1)))
          | Raise e => (ev2, inr (db st1, e))
          end
      end
  end.

Fixpoint scan_loop (fp : string) (listing : list (string * dirent))
    (st : locals) : list event * (locals + (Database.t * exn)) :=
  match listing with
  | [] => ([], inl st)
  | entry :: rest =>
      match scan_one fp st entry with
      | (ev, inr x) => (ev, inr x)
      | (ev, inl st1) =>
          let (ev', r) := scan_loop fp rest st1 in ((ev ++ ev')%list, r)
      end
  end.

(** [scan_directory(fp)], [listing] being [os.listdir(fp)] with what each
    name denotes: the calls of [log], the index afterwards, and the
    exception that left the method, if one did. *)
Definition scan_directory (fp : string) (listing : list (string * dirent))
    (d : Database.t) : list event * Database.t * option exn :=
  match scan_loop fp listing (mkLocals d None) with
  | (ev, inl st) => (ev, Database.commit (db st), None)
  | (ev, inr (d', e)) => (ev, d', Some e)
  end.

(** [reinitialize(delete)] *)
Definition reinitialize (delete : bool) (d : Database.t) : Database.t :=
  Database.initialize delete d.





End HashGrabber.

(** ** The container format, and sessions on the index

    What the properties are stated over: a container as the sequence of
    its chunks, and a session as the sequence of its calls. *)

(** A chunk on the wire: [compressed_size] is the length of the payload. *)
Record chunk : Type := mkChunk {
  uncompressed_size : Z;
  payload : bytes
}.

Definition compressed_size (c : chunk) : Z := blen (payload c).

(** [struct.pack("<II", cs, us)] *)
Definition pack_II (cs us : Z) : bytes := (le_bytes 4 cs ++ le_bytes 4 us)%list.

Definition encode_chunk (c : chunk) : bytes :=
  (pack_II (compressed_size c) (uncompressed_size c) ++ payload c)%list.

Definition container (cs : list chunk) : bytes := flat_map encode_chunk cs.

(** A chunk within the limits of the game: both sizes positive, at most
    33096 bytes compressed and 32768 plain. *)
Definition within_bounds (c : chunk) : Prop :=
  0 < compressed_size c <= 33096 /\ 0 < uncompressed_size c <= 32768.

(** The sum of the declared plain sizes. *)
Definition logical_size (cs : list chunk) : Z :=
  fold_right (fun c n => uncompressed_size c + n) 0 cs.

(** The sizes a header can hold. *)
Definition encodable (c : chunk) : Prop :=
  0 <= uncompressed_size c < 2 ^ 32 /\ compressed_size c < 2 ^ 32.

(** [zlib.decompress(payload, 15, us)] gives [d]. *)
Definition inflates_to (c : chunk) (d : bytes) : Prop :=
  Zlib.decompress (payload c) 15 (uncompressed_size c) = Ok d.

(** The messages of the header checks over a run of chunks. *)
Definition validations (fn : string) (cs : list chunk) : list event :=
  flat_map (fun c => HashGrabber.validate fn (compressed_size c)
                                          (uncompressed_size c)) cs.

(** The name a path is indexed under. *)
Definition indexed_name (fn : string) : string :=
  if HashGrabber.is_compressed fn
  then Path.basename (Str.drop_last4 fn)
  else Path.basename fn.

(** The name as [put] stores it. *)
Definition stored_name (d : Database.t) (name : string) : string :=
  if Database.force_casefold d then Str.casefold name else name.

(** The rows a scan adds are named after the files of the listing. *)
Definition named_after (fp : string) (listing : list (string * dirent))
    (d : Database.t) (r : Database.row) : Prop :=
  exists entry f,
    In (entry, Regular f) listing /\
    Database.r_filename r = stored_name d (indexed_name (Path.join fp entry)).

(** The next id is one more than the largest id of the table, and 1 for
    an empty table. *)
Definition next_id_ok (d : Database.t) : Prop :=
  Database.count d =
    match Database.max_id (Database.work d) with
    | Some m => m + 1
    | None => 1
    end.

(** What is not on disk yet comes after what is, and is no longer than
    the counter modulo 100. *)
Definition pending_ok (d : Database.t) : Prop :=
  exists waiting,
    Database.work d = (Database.disk d ++ waiting)%list /\
    Z.of_nat (List.length waiting) <= Database.count d mod 100.

Module Session.

Inductive op : Type :=
| Put (fn : string) (size : Z) (md5 : string)
| Commit
| RemoveDuplicates.

(** The calls of [ops] in turn, up to the first that raises; the ids given
    to the rows inserted are collected in order. *)
Fixpoint run_ops (ops : list op) (d : Database.t) : result (list Z * Database.t) :=
  match ops with
  | [] => Ok ([], d)
  | Put fn size md5 :: rest =>
      match Database.put fn size md5 d with
      | Raise e => Raise e
      | Ok d1 =>
          match run_ops rest d1 with
          | Raise e => Raise e
          | Ok (ids, d2) => Ok (Database.count d :: ids, d2)
          end
      end
  | Commit :: rest => run_ops rest (Database.commit d)
  | RemoveDuplicates :: rest => run_ops rest (Database.remove_duplicates d)
  end.

(** [n] inserts of the same file. *)
Fixpoint put_many (n : nat) (fn : string) (size : Z) (md5 : string)
    (d : Database.t) : result Database.t :=
  match n with
  | O => Ok d
  | S k =>
      match Database.put fn size md5 d with
      | Raise e => Raise e
      | Ok d1 => put_many k fn size md5 d1
      end
  end.

(** Close the store and open it again: [close()] commits, [Database(fn)]
    connects to what is on disk, [initialize()] follows. *)
Definition reopen (d : Database.t) : Database.t :=
  Database.initialize false (Database.connect (Database.disk (Database.commit d))).

End Session.

(** ** Sample data *)

Module Sample.

(** [zlib.compress(b"hello world hello world")] *)
Definition hello_z : bytes :=
  [x78; x9c; xcb; x48; xcd; xc9; xc9; x57; x28; xcf; x2f; xca; x49; x51; xc8;
   x40; xb0; x01; x69; xe7; x08; xd9].

Definition hello : bytes :=
  [x68; x65; x6c; x6c; x6f; x20; x77; x6f; x72; x6c; x64; x20; x68; x65; x6c;
   x6c; x6f; x20; x77; x6f; x72; x6c; x64].

(** [zlib.compress(b"UT2004")] *)
Definition ut2004_z : bytes :=
  [x78; x9c; x0b; x0d; x31; x32; x30; x30; x01; x00; x05; x94; x01; x70].

Definition ut2004 : bytes := [x55; x54; x32; x30; x30; x34].

(** [zlib.compress(b"a")] *)
Definition a_z : bytes := [x78; x9c; x4b; x04; x00; x00; x62; x00; x62].

(** [b"a"] deflated without the zlib wrapper. *)
Definition a_raw : bytes := [x4b; x04; x00].

(** [zlib.compress] of the empty byte string. *)
Definition empty_z : bytes := [x78; x9c; x03; x00; x00; x00; x00; x01].

(** 2 GiB less sixteen bytes of zeros. *)
Definition zeros : bytes := repeat x00 (Z.to_nat 2147483632).

(** A file of exactly 2 GiB: one chunk, whose payload is the zlib stream
    of the empty byte string followed by [zeros]. *)
Definition huge : file :=
  mkFile true (container [mkChunk 0 (empty_z ++ zeros)%list]).

(** The digest of no byte at all. *)
Definition md5_of_nothing : string := "d41d8cd98f00b204e9800998ecf8427e".

(** A new store, and a store whose largest id is 97, both just opened. *)
Definition fresh : Database.t := Database.initialize false (Database.connect []).

Definition used : Database.t :=
  Database.initialize false
    (Database.connect [Database.mkRow 97 "b.u" 0 md5_of_nothing]).

(** A store with a duplicate. *)
Definition with_duplicate : Database.t :=
  Database.mkDb []
    [Database.mkRow 1 "A" 10 "h1"; Database.mkRow 2 "A" 10 "h1";
     Database.mkRow 3 "B" 20 "h2"]
    4 false.

(** A session that inserts a duplicate, removes it and goes on. *)
Definition session : list Session.op :=
  [Session.Put "a.u" 1 md5_of_nothing; Session.Put "a.u" 1 md5_of_nothing;
   Session.RemoveDuplicates; Session.Commit;
   Session.Put "b.u" 2 md5_of_nothing].

(** A container whose payload is not a zlib stream, and a plain file. *)
Definition bad : dirent := Regular (mkFile true (container [mkChunk 1 a_raw])).

Definition good : dirent := Regular (mkFile true hello).

(** A container of two chunks. *)
Definition two_chunks : list chunk := [mkChunk 23 hello_z; mkChunk 6 ut2004_z].

(** A new store that folds names to lower case, as the user interface
    sets it by default. *)
Definition folding : Database.t := Database.mkDb [] [] 1 true.


(** A store where one content goes by two names. *)
Definition copies : Database.t :=
  Database.mkDb []
    [Database.mkRow 1 "a.u" 0 md5_of_nothing; Database.mkRow 2 "a.u" 0 md5_of_nothing;
     Database.mkRow 3 "b.u" 0 md5_of_nothing]
    4 false.

(** A choice of the row that gives a bare column: the first of the group. *)
Definition first_of (rows : Database.table) : Database.row :=
  hd (Database.mkRow 0 EmptyString 0 EmptyString) rows.

End Sample.

(** ** Measures of a scan *)



(** ** The console: [log] *)

Module Console.

Inductive stream : Type := stdout | stderr.

(** A line printed: the prefix, the message and where it goes. *)
Definition line : Type := (string * string * stream)%type.

(** The [if]/[elif] chain on [level]; [None] is the [else] branch, which
    leaves [prefix] and [file] unbound. *)
Definition prefix_of (level : Z) : option (string * stream) :=
  if level =? 4 then Some ("DEBUG:", stdout)
  else if ((level =? 3) || (level =? -3))%bool then Some ("INFO :", stdout)
  else if ((level =? 2) || (level =? -2))%bool then Some ("WARN :", stdout)
  else if level =? 1 then Some ("ERROR:", stderr)
  else if level =? 0 then Some ("FATAL:", stderr)
  else None.

(** [if level > MIN_LEVEL and level not in (-2, -3): return] *)
Definition muted (min_level level : Z) : bool :=
  ((min_level <? level) && negb ((level =? -2) || (level =? -3)))%bool.

(** [log(msg, level=level)] under [MIN_LEVEL = min_level]: the lines
    printed, and the exception that leaves it, if one does.  In the [else]
    branch the call [log("Invalid level", level=2)] comes first. *)
Definition log (min_level : Z) (msg : string) (level : Z) : list line * option exn :=
  match prefix_of level with
  | Some (prefix, file) =>
      if muted min_level level then ([], None)
      else ([(prefix, msg, file)], None)
  | None =>
      let inner : list line :=
        if muted min_level 2 then [] else [("WARN :", "Invalid level", stdout)] in
      if muted min_level level then (inner, None)
      else (inner, Some UnboundLocalError)
  end.

End Console.

(** ** The commands of [class UserInterface] that query the index *)

Module UserInterface.

Definition hex_digits : string := "abcdef1234567890".

(** [all(map(lambda q: q in allowed, s))] *)
Fixpoint all_in (allowed s : string) : bool :=
  match s with
  | EmptyString => true
  | String c r => (Str.contains c allowed && all_in allowed r)%bool
  end.

(** The test of [__init__] and [cmd_find] on the search string: true when
    it is refused. *)
Definition md5_refused (sm5 : string) : bool :=
  (negb (all_in hex_digits sm5) && negb (Str.len sm5 =? 32))%bool.

(** [cmd_find(arg)]: [None] when the string is refused, otherwise the rows
    printed. *)
Definition cmd_find (arg : string) (d : Database.t)
    : option (list (string * Z * string)) :=
  let sm5 := Str.casefold arg in
  if md5_refused sm5 then None else Some (Database.find sm5 d).

(** [cmd_name(arg)]: [None] when the name is refused, otherwise the rows
    printed. *)
Definition cmd_name (arg : string) (d : Database.t)
    : option (list (string * Z * string)) :=
  if (Str.contains ";"%char arg || Str.contains ":"%char arg
      || Str.contains " "%char arg)%bool
  then None
  else Some (Database.find_by_name arg d).

End UserInterface.
(** * Properties *)

Local Open Scope list_scope.

(** * Properties of the hash index *)

Section DatabaseFacts.

Import Database.

Lemma fold_max_le (l : list Z) (a : Z) : a <= fold_left Z.max l a.
Proof.
  revert a. induction l as [|x l IH]; intros a; simpl; [lia|].
  specialize (IH (Z.max a x)). lia.
Qed.

Lemma fold_max_upper (l : list Z) (a x : Z) :
  In x l -> x <= fold_left Z.max l a.
Proof.
  revert a. induction l as [|y l IH]; intros a Hin; simpl in *; [easy|].
  destruct Hin as [->|Hin]; [|now apply IH].
  pose proof (fold_max_le l (Z.max a x)). lia.
Qed.

Lemma fold_max_attained (l : list Z) (a : Z) :
  fold_left Z.max l a = a \/ In (fold_left Z.max l a) l.
Proof.
  revert a. induction l as [|y l IH]; intros a; simpl; [now left|].
  destruct (IH (Z.max a y)) as [H|H]; [|now right; right].
  rewrite H. destruct (Z.max_spec a y) as [[_ ->]|[_ ->]]; [right|left]; auto.
Qed.

(** [MAX(id)] is the id of a row, and no row has a larger one. *)
Lemma max_id_spec (rows : table) (m : Z) :
  max_id rows = Some m ->
  (exists r, In r rows /\ r_id r = m) /\ (forall r, In r rows -> r_id r <= m).
Proof.
  destruct rows as [|r0 rest]; simpl; [discriminate|].
  intros [= <-]. split.
  - destruct (fold_max_attained (map r_id rest) (r_id r0)) as [H|H].
    + exists r0. split; [now left | now rewrite H].
    + apply in_map_iff in H. destruct H as [r [Hr Hin]].
      exists r. split; [now right | exact Hr].
  - intros r [<-|Hin]; [apply fold_max_le|].
    apply fold_max_upper, in_map. exact Hin.
Qed.

Lemma max_id_none (rows : table) : max_id rows = None <-> rows = [].
Proof. destruct rows; simpl; split; intros H; congruence. Qed.

Lemma max_id_unique (rows : table) (m : Z) :
  (exists r, In r rows /\ r_id r = m) ->
  (forall r, In r rows -> r_id r <= m) ->
  max_id rows = Some m.
Proof.
  intros [r [Hin Hr]] Hle.
  destruct (max_id rows) as [m'|] eqn:E.
  - destruct (max_id_spec _ _ E) as [[r' [Hin' Hr']] Hle'].
    specialize (Hle _ Hin'). specialize (Hle' _ Hin). f_equal. lia.
  - apply max_id_none in E. subst. destruct Hin.
Qed.

Lemma same_group_iff (a b : row) :
  same_group a b = true <->
  r_filename a = r_filename b /\ r_md5 a = r_md5 b.
Proof.
  unfold same_group. rewrite andb_true_iff, !String.eqb_eq. tauto.
Qed.

Lemma same_group_refl (a : row) : same_group a a = true.
Proof. now apply same_group_iff. Qed.

Lemma same_group_sym (a b : row) :
  same_group a b = true -> same_group b a = true.
Proof. rewrite !same_group_iff. intuition congruence. Qed.

Lemma same_group_trans (a b c : row) :
  same_group a b = true -> same_group b c = true -> same_group a c = true.
Proof. rewrite !same_group_iff. intuition congruence. Qed.

Lemma group_heads_incl (rows : table) (g : row) :
  In g (group_heads rows) -> In g rows.
Proof.
  induction rows as [|r rest IH]; simpl; [easy|].
  intros [->|H]; [now left|]. right. apply IH.
  apply filter_In in H. tauto.
Qed.

(** Every row belongs to the group of one of the heads. *)
Lemma group_heads_cover (rows : table) (r : row) :
  In r rows -> exists g, In g (group_heads rows) /\ same_group g r = true.
Proof.
  induction rows as [|r0 rest IH]; simpl; [easy|].
  intros [->|Hin].
  - exists r. split; [now left | apply same_group_refl].
  - destruct (IH Hin) as [g [Hg Hgr]].
    destruct (same_group r0 g) eqn:E.
    + exists r0. split; [now left|]. eapply same_group_trans; eauto.
    + exists g. split; [|exact Hgr]. right.
      apply filter_In. split; [exact Hg | now rewrite E].
Qed.

Lemma in_select_max_ids (rows : table) (m : Z) :
  In m (select_max_ids rows) <->
  exists g, In g (group_heads rows) /\
            max_id (filter (same_group g) rows) = Some m.
Proof.
  unfold select_max_ids. rewrite in_flat_map. split.
  - intros [g [Hg Hm]]. exists g. split; [exact Hg|].
    destruct (max_id (filter (same_group g) rows)); simpl in Hm; [|easy].
    destruct Hm as [->|[]]. reflexivity.
  - intros [g [Hg Hm]]. exists g. split; [exact Hg|]. rewrite Hm. now left.
Qed.

Lemma in_delete_not_in (keep : list Z) (rows : table) (r : row) :
  In r (delete_not_in keep rows) <-> In r rows /\ In (r_id r) keep.
Proof.
  unfold delete_not_in. rewrite filter_In, existsb_exists.
  split; intros [H1 H2]; split; auto.
  - destruct H2 as [x [Hx Heq]]. apply Z.eqb_eq in Heq. now subst.
  - exists (r_id r). split; [exact H2 | apply Z.eqb_refl].
Qed.

(** A row that has the largest id of its group is kept. *)
Lemma largest_survives (rows : table) (r : row) :
  In r rows ->
  (forall r', In r' rows -> same_group r r' = true -> r_id r' <= r_id r) ->
  In r (delete_not_in (select_max_ids rows) rows).
Proof.
  intros Hin Hmax. apply in_delete_not_in. split; [exact Hin|].
  apply in_select_max_ids.
  destruct (group_heads_cover _ _ Hin) as [g [Hg Hgr]].
  exists g. split; [exact Hg|]. apply max_id_unique.
  - exists r. split; [|reflexivity]. apply filter_In. tauto.
  - intros r' Hr'. apply filter_In in Hr'. destruct Hr' as [Hr' Hgr'].
    apply Hmax; [exact Hr'|].
    eapply same_group_trans; [apply same_group_sym; exact Hgr | exact Hgr'].
Qed.

Lemma unique_by_id (rows : table) (a b : row) :
  NoDup (map r_id rows) -> In a rows -> In b rows -> r_id a = r_id b -> a = b.
Proof.
  induction rows as [|r rest IH]; simpl; [easy|].
  intros Hnd Ha Hb Heq. inversion Hnd as [|? ? Hnotin Hnd']; subst.
  destruct Ha as [->|Ha], Hb as [->|Hb]; auto.
  - exfalso. apply Hnotin. rewrite Heq. now apply in_map.
  - exfalso. apply Hnotin. rewrite <- Heq. now apply in_map.
Qed.

(** A row that is kept has the largest id of its group. *)
Lemma survivor_is_largest (rows : table) (r : row) :
  NoDup (map r_id rows) ->
  In r (delete_not_in (select_max_ids rows) rows) ->
  In r rows /\
  (forall r', In r' rows -> same_group r r' = true -> r_id r' <= r_id r).
Proof.
  intros Hnd Hr. apply in_delete_not_in in Hr. destruct Hr as [Hin Hid].
  split; [exact Hin|].
  apply in_select_max_ids in Hid. destruct Hid as [g [Hg Hm]].
  destruct (max_id_spec _ _ Hm) as [[r0 [Hr0 Hid0]] Hle].
  apply filter_In in Hr0. destruct Hr0 as [Hr0 Hg0].
  assert (r0 = r) by (eapply unique_by_id; eauto). subst r0.
  intros r' Hr' Hsame. apply Hle. apply filter_In. split; [exact Hr'|].
  eapply same_group_trans; eauto.
Qed.

(** No group disappears: every row has a row of its group, with an id at
    least as large, among those kept. *)
Lemma group_keeps_a_row (rows : table) (r : row) :
  In r rows ->
  exists r', In r' (delete_not_in (select_max_ids rows) rows) /\
             same_group r r' = true /\ r_id r <= r_id r'.
Proof.
  intros Hin.
  destruct (max_id (filter (same_group r) rows)) as [m|] eqn:E.
  - destruct (max_id_spec _ _ E) as [[r' [Hr' Hid]] Hle].
    apply filter_In in Hr'. destruct Hr' as [Hr' Hsame].
    exists r'. split; [|split; [exact Hsame|]].
    + apply largest_survives; [exact Hr'|].
      intros r'' Hr'' Hs. rewrite Hid. apply Hle. apply filter_In.
      split; [exact Hr''|]. eapply same_group_trans; eauto.
    + rewrite Hid. apply Hle. apply filter_In.
      split; [exact Hin | apply same_group_refl].
  - apply max_id_none in E.
    assert (H : In r (filter (same_group r) rows))
      by (apply filter_In; split; [exact Hin | apply same_group_refl]).
    rewrite E in H. destruct H.
Qed.

End DatabaseFacts.

Section IndexInvariant.

Import Database Session.

Lemma put_ok (fn : string) (size : Z) (md5 : string) (d d' : t) :
  put fn size md5 d = Ok d' ->
  exists name,
    work d' = (work d ++ [mkRow (count d) name size md5])%list /\
    count d' = count d + 1 /\
    force_casefold d' = force_casefold d /\
    name = (if force_casefold d then Str.casefold fn else fn) /\
    Str.len md5 = 32 /\
    (disk d' = work d' \/ disk d' = disk d) /\
    (count d' mod 100 = 0 -> disk d' = work d') /\
    (count d' mod 100 <> 0 -> disk d' = disk d).
Proof.
  unfold put, insert. cbn [r_id r_size].
  destruct (Z.eqb (Str.len md5) 32) eqn:Hlen; cbn [negb]; [|discriminate].
  apply Z.eqb_eq in Hlen.
  destruct (negb _); [discriminate|].
  destruct (has_id _ _); [discriminate|].
  cbn [count]. unfold PERIODICALLY_COMMIT.
  destruct (Z.eqb ((count d + 1) mod 100) 0) eqn:Hmod; intros [= <-].
  - apply Z.eqb_eq in Hmod. eexists. cbn.
    repeat split; auto. intros H. now rewrite Hmod in H.
  - apply Z.eqb_neq in Hmod. eexists. cbn.
    repeat split; auto. intros H. now rewrite H in Hmod.
Qed.

Lemma next_id_ok_bound (d : t) (r : row) :
  next_id_ok d -> In r (work d) -> r_id r < count d.
Proof.
  unfold next_id_ok. intros H Hin.
  destruct (max_id (work d)) as [m|] eqn:E.
  - destruct (max_id_spec _ _ E) as [_ Hle]. specialize (Hle _ Hin). lia.
  - apply max_id_none in E. rewrite E in Hin. destruct Hin.
Qed.

Lemma initialize_next_id_ok (delete : bool) (d : t) :
  next_id_ok (initialize delete d).
Proof.
  unfold next_id_ok, initialize. cbn [count work].
  destruct delete; [reflexivity|].
  destruct (max_id (work d)); reflexivity.
Qed.

Lemma commit_next_id_ok (d : t) : next_id_ok d -> next_id_ok (commit d).
Proof. exact (fun H => H). Qed.

Lemma put_next_id_ok (fn : string) (size : Z) (md5 : string) (d d' : t) :
  next_id_ok d -> put fn size md5 d = Ok d' -> next_id_ok d'.
Proof.
  intros Hinv Hput.
  destruct (put_ok _ _ _ _ _ Hput) as (name & Hw & Hc & _).
  unfold next_id_ok. rewrite Hw, Hc.
  rewrite (max_id_unique _ (count d)); [reflexivity| |].
  - eexists. split; [apply in_or_app; right; now left | reflexivity].
  - intros r Hin. apply in_app_or in Hin. destruct Hin as [Hin|[<-|[]]].
    + pose proof (next_id_ok_bound _ _ Hinv Hin). lia.
    + cbn. lia.
Qed.

Lemma remove_duplicates_next_id_ok (d : t) :
  next_id_ok d -> next_id_ok (remove_duplicates d).
Proof.
  unfold next_id_ok, remove_duplicates, commit. cbn [count work].
  intros Hinv. destruct (max_id (work d)) as [m|] eqn:E.
  - destruct (max_id_spec _ _ E) as [[r [Hin Hr]] Hle].
    rewrite (max_id_unique _ m); [exact Hinv| |].
    + exists r. split; [|exact Hr]. apply largest_survives; [exact Hin|].
      intros r' Hr' _. specialize (Hle _ Hr'). lia.
    + intros r' Hr'. apply in_delete_not_in in Hr'. apply Hle. tauto.
  - apply max_id_none in E. rewrite E. exact Hinv.
Qed.

(** The ids given out in a session are consecutive from the next id. *)
Lemma run_ops_ids (ops : list op) (d d' : t) (ids : list Z) :
  next_id_ok d -> run_ops ops d = Ok (ids, d') ->
  next_id_ok d' /\
  count d' = count d + Z.of_nat (List.length ids) /\
  Forall (fun i => count d <= i < count d') ids /\
  StronglySorted Z.lt ids.
Proof.
  revert d ids. induction ops as [|o ops IH]; intros d ids Hinv; simpl.
  - intros [= <- <-]. cbn. repeat split; auto; [lia | constructor].
  - destruct o as [fn size md5| |].
    + destruct (put fn size md5 d) as [d1|] eqn:Hput; [|discriminate].
      destruct (run_ops ops d1) as [[ids1 d2]|] eqn:Hrun; [|discriminate].
      intros [= <- <-].
      pose proof (put_next_id_ok _ _ _ _ _ Hinv Hput) as Hinv1.
      destruct (put_ok _ _ _ _ _ Hput) as (_ & _ & Hc & _).
      destruct (IH _ _ Hinv1 Hrun) as (Hinv2 & Hcount & Hge & Hsorted).
      split; [exact Hinv2|]. split; [cbn [List.length]; lia|]. split.
      * constructor; [lia|]. eapply Forall_impl; [|exact Hge].
        cbn. intros; lia.
      * constructor; [exact Hsorted|]. eapply Forall_impl; [|exact Hge].
        cbn. intros; lia.
    + intros Hrun. apply (IH _ _ (commit_next_id_ok _ Hinv) Hrun).
    + intros Hrun.
      apply (IH _ _ (remove_duplicates_next_id_ok _ Hinv) Hrun).
Qed.

Lemma reopen_spec (d : t) :
  next_id_ok d -> count (reopen d) = count d /\ work (reopen d) = work d.
Proof.
  unfold next_id_ok, reopen, initialize, connect, commit. cbn.
  intros ->. destruct (max_id (work d)); split; reflexivity.
Qed.

Lemma put_pending_ok (fn : string) (size : Z) (md5 : string) (d d' : t) :
  pending_ok d -> put fn size md5 d = Ok d' -> pending_ok d'.
Proof.
  intros (waiting & Hw & Hlen) Hput.
  destruct (put_ok _ _ _ _ _ Hput)
    as (name & Hw' & Hc & _ & _ & _ & _ & Hflush & Hkeep).
  destruct (Z.eq_dec (count d' mod 100) 0) as [Hz|Hnz].
  - exists []. rewrite (Hflush Hz), app_nil_r. split; [reflexivity|].
    cbn. rewrite Hz. lia.
  - exists (waiting ++ [mkRow (count d) name size md5])%list.
    rewrite (Hkeep Hnz), Hw', Hw, app_assoc. split; [reflexivity|].
    rewrite length_app. cbn [List.length].
    pose proof (Z.div_mod (count d) 100 ltac:(lia)).
    pose proof (Z.div_mod (count d') 100 ltac:(lia)).
    pose proof (Z.mod_pos_bound (count d) 100 ltac:(lia)).
    pose proof (Z.mod_pos_bound (count d') 100 ltac:(lia)).
    lia.
Qed.

Lemma put_many_pending_ok (n : nat) (fn : string) (size : Z) (md5 : string)
    (d d' : t) :
  pending_ok d -> put_many n fn size md5 d = Ok d' -> pending_ok d'.
Proof.
  revert d. induction n as [|n IH]; intros d Hp; simpl.
  - now intros [= <-].
  - destruct (put fn size md5 d) as [d1|] eqn:Hput; [|discriminate].
    apply IH. eapply put_pending_ok; eauto.
Qed.

End IndexInvariant.

Section DatabaseClaims.

Import Database.

(** C7. [remove_duplicates()] keeps, of every group of rows with the same
    name and digest (names compared as they are, case included), exactly
    the row with the largest id: a row is in the table afterwards if and
    only if it was there before and no row of its group had a larger id,
    and every group keeps such a row.  The rows kept are unchanged and in
    the same order, a row alone in its group stays, and the result is
    committed at once.  From the rows
    (1,"A",x,h1), (2,"A",x,h1), (3,"B",y,h2) exactly (2,"A",x,h1) and
    (3,"B",y,h2) are left. *)
Theorem C7_remove_duplicates_keeps_max_id (d : t) :
  NoDup (map r_id (work d)) ->
  let d' := remove_duplicates d in
  (forall r, In r (work d') <->
             In r (work d) /\
             forall r', In r' (work d) ->
                        r_filename r' = r_filename r -> r_md5 r' = r_md5 r ->
                        r_id r' <= r_id r)
  /\ (forall r, In r (work d) ->
                (forall r', In r' (work d) ->
                            r_filename r' = r_filename r -> r_md5 r' = r_md5 r ->
                            r' = r) ->
                In r (work d'))
  /\ (forall r, In r (work d) ->
                exists r', In r' (work d') /\
                           r_filename r' = r_filename r /\ r_md5 r' = r_md5 r /\
                           r_id r <= r_id r')
  /\ (exists keep, work d' = filter keep (work d))
  /\ disk d' = work d'
  /\ count d' = count d
  /\ (forall x y h1 h2,
        work d = [mkRow 1 "A" x h1; mkRow 2 "A" x h1; mkRow 3 "B" y h2] ->
        work d' = [mkRow 2 "A" x h1; mkRow 3 "B" y h2]).
Proof.
  intros Hnd d'. subst d'. unfold remove_duplicates, commit; simpl.
  assert (Hiff : forall r,
            In r (delete_not_in (select_max_ids (work d)) (work d)) <->
            In r (work d) /\
            forall r', In r' (work d) ->
                       r_filename r' = r_filename r -> r_md5 r' = r_md5 r ->
                       r_id r' <= r_id r).
  { intros r. split.
    - intros H. destruct (survivor_is_largest _ _ Hnd H) as [Hin Hmax].
      split; [exact Hin|]. intros r' Hr' Hf Hm. apply Hmax; [exact Hr'|].
      apply same_group_iff. auto.
    - intros [Hin Hmax]. apply largest_survives; [exact Hin|].
      intros r' Hr' Hs. apply same_group_iff in Hs. destruct Hs as [Hf Hm].
      apply Hmax; auto. }
  split; [exact Hiff|]. split; [|split; [|split; [|split; [|split]]]].
  - intros r Hin Halone. apply Hiff. split; [exact Hin|].
    intros r' Hr' Hf Hm. rewrite (Halone r' Hr' Hf Hm). lia.
  - intros r Hin. destruct (group_keeps_a_row _ _ Hin) as (r' & Hr' & Hs & Hle).
    apply same_group_iff in Hs. destruct Hs as [Hf Hm].
    exists r'. repeat split; auto.
  - eexists. reflexivity.
  - reflexivity.
  - reflexivity.
  - intros x y h1 h2 ->.
    unfold select_max_ids, same_group. cbn.
    repeat (rewrite !String.eqb_refl; cbn).
    reflexivity.
Qed.

(** The rows of the example, in a store. *)
Lemma C7_remove_duplicates_keeps_max_id_witness :
  NoDup (map r_id (work Sample.with_duplicate)) /\
  work (remove_duplicates Sample.with_duplicate) =
    [mkRow 2 "A" 10 "h1"; mkRow 3 "B" 20 "h2"] /\
  disk (remove_duplicates Sample.with_duplicate) =
    work (remove_duplicates Sample.with_duplicate).
Proof.
  assert (Hnd : NoDup (map r_id (work Sample.with_duplicate))).
  { cbn. repeat constructor; cbn; intuition lia. }
  destruct (C7_remove_duplicates_keeps_max_id Sample.with_duplicate Hnd)
    as (_ & _ & _ & _ & Hdisk & _ & Hex).
  split; [exact Hnd|]. split; [|exact Hdisk].
  apply (Hex 10 20 "h1" "h2"). reflexivity.
Defined.

End DatabaseClaims.

Section FlushAndIdClaims.

Import Database Session.

(** C8, as the specification has it, fails: the flush follows the ids, not
    the number of inserts.  On an empty store the first flush comes with
    the 99th insert and the 100th insert stays unflushed; on a store whose
    largest id is 97 the second insert is flushed. *)
Lemma C8_flush_not_every_100th_insert :
  (exists d, put_many 99 "a.u" 0 Sample.md5_of_nothing Sample.fresh = Ok d /\
             List.length (disk d) = 99%nat /\ List.length (work d) = 99%nat)
  /\ (exists d, put_many 100 "a.u" 0 Sample.md5_of_nothing Sample.fresh = Ok d /\
                List.length (disk d) = 99%nat /\ List.length (work d) = 100%nat)
  /\ (exists d, put_many 2 "a.u" 0 Sample.md5_of_nothing Sample.used = Ok d /\
                List.length (disk d) = 3%nat /\ List.length (work d) = 3%nat).
Proof.
  split; [|split]; eexists; (split; [vm_compute; reflexivity|]);
    split; vm_compute; reflexivity.
Qed.

(** C8, amended.  A successful insert takes the next id and moves the
    counter on by one; it flushes exactly when the counter reaches a
    multiple of 100, that is after the insert of an id that is 99 modulo
    100, and leaves the disk alone otherwise.  From a store with nothing
    waiting, any number of inserts leaves at most 99 rows waiting.  An
    explicit [commit()] flushes at any time. *)
Theorem C8_flush_when_counter_multiple_of_100 :
  (forall fn size md5 d d',
     put fn size md5 d = Ok d' ->
     count d' = count d + 1 /\
     (count d' mod PERIODICALLY_COMMIT = 0 -> disk d' = work d') /\
     (count d' mod PERIODICALLY_COMMIT <> 0 -> disk d' = disk d))
  /\ (forall n fn size md5 d d',
        disk d = work d ->
        put_many n fn size md5 d = Ok d' ->
        exists waiting,
          work d' = (disk d' ++ waiting)%list /\
          (List.length waiting <= 99)%nat)
  /\ (forall d, disk (commit d) = work d /\ work (commit d) = work d /\
                count (commit d) = count d).
Proof.
  split; [|split].
  - intros fn size md5 d d' Hput.
    destruct (put_ok _ _ _ _ _ Hput) as (name & _ & Hc & _ & _ & _ & _ & H1 & H2).
    unfold PERIODICALLY_COMMIT. auto.
  - intros n fn size md5 d d' Hclean Hputs.
    assert (Hp : pending_ok d).
    { exists []. rewrite app_nil_r. split; [now symmetry|].
      cbn. pose proof (Z.mod_pos_bound (count d) 100 ltac:(lia)). lia. }
    destruct (put_many_pending_ok _ _ _ _ _ _ Hp Hputs) as (w & Hw & Hlen).
    exists w. split; [exact Hw|].
    pose proof (Z.mod_pos_bound (count d') 100 ltac:(lia)). lia.
  - intros d. repeat split.
Qed.

(** An instance: 250 inserts into a store whose largest id is 97. *)
Lemma C8_flush_when_counter_multiple_of_100_witness :
  exists d, put_many 250 "a.u" 0 Sample.md5_of_nothing Sample.used = Ok d /\
  exists waiting, work d = (disk d ++ waiting)%list /\
                  (List.length waiting <= 99)%nat.
Proof.
  destruct (put_many 250 "a.u" 0 Sample.md5_of_nothing Sample.used)
    as [d|e] eqn:E; [|vm_compute in E; discriminate E].
  exists d. split; [reflexivity|].
  destruct C8_flush_when_counter_multiple_of_100 as (_ & Hmany & _).
  eapply Hmany; [|exact E]. reflexivity.
Defined.

(** C9.  [initialize] sets the next id to one more than the largest id of
    the table, or to 1 for an empty table; an insert gives the next id to
    its row and moves on by one.  So in a session of inserts, commits and
    duplicate removals, started on any stored table, the ids given out
    increase strictly and are larger than every id found at the start;
    and after closing and opening the store again every row is still
    there and the next id is where the session left it, above every id
    given out and every id of the table, whatever [remove_duplicates]
    deleted. *)
Theorem C9_ids_strictly_increasing_never_reused :
  (forall delete d,
     count (initialize delete d) =
       match max_id (work (initialize delete d)) with
       | Some m => m + 1
       | None => 1
       end)
  /\ (forall fn size md5 d d',
        put fn size md5 d = Ok d' ->
        count d' = count d + 1 /\
        exists name, work d' = (work d ++ [mkRow (count d) name size md5])%list)
  /\ (forall committed ops ids d',
        run_ops ops (initialize false (connect committed)) = Ok (ids, d') ->
        StronglySorted Z.lt ids /\
        (forall r i, In r committed -> In i ids -> r_id r < i) /\
        work (reopen d') = work d' /\
        count (reopen d') = count d' /\
        (forall i, In i ids -> i < count (reopen d')) /\
        (forall r, In r committed \/ In r (work d') -> r_id r < count (reopen d'))).
Proof.
  split; [|split].
  - intros delete d. apply initialize_next_id_ok.
  - intros fn size md5 d d' Hput.
    destruct (put_ok _ _ _ _ _ Hput) as (name & Hw & Hc & _).
    split; [exact Hc|]. now exists name.
  - intros committed ops ids d' Hrun.
    set (d0 := initialize false (connect committed)) in *.
    assert (Hinv0 : next_id_ok d0) by apply initialize_next_id_ok.
    destruct (run_ops_ids _ _ _ _ Hinv0 Hrun) as (Hinv & Hcount & Hge & Hsorted).
    destruct (reopen_spec _ Hinv) as [Hrc Hrw].
    assert (Hold : forall r, In r committed -> r_id r < count d0).
    { intros r Hin. apply next_id_ok_bound; [exact Hinv0 | exact Hin]. }
    rewrite Forall_forall in Hge.
    assert (Hlt : forall i, In i ids -> i < count d').
    { intros i Hi. apply (Hge i Hi). }
    split; [exact Hsorted|]. split; [|split; [exact Hrw|split; [exact Hrc|split]]].
    + intros r i Hr Hi. pose proof (Hold r Hr). pose proof (Hge i Hi). lia.
    + intros i Hi. rewrite Hrc. auto.
    + intros r [Hr|Hr]; rewrite Hrc.
      * pose proof (Hold r Hr). lia.
      * apply next_id_ok_bound; assumption.
Qed.

(** An instance: a duplicate is inserted and removed, and the store is
    opened again. *)
Lemma C9_ids_strictly_increasing_never_reused_witness :
  exists d',
    run_ops Sample.session
            (initialize false (connect [mkRow 5 "c.u" 3 Sample.md5_of_nothing]))
    = Ok ([6; 7; 8], d') /\
    StronglySorted Z.lt [6; 7; 8] /\
    count (reopen d') = count d'.
Proof.
  eexists. split; [vm_compute; reflexivity|].
  destruct C9_ids_strictly_increasing_never_reused as (_ & _ & H).
  match goal with
  | |- StronglySorted _ _ /\ count (reopen ?d) = _ =>
      destruct (H [mkRow 5 "c.u" 3 Sample.md5_of_nothing] Sample.session
                  [6; 7; 8] d ltac:(vm_compute; reflexivity))
        as (Hs & _ & _ & Hc & _)
  end.
  split; [exact Hs | exact Hc].
Defined.

End FlushAndIdClaims.

(** * Properties of the decoder and the classifier *)

Section BytesFacts.

Lemma byte_val_range (b : byte) : 0 <= byte_val b < 256.
Proof.
  unfold byte_val. pose proof (Byte.to_N_bounded b). lia.
Qed.

Lemma byte_val_of (n : Z) : byte_val (byte_of n) = n mod 256.
Proof.
  unfold byte_val, byte_of.
  pose proof (Z.mod_pos_bound n 256 ltac:(lia)) as Hr.
  destruct (Byte.of_N (Z.to_N (n mod 256))) as [b|] eqn:E.
  - apply Byte.to_of_N in E. rewrite E. lia.
  - apply Byte.of_N_None_iff in E. lia.
Qed.

Lemma le_uint_nonneg (bs : bytes) : 0 <= le_uint bs.
Proof.
  induction bs as [|b r IH]; cbn [le_uint]; [lia|].
  pose proof (byte_val_range b). lia.
Qed.

Lemma le_uint_le_bytes4 (v : Z) :
  0 <= v < 2 ^ 32 -> le_uint (le_bytes 4 v) = v.
Proof.
  intros Hv. unfold le_bytes. cbn [seq map le_uint].
  rewrite !byte_val_of, !Z.shiftr_div_pow2 by lia.
  change (8 * Z.of_nat 0) with 0. change (8 * Z.of_nat 1) with 8.
  change (8 * Z.of_nat 2) with 16. change (8 * Z.of_nat 3) with 24.
  change (2 ^ 0) with 1. change (2 ^ 8) with 256.
  change (2 ^ 16) with 65536. change (2 ^ 24) with 16777216.
  change (2 ^ 32) with 4294967296 in Hv.
  Z.div_mod_to_equations. lia.
Qed.

Lemma unpack_pack_II (cs us : Z) :
  0 <= cs < 2 ^ 32 -> 0 <= us < 2 ^ 32 ->
  unpack_II (pack_II cs us) = Some (cs, us).
Proof.
  intros Hc Hu.
  pose proof (le_uint_le_bytes4 cs Hc) as Ec.
  pose proof (le_uint_le_bytes4 us Hu) as Eu.
  unfold pack_II, le_bytes in *. cbn [seq map app] in *.
  cbn [unpack_II]. now rewrite Ec, Eu.
Qed.

Lemma length_pack_II (cs us : Z) : List.length (pack_II cs us) = 8%nat.
Proof. reflexivity. Qed.

Lemma blen_app (a b : bytes) : blen (a ++ b) = blen a + blen b.
Proof. unfold blen. rewrite length_app. lia. Qed.

Lemma blen_nonneg (a : bytes) : 0 <= blen a.
Proof. unfold blen. lia. Qed.

Lemma read_app (a rest : bytes) : read (blen a) (a ++ rest) = (a, rest).
Proof.
  unfold read, blen. rewrite Nat2Z.id.
  rewrite firstn_app, skipn_app, Nat.sub_diag, firstn_all, skipn_all.
  cbn. now rewrite app_nil_r.
Qed.

(** A read past the end of the file returns what is left. *)
Lemma read_short (n : Z) (f : bytes) : blen f <= n -> read n f = (f, []).
Proof.
  unfold read, blen. intros H.
  rewrite firstn_all2, skipn_all2 by lia. reflexivity.
Qed.

Lemma read_pack_II (cs us : Z) (rest : bytes) :
  read 8 (pack_II cs us ++ rest) = (pack_II cs us, rest).
Proof. exact (read_app (pack_II cs us) rest). Qed.

End BytesFacts.

Section LibraryVectors.

(** The test suite of RFC 1321, in part. *)
Example md5_vector_nothing : MD5.hexdigest MD5.new = "d41d8cd98f00b204e9800998ecf8427e".
Proof. vm_compute. reflexivity. Qed.

Example md5_vector_a :
  MD5.hexdigest (MD5.update MD5.new [x61]) = "0cc175b9c0f1b6a831c399e269772661".
Proof. vm_compute. reflexivity. Qed.

Example md5_vector_abc :
  MD5.hexdigest (MD5.update MD5.new [x61; x62; x63])
  = "900150983cd24fb0d6963f7d28e17f72".
Proof. vm_compute. reflexivity. Qed.

(** Eighty bytes, to go over a block. *)
Example md5_vector_digits :
  MD5.hexdigest
    (MD5.update MD5.new
       (List.concat (repeat [x31; x32; x33; x34; x35; x36; x37; x38; x39; x30] 8)))
  = "57edf4a22be3c955ac49da2e2107b67a".
Proof. vm_compute. reflexivity. Qed.

(** Streams made by [zlib.compress], with and without the wrapper. *)
Example inflate_hello : Zlib.decompress Sample.hello_z 15 23 = Ok Sample.hello.
Proof. vm_compute. reflexivity. Qed.

Example inflate_ut2004 : Zlib.decompress Sample.ut2004_z 15 6 = Ok Sample.ut2004.
Proof. vm_compute. reflexivity. Qed.

Example inflate_raw_a : Zlib.decompress Sample.a_raw (-15) 1 = Ok [x61].
Proof. vm_compute. reflexivity. Qed.

Example inflate_nothing (us : Z) : 0 <= us -> Zlib.decompress [] 15 us = Raise ZlibError.
Proof.
  intros H. unfold Zlib.decompress.
  assert (E : (us <? 0) = false) by (apply Z.ltb_ge; lia).
  now rewrite E.
Qed.

End LibraryVectors.

Section HashFacts.

(** Feeding a hash object piece by piece or at once is the same. *)
Lemma md5_update_app (h : MD5.state) (a b : bytes) :
  MD5.update (MD5.update h a) b = MD5.update h (a ++ b).
Proof. unfold MD5.update. now rewrite fold_left_app. Qed.

Lemma md5_update_nil (h : MD5.state) : MD5.update h [] = h.
Proof. reflexivity. Qed.

(** The 32 KiB reads of the plain branch hash the whole file. *)
Lemma hash_blocks_all (fuel : nat) (f : bytes) (h : MD5.state) :
  (List.length f < fuel)%nat ->
  HashGrabber.hash_blocks fuel f h = MD5.update h f.
Proof.
  revert f h. induction fuel as [|fuel IH]; intros f h Hlen; [lia|].
  cbn [HashGrabber.hash_blocks]. unfold read.
  destruct (firstn (Z.to_nat 32768) f) as [|b chunk] eqn:E.
  - destruct f as [|b f]; [reflexivity|].
    change (Z.to_nat 32768) with (S (Z.to_nat 32767)) in E. discriminate E.
  - rewrite <- E. rewrite IH.
    + rewrite md5_update_app. now rewrite firstn_skipn.
    + rewrite length_skipn.
      assert (0 < List.length f)%nat by (destruct f; [discriminate E | cbn; lia]).
      assert (0 < Z.to_nat 32768)%nat by lia. lia.
Qed.

End HashFacts.

Section DecodeFacts.

Import HashGrabber.

Variables fn rfn : string.

Lemma say_nil (r : run) : say [] r = r.
Proof. now destruct r. Qed.

Lemma say_say (a b : list event) (r : run) : say a (say b r) = say (a ++ b) r.
Proof. unfold say. cbn. now rewrite app_assoc. Qed.

Lemma snd_say (a : list event) (r : run) : snd (say a r) = snd r.
Proof. reflexivity. Qed.

Lemma fst_say (a : list event) (r : run) : fst (say a r) = a ++ fst r.
Proof. reflexivity. Qed.

Lemma decode_done (fuel : nat) (f : bytes) (fs size : Z) (h : MD5.state) (n : Z) :
  fs <= 0 ->
  decode fuel fn rfn f fs size h n = ([], Ok (rfn, Some (size, MD5.hexdigest h))).
Proof.
  intros H. apply Z.leb_le in H. destruct fuel; cbn [decode]; now rewrite H.
Qed.

(** One turn of the loop on a chunk that is there in full: whatever the
    header says, the payload is read and handed to [zlib.decompress]. *)
Lemma decode_chunk (fuel : nat) (c : chunk) (rest : bytes) (fs size : Z)
    (h : MD5.state) (n : Z) :
  encodable c -> 0 < fs ->
  decode (S fuel) fn rfn (encode_chunk c ++ rest) fs size h n =
  say (validate fn (compressed_size c) (uncompressed_size c))
      match Zlib.decompress (payload c) 15 (uncompressed_size c) with
      | Raise e => ([], Raise e)
      | Ok data =>
          decode fuel fn rfn rest (fs - (8 + compressed_size c))
                 (size + uncompressed_size c) (MD5.update h data) (n + 1)
      end.
Proof.
  intros [Hus Hcs] Hfs. cbn [decode].
  assert (E : (fs <=? 0) = false) by (apply Z.leb_gt; lia). rewrite E.
  unfold encode_chunk. rewrite <- app_assoc, read_pack_II.
  rewrite unpack_pack_II; [|pose proof (blen_nonneg (payload c));
                             unfold compressed_size in *; lia | exact Hus].
  unfold compressed_size. rewrite read_app, Z.eqb_refl. cbn [negb].
  reflexivity.
Qed.

(** One turn of the loop on a chunk whose payload is cut short. *)
Lemma decode_truncated (fuel : nat) (cs us : Z) (p : bytes) (fs size : Z)
    (h : MD5.state) (n : Z) :
  0 <= cs < 2 ^ 32 -> 0 <= us < 2 ^ 32 -> blen p < cs -> 0 < fs ->
  decode (S fuel) fn rfn (pack_II cs us ++ p) fs size h n =
  say (validate fn cs us) ([UnexpectedEOF fn n], Ok (rfn, None)).
Proof.
  intros Hcs Hus Hp Hfs. cbn [decode].
  assert (E : (fs <=? 0) = false) by (apply Z.leb_gt; lia). rewrite E.
  rewrite read_pack_II, unpack_pack_II by assumption.
  rewrite read_short by lia.
  assert (E' : (blen p =? cs) = false) by (apply Z.eqb_neq; lia).
  rewrite E'. reflexivity.
Qed.

(** One turn of the loop on fewer than eight bytes: the clean end. *)
Lemma decode_eof (fuel : nat) (tail : bytes) (fs size : Z)
    (h : MD5.state) (n : Z) :
  (List.length tail < 8)%nat -> 0 < fs ->
  decode (S fuel) fn rfn tail fs size h n =
  ([ExpectedEOF fn n], Ok (rfn, Some (size, MD5.hexdigest h))).
Proof.
  intros Hlen Hfs. cbn [decode].
  assert (E : (fs <=? 0) = false) by (apply Z.leb_gt; lia). rewrite E.
  rewrite read_short by (unfold blen; lia).
  assert (U : unpack_II tail = None).
  { do 8 (destruct tail as [|? tail]; [reflexivity|]). cbn in Hlen. lia. }
  rewrite U. reflexivity.
Qed.

Lemma unpack_II_nonneg (b : bytes) (cs us : Z) :
  unpack_II b = Some (cs, us) -> 0 <= cs /\ 0 <= us.
Proof.
  unfold unpack_II.
  destruct b as [|b0 [|b1 [|b2 [|b3 [|b4 [|b5 [|b6 [|b7 [|b8 b]]]]]]]]];
    try discriminate.
  intros H. injection H as Hcs Hus. subst cs us.
  split; [apply (le_uint_nonneg [b0; b1; b2; b3])
         | apply (le_uint_nonneg [b4; b5; b6; b7])].
Qed.

(** The loop does not depend on its fuel, once there is as much of it as
    the size of the file: it always comes to an end by itself. *)
Lemma decode_fuel (n m : nat) (f : bytes) (fs size : Z) (h : MD5.state) (k : Z) :
  (Z.to_nat fs <= n)%nat -> (Z.to_nat fs <= m)%nat ->
  decode n fn rfn f fs size h k = decode m fn rfn f fs size h k.
Proof.
  revert m f fs size h k.
  induction n as [|n IH]; intros m f fs size h k Hn Hm.
  - rewrite !decode_done by lia. reflexivity.
  - destruct (Z_le_gt_dec fs 0) as [Hle|Hgt].
    { rewrite !decode_done by lia. reflexivity. }
    destruct m as [|m]; [lia|]. cbn [decode].
    destruct (fs <=? 0); [reflexivity|].
    destruct (read 8 f) as [header f1].
    destruct (unpack_II header) as [[cs us]|] eqn:U; [|reflexivity].
    destruct (unpack_II_nonneg _ _ _ U) as [Hcs _].
    f_equal. destruct (read cs f1) as [chunk f2].
    destruct (negb (blen chunk =? cs)); [reflexivity|].
    destruct (Zlib.decompress chunk 15 us); [|reflexivity].
    apply IH; lia.
Qed.

End DecodeFacts.

(** For a chunk given in full, the sizes are settled by computation. *)
Ltac concrete_chunk :=
  split; [vm_compute; split; [discriminate | reflexivity]
         | vm_compute; reflexivity].

Section ContainerFacts.

Import HashGrabber.

Lemma validate_quiet (fn : string) (cs us : Z) :
  0 < cs <= 33096 -> 0 < us <= 32768 -> validate fn cs us = [].
Proof.
  intros H1 H2. unfold validate.
  assert (E1 : (33096 <? cs) = false) by (apply Z.ltb_ge; lia).
  assert (E2 : (32768 <? us) = false) by (apply Z.ltb_ge; lia).
  assert (E3 : (cs =? 0) = false) by (apply Z.eqb_neq; lia).
  assert (E4 : (us =? 0) = false) by (apply Z.eqb_neq; lia).
  now rewrite E1, E2, E3, E4.
Qed.

Lemma blen_encode_chunk (c : chunk) :
  blen (encode_chunk c) = 8 + compressed_size c.
Proof.
  unfold encode_chunk. rewrite blen_app. reflexivity.
Qed.

Lemma compressed_size_nonneg (c : chunk) : 0 <= compressed_size c.
Proof. apply blen_nonneg. Qed.

(** The loop over a run of chunks that all inflate: it comes out of the
    run with the sizes added up and every plain chunk hashed, in order. *)
Lemma decode_prefix (fn rfn : string) (chunks : list chunk) (datas : list bytes) :
  Forall encodable chunks ->
  Forall2 inflates_to chunks datas ->
  forall (rest : bytes) (k : nat) (size : Z) (h : MD5.state) (n : Z),
  decode (List.length chunks + k) fn rfn (container chunks ++ rest)
         (blen (container chunks ++ rest)) size h n =
  say (validations fn chunks)
      (decode k fn rfn rest (blen rest) (size + logical_size chunks)
              (MD5.update h (List.concat datas)) (n + Z.of_nat (List.length chunks))).
Proof.
  intros Henc Hinf. revert Henc.
  induction Hinf as [|c d chunks datas Hc Hrest IH]; intros Henc rest k size h n.
  - cbn. rewrite say_nil, Z.add_0_r, Z.add_0_r. reflexivity.
  - inversion Henc as [|? ? Hc_enc Henc']; subst.
    cbn [container flat_map List.length Nat.add]. rewrite <- app_assoc.
    fold (container chunks).
    pose proof (compressed_size_nonneg c) as Hcs.
    pose proof (blen_nonneg (container chunks ++ rest)) as Hrest_len.
    rewrite decode_chunk;
      [|exact Hc_enc | rewrite blen_app, blen_encode_chunk; lia].
    unfold inflates_to in Hc. rewrite Hc.
    replace (blen (encode_chunk c ++ container chunks ++ rest)
             - (8 + compressed_size c))
      with (blen (container chunks ++ rest))
      by (rewrite (blen_app (encode_chunk c)), blen_encode_chunk; lia).
    rewrite (IH Henc'). rewrite say_say.
    cbn [List.concat logical_size fold_right validations flat_map].
    rewrite md5_update_app.
    replace (size + uncompressed_size c + logical_size chunks)
      with (size + (uncompressed_size c + logical_size chunks)) by lia.
    replace (n + 1 + Z.of_nat (List.length chunks))
      with (n + Z.of_nat (S (List.length chunks))) by lia.
    reflexivity.
Qed.

Lemma check_one_file_compressed (fn : string) (f : bytes) (skip : bool) :
  is_compressed fn = true ->
  check_one_file fn (mkFile true f) skip =
  say [CompressedFile fn]
      (decode (Z.to_nat (blen f)) fn (Path.basename (Str.drop_last4 fn)) f
              (blen f) 0 MD5.new 0).
Proof.
  intros H. unfold check_one_file. rewrite H. reflexivity.
Qed.

(** The compressed branch on a file that starts with chunks that inflate. *)
Lemma check_one_file_prefix (fn : string) (chunks : list chunk)
    (datas : list bytes) (rest : bytes) (skip : bool) (k : nat) :
  is_compressed fn = true ->
  Forall encodable chunks ->
  Forall2 inflates_to chunks datas ->
  (Z.to_nat (blen rest) <= k)%nat ->
  check_one_file fn (mkFile true (container chunks ++ rest)) skip =
  say (CompressedFile fn :: validations fn chunks)
      (decode k fn (Path.basename (Str.drop_last4 fn)) rest (blen rest)
              (logical_size chunks) (MD5.update MD5.new (List.concat datas))
              (Z.of_nat (List.length chunks))).
Proof.
  intros Hfn Henc Hinf Hk. rewrite check_one_file_compressed by exact Hfn.
  rewrite (decode_fuel _ _ _ (List.length chunks
                              + (k + Z.to_nat (blen (container chunks ++ rest)))))
    by lia.
  rewrite (decode_prefix _ _ _ _ Henc Hinf). rewrite say_say.
  cbn [app]. f_equal. apply decode_fuel; lia.
Qed.

(** ... ending exactly after them: the digest of the plain chunks put end
    to end. *)
Lemma check_one_file_container (fn : string) (chunks : list chunk)
    (datas : list bytes) (skip : bool) :
  is_compressed fn = true ->
  Forall encodable chunks ->
  Forall2 inflates_to chunks datas ->
  check_one_file fn (mkFile true (container chunks)) skip =
  (CompressedFile fn :: validations fn chunks,
   Ok (Path.basename (Str.drop_last4 fn),
       Some (logical_size chunks,
             MD5.hexdigest (MD5.update MD5.new (List.concat datas))))).
Proof.
  intros Hfn Henc Hinf.
  rewrite <- (app_nil_r (container chunks)).
  rewrite (check_one_file_prefix _ _ _ _ _ O Hfn Henc Hinf) by (cbn; lia).
  rewrite decode_done by (cbn; lia). unfold say. cbn. now rewrite app_nil_r.
Qed.

(** ... followed by a chunk that does not inflate: the exception of
    [zlib.decompress] leaves [check_one_file]. *)
Lemma check_one_file_inflate_error (fn : string) (chunks : list chunk)
    (datas : list bytes) (c : chunk) (rest : bytes) (e : exn) (skip : bool) :
  is_compressed fn = true ->
  Forall encodable chunks ->
  Forall2 inflates_to chunks datas ->
  encodable c ->
  Zlib.decompress (payload c) 15 (uncompressed_size c) = Raise e ->
  check_one_file fn (mkFile true (container chunks ++ encode_chunk c ++ rest)) skip =
  (CompressedFile fn :: validations fn chunks
     ++ validate fn (compressed_size c) (uncompressed_size c),
   Raise e).
Proof.
  intros Hfn Henc Hinf Hc He.
  rewrite (check_one_file_prefix _ _ _ _ _
             (S (Z.to_nat (blen (encode_chunk c ++ rest)))) Hfn Henc Hinf) by lia.
  pose proof (compressed_size_nonneg c). pose proof (blen_nonneg rest).
  rewrite decode_chunk;
    [|exact Hc | rewrite blen_app, blen_encode_chunk; lia].
  rewrite He, say_say. unfold say. cbn. now rewrite app_nil_r.
Qed.

(** ... followed by a header whose payload is cut short: no digest. *)
Lemma check_one_file_truncated (fn : string) (chunks : list chunk)
    (datas : list bytes) (cs us : Z) (p : bytes) (skip : bool) :
  is_compressed fn = true ->
  Forall encodable chunks ->
  Forall2 inflates_to chunks datas ->
  0 <= cs < 2 ^ 32 -> 0 <= us < 2 ^ 32 -> blen p < cs ->
  check_one_file fn (mkFile true (container chunks ++ pack_II cs us ++ p)) skip =
  (CompressedFile fn :: validations fn chunks ++ validate fn cs us
     ++ [UnexpectedEOF fn (Z.of_nat (List.length chunks))],
   Ok (Path.basename (Str.drop_last4 fn), None)).
Proof.
  intros Hfn Henc Hinf Hcs Hus Hp.
  rewrite (check_one_file_prefix _ _ _ _ _
             (S (Z.to_nat (blen (pack_II cs us ++ p)))) Hfn Henc Hinf) by lia.
  pose proof (blen_nonneg p).
  rewrite decode_truncated; try assumption;
    [|rewrite blen_app; change (blen (pack_II cs us)) with 8; lia].
  rewrite say_say. unfold say. cbn. now rewrite <- app_assoc.
Qed.

End ContainerFacts.

Section DecoderClaims.

Import HashGrabber.

(** C2, as the specification has it, fails: a zero [uncompressed_size]
    does not stop the decoder.  The container of one chunk that declares
    [uncompressed_size == 0] over the zlib stream of [b"a"] is decoded
    and hashed: the digest of [b"a"] is returned, with a logical size of 0. *)
Lemma C2_zero_uncompressed_size_is_decoded :
  uncompressed_size (mkChunk 0 Sample.a_z) = 0 /\
  check_one_file "a.uz2" (mkFile true (container [mkChunk 0 Sample.a_z])) true =
  ([CompressedFile "a.uz2"; ZeroUncompressed "a.uz2" 0],
   Ok ("a", Some (0, "0cc175b9c0f1b6a831c399e269772661"))).
Proof. split; vm_compute; reflexivity. Qed.

(** C2, amended.  The checks on a chunk header never stop the decoder:
    whatever the two sizes are, the payload is read and handed to
    [zlib.decompress], and the loop goes on if that succeeds.  The checks
    only choose a message, at most one: a warning when a size is over its
    limit, an error when neither is and a size is zero.  With
    [compressed_size == 0] the empty payload does not inflate, so the file
    ends with [zlib.error] and no digest; with [uncompressed_size == 0]
    alone the chunk is inflated and hashed like any other. *)
Theorem C2_header_checks_only_log :
  (forall fn rfn fuel c rest fs size h n,
     encodable c -> 0 < fs ->
     decode (S fuel) fn rfn (encode_chunk c ++ rest) fs size h n =
     say (validate fn (compressed_size c) (uncompressed_size c))
         match Zlib.decompress (payload c) 15 (uncompressed_size c) with
         | Raise e => ([], Raise e)
         | Ok data =>
             decode fuel fn rfn rest (fs - (8 + compressed_size c))
                    (size + uncompressed_size c) (MD5.update h data) (n + 1)
         end)
  /\ (forall fn cs us,
        (33096 < cs \/ 32768 < us ->
         exists e, validate fn cs us = [e] /\ level e = 2)
        /\ (cs <= 33096 -> us <= 32768 -> cs = 0 \/ us = 0 ->
            exists e, validate fn cs us = [e] /\ level e = 1)
        /\ (0 < cs <= 33096 -> 0 < us <= 32768 -> validate fn cs us = []))
  /\ (forall fn chunks datas c rest skip,
        is_compressed fn = true ->
        Forall encodable chunks -> Forall2 inflates_to chunks datas ->
        encodable c -> compressed_size c = 0 ->
        snd (check_one_file fn (mkFile true (container chunks ++ encode_chunk c ++ rest))
                            skip) = Raise ZlibError)
  /\ (forall fn c d skip,
        is_compressed fn = true ->
        encodable c -> uncompressed_size c = 0 -> 0 < compressed_size c <= 33096 ->
        inflates_to c d ->
        check_one_file fn (mkFile true (container [c])) skip =
        ([CompressedFile fn; ZeroUncompressed fn 0],
         Ok (Path.basename (Str.drop_last4 fn),
             Some (0, MD5.hexdigest (MD5.update MD5.new d))))).
Proof.
  split; [|split; [|split]].
  - intros. now apply decode_chunk.
  - intros fn cs us. unfold validate. split; [|split].
    + intros H. destruct (33096 <? cs) eqn:E1; [eexists; split; reflexivity|].
      destruct (32768 <? us) eqn:E2; [eexists; split; reflexivity|].
      apply Z.ltb_ge in E1, E2. lia.
    + intros H1 H2 H.
      assert (E1 : (33096 <? cs) = false) by (apply Z.ltb_ge; lia).
      assert (E2 : (32768 <? us) = false) by (apply Z.ltb_ge; lia).
      rewrite E1, E2.
      destruct (cs =? 0) eqn:E3; [eexists; split; reflexivity|].
      destruct (us =? 0) eqn:E4; [eexists; split; reflexivity|].
      apply Z.eqb_neq in E3, E4. lia.
    + intros H1 H2. now apply validate_quiet.
  - intros fn chunks datas c rest skip Hfn Henc Hinf Hc Hzero.
    assert (Hp : payload c = []).
    { unfold compressed_size, blen in Hzero.
      destruct (payload c); [reflexivity | discriminate Hzero]. }
    assert (He : Zlib.decompress (payload c) 15 (uncompressed_size c)
                 = Raise ZlibError).
    { rewrite Hp. unfold Zlib.decompress.
      destruct Hc as [[Hus _] _].
      assert (E : (uncompressed_size c <? 0) = false) by (apply Z.ltb_ge; lia).
      rewrite E. reflexivity. }
    rewrite (check_one_file_inflate_error _ _ _ _ _ _ _ Hfn Henc Hinf Hc He).
    reflexivity.
  - intros fn c d skip Hfn Hc Hus Hcs Hd.
    rewrite (check_one_file_container fn [c] [d] skip Hfn);
      [|now constructor | now constructor].
    cbn [validations flat_map logical_size fold_right List.concat app].
    rewrite Hus, (app_nil_r (validate _ _ _)). unfold validate.
    assert (E1 : (33096 <? compressed_size c) = false) by (apply Z.ltb_ge; lia).
    assert (E3 : (compressed_size c =? 0) = false) by (apply Z.eqb_neq; lia).
    rewrite E1, E3, app_nil_r. reflexivity.
Qed.

(** An instance of each part: a chunk of zero plain size, and a file that
    is a header of zero compressed size. *)
Lemma C2_header_checks_only_log_witness :
  check_one_file "a.uz2" (mkFile true (container [mkChunk 0 Sample.a_z])) true =
  ([CompressedFile "a.uz2"; ZeroUncompressed "a.uz2" 0],
   Ok ("a", Some (0, "0cc175b9c0f1b6a831c399e269772661")))
  /\ snd (check_one_file "b.uz2"
            (mkFile true (container [] ++ encode_chunk (mkChunk 5 []) ++ []))
            true) = Raise ZlibError.
Proof.
  destruct C2_header_checks_only_log as (_ & _ & Hzero_cs & Hzero_us).
  split.
  - refine (eq_trans (Hzero_us "a.uz2" (mkChunk 0 Sample.a_z) [x61] true
                        eq_refl _ eq_refl _ _) _).
    + concrete_chunk.
    + vm_compute. split; [reflexivity | discriminate].
    + vm_compute. reflexivity.
    + vm_compute. reflexivity.
  - apply (Hzero_cs "b.uz2" [] [] (mkChunk 5 []) [] true eq_refl).
    + constructor.
    + constructor.
    + concrete_chunk.
    + reflexivity.
Defined.

(** C3, as the specification has it, fails twice.  A payload that is a raw
    deflate stream, without the zlib header, is refused: the three bytes
    below inflate to [b"a"] as a raw stream, and the container that holds
    them ends with [zlib.error].  And [uncompressed_size] is not what the
    output must measure: the zlib stream of the one byte [b"a"] under a
    header that declares five bytes is decoded and hashed. *)
Lemma C3_raw_deflate_payload_is_refused :
  Zlib.decompress Sample.a_raw (-15) 1 = Ok [x61]
  /\ check_one_file "a.uz2" (mkFile true (container [mkChunk 1 Sample.a_raw])) true =
     ([CompressedFile "a.uz2"], Raise ZlibError)
  /\ check_one_file "a.uz2" (mkFile true (container [mkChunk 5 Sample.a_z])) true =
     ([CompressedFile "a.uz2"],
      Ok ("a", Some (5, "0cc175b9c0f1b6a831c399e269772661"))).
Proof. repeat split; vm_compute; reflexivity. Qed.

(** C3, amended.  The payload of a chunk is inflated as a zlib stream
    ([wbits = 15]): two header bytes that name method 8 and make a
    multiple of 31, the deflate stream, and the Adler-32 of the plain
    bytes.  [uncompressed_size] is only the first size of the output
    buffer: the outcome does not depend on it.  When a payload does not
    inflate, the error leaves [check_one_file]: the file gets no digest. *)
Theorem C3_payload_is_a_zlib_stream :
  (forall fn chunks datas c rest e skip,
     is_compressed fn = true ->
     Forall encodable chunks -> Forall2 inflates_to chunks datas ->
     encodable c ->
     Zlib.decompress (payload c) 15 (uncompressed_size c) = Raise e ->
     snd (check_one_file fn (mkFile true (container chunks ++ encode_chunk c ++ rest))
                         skip) = Raise e)
  /\ (forall data us out,
        0 <= us ->
        (Zlib.decompress data 15 us = Ok out <-> Zlib.inflate_zlib data = Some out))
  /\ (forall data out,
        Zlib.inflate_zlib data = Some out ->
        exists cmf flg body t0 t1 t2 t3 after,
          data = cmf :: flg :: body /\
          (256 * byte_val cmf + byte_val flg) mod 31 = 0 /\
          Z.land (byte_val cmf) 15 = 8 /\
          Zlib.inflate body = Some (out, t0 :: t1 :: t2 :: t3 :: after) /\
          Zlib.be_uint_from 0 [t0; t1; t2; t3] = Zlib.adler32 out).
Proof.
  split; [|split].
  - intros fn chunks datas c rest e skip Hfn Henc Hinf Hc He.
    rewrite (check_one_file_inflate_error _ _ _ _ _ _ _ Hfn Henc Hinf Hc He).
    reflexivity.
  - intros data us out Hus. unfold Zlib.decompress.
    assert (E : (us <? 0) = false) by (apply Z.ltb_ge; lia).
    rewrite E. cbn. destruct (Zlib.inflate_zlib data); split; congruence.
  - intros data out. unfold Zlib.inflate_zlib.
    destruct data as [|cmf [|flg body]]; try discriminate.
    destruct (negb (_ =? 0)) eqn:E1; [discriminate|].
    destruct (negb (Z.land _ 15 =? 8)) eqn:E2; [discriminate|].
    destruct (7 <? _); [discriminate|].
    destruct (Z.testbit _ 5); [discriminate|].
    unfold Zlib.bind.
    destruct (Zlib.inflate body) as [[out' after]|] eqn:E3; [|discriminate].
    destruct after as [|t0 [|t1 [|t2 [|t3 after]]]]; try discriminate.
    destruct (_ =? Zlib.adler32 out') eqn:E4; [|discriminate].
    intros [= <-].
    apply negb_false_iff, Z.eqb_eq in E1. apply negb_false_iff, Z.eqb_eq in E2.
    apply Z.eqb_eq in E4.
    exists cmf, flg, body, t0, t1, t2, t3, after. repeat split; assumption.
Qed.

(** An instance: a good chunk, then a chunk whose payload is a raw
    deflate stream. *)
Lemma C3_payload_is_a_zlib_stream_witness :
  snd (check_one_file "a.uz2"
         (mkFile true (container [mkChunk 23 Sample.hello_z]
                       ++ encode_chunk (mkChunk 1 Sample.a_raw) ++ []))
         true) = Raise ZlibError.
Proof.
  destruct C3_payload_is_a_zlib_stream as (Herr & _ & _).
  apply (Herr "a.uz2" [mkChunk 23 Sample.hello_z] [Sample.hello]
              (mkChunk 1 Sample.a_raw) [] ZlibError true eq_refl).
  - constructor; [|constructor].
    concrete_chunk.
  - constructor; [vm_compute; reflexivity | constructor].
  - concrete_chunk.
  - vm_compute. reflexivity.
Defined.

End DecoderClaims.

Section TruncationAndDigestClaims.

Import HashGrabber.

Lemma container_app (a b : list chunk) :
  container (a ++ b) = container a ++ container b.
Proof. unfold container. apply flat_map_app. Qed.

(** A valid container without the last byte of its last payload. *)
Lemma removelast_container (chunks : list chunk) (c : chunk) :
  payload c <> [] ->
  removelast (container (chunks ++ [c])) =
  container chunks
    ++ pack_II (compressed_size c) (uncompressed_size c)
    ++ removelast (payload c).
Proof.
  intros Hp. rewrite container_app. cbn [container flat_map].
  rewrite app_nil_r. unfold encode_chunk.
  rewrite removelast_app.
  - now rewrite removelast_app.
  - intros H. apply app_eq_nil in H. destruct H as [H _]. discriminate H.
Qed.

Lemma blen_removelast (p : bytes) : p <> [] -> blen (removelast p) < blen p.
Proof.
  intros Hp. destruct (exists_last Hp) as [q [b ->]].
  rewrite removelast_last, blen_app. cbn. lia.
Qed.

(** A file without a digest leaves the index as it is. *)
Lemma scan_directory_no_hash (fp name : string) (f : file) (d : Database.t)
    (ev : list event) (rfn : string) :
  check_one_file (Path.join fp name) f true = (ev, Ok (rfn, None)) ->
  scan_directory fp [(name, Regular f)] d =
  (ev ++ [NoHash name], Database.commit d, None).
Proof.
  intros H. unfold scan_directory. cbn [scan_loop scan_one].
  rewrite H. cbn. now rewrite app_nil_r.
Qed.

(** C4.  In a container whose chunks inflate up to a header that declares
    more payload than the file still holds, [check_one_file] stops at that
    header: it reports the unexpected end, returns no digest and raises
    nothing.  This is what happens to a valid container that has lost the
    last byte of its last payload.  Scanned from a directory, such a file
    adds no row to the index and the scan ends normally. *)
Theorem C4_truncated_payload_gives_no_digest (fn : string)
    (chunks : list chunk) (datas : list bytes) :
  is_compressed fn = true ->
  Forall encodable chunks ->
  Forall2 inflates_to chunks datas ->
  (forall cs us p skip,
     0 <= cs < 2 ^ 32 -> 0 <= us < 2 ^ 32 -> blen p < cs ->
     check_one_file fn (mkFile true (container chunks ++ pack_II cs us ++ p)) skip =
     (CompressedFile fn :: validations fn chunks ++ validate fn cs us
        ++ [UnexpectedEOF fn (Z.of_nat (List.length chunks))],
      Ok (Path.basename (Str.drop_last4 fn), None)))
  /\ (forall c skip,
        encodable c -> payload c <> [] ->
        snd (check_one_file fn (mkFile true (removelast (container (chunks ++ [c]))))
                            skip) =
        Ok (Path.basename (Str.drop_last4 fn), None))
  /\ (forall fp name d cs us p,
        fn = Path.join fp name ->
        0 <= cs < 2 ^ 32 -> 0 <= us < 2 ^ 32 -> blen p < cs ->
        exists ev,
          scan_directory fp
            [(name, Regular (mkFile true (container chunks ++ pack_II cs us ++ p)))] d
          = (ev, Database.commit d, None)).
Proof.
  intros Hfn Henc Hinf. split; [|split].
  - intros. now apply check_one_file_truncated with (datas := datas).
  - intros c skip [Hus Hcs] Hp. rewrite removelast_container by exact Hp.
    pose proof (compressed_size_nonneg c).
    rewrite (check_one_file_truncated fn chunks datas (compressed_size c)
               (uncompressed_size c) (removelast (payload c)) skip
               Hfn Henc Hinf);
      [reflexivity | lia | exact Hus | now apply blen_removelast].
  - intros fp name d cs us p -> Hcs Hus Hp. eexists.
    eapply scan_directory_no_hash.
    now apply check_one_file_truncated with (datas := datas).
Qed.

(** An instance: the sample container without its last byte. *)
Lemma C4_truncated_payload_gives_no_digest_witness :
  snd (check_one_file "Maps/DM-Test.ut2.uz2"
         (mkFile true (removelast (container ([mkChunk 23 Sample.hello_z]
                                              ++ [mkChunk 6 Sample.ut2004_z]))))
         true) = Ok ("DM-Test.ut2", None).
Proof.
  destruct (C4_truncated_payload_gives_no_digest "Maps/DM-Test.ut2.uz2"
              [mkChunk 23 Sample.hello_z] [Sample.hello] eq_refl) as (_ & H & _).
  - constructor; [concrete_chunk | constructor].
  - constructor; [vm_compute; reflexivity | constructor].
  - apply (H (mkChunk 6 Sample.ut2004_z) true).
    + concrete_chunk.
    + discriminate.
Defined.

(** C5.  For a container whose chunks are within the bounds and inflate,
    [check_one_file] returns the digest of the plain chunks put end to
    end (each inflated on its own), together with the sum of the declared
    plain sizes, and reports nothing but the compressed file. *)
Theorem C5_digest_of_container_is_digest_of_concatenation (fn : string)
    (chunks : list chunk) (datas : list bytes) (skip : bool) :
  is_compressed fn = true ->
  Forall within_bounds chunks ->
  Forall2 inflates_to chunks datas ->
  check_one_file fn (mkFile true (container chunks)) skip =
  ([CompressedFile fn],
   Ok (Path.basename (Str.drop_last4 fn),
       Some (logical_size chunks,
             MD5.hexdigest (MD5.update MD5.new (List.concat datas))))).
Proof.
  intros Hfn Hb Hinf.
  assert (Henc : Forall encodable chunks).
  { eapply Forall_impl; [|exact Hb]. intros c [H1 H2]. unfold encodable. lia. }
  rewrite (check_one_file_container _ _ _ _ Hfn Henc Hinf).
  assert (Hquiet : validations fn chunks = []).
  { clear - Hb. induction Hb as [|c chunks [H1 H2] _ IH]; [reflexivity|].
    cbn [validations flat_map]. fold (validations fn chunks). rewrite IH.
    now rewrite validate_quiet. }
  now rewrite Hquiet.
Qed.

(** An instance: the sample container of two chunks. *)
Lemma C5_digest_of_container_is_digest_of_concatenation_witness :
  check_one_file "Maps/DM-Test.ut2.uz2"
    (mkFile true (container Sample.two_chunks)) true =
  ([CompressedFile "Maps/DM-Test.ut2.uz2"],
   Ok ("DM-Test.ut2", Some (29, "08991c56e53d496bb6de1028044763ca"))).
Proof.
  refine (eq_trans
            (C5_digest_of_container_is_digest_of_concatenation
               "Maps/DM-Test.ut2.uz2" Sample.two_chunks
               [Sample.hello; Sample.ut2004] true eq_refl _ _) _).
  - repeat constructor; vm_compute; congruence.
  - repeat constructor; vm_compute; reflexivity.
  - vm_compute. reflexivity.
Defined.

End TruncationAndDigestClaims.

Section NameFacts.

Import HashGrabber.

Lemma ascii_eqb_sym (a b : ascii) : Ascii.eqb a b = Ascii.eqb b a.
Proof.
  destruct (Ascii.eqb a b) eqn:E.
  - apply Ascii.eqb_eq in E. subst. symmetry. apply Ascii.eqb_refl.
  - symmetry. apply Ascii.eqb_neq. apply Ascii.eqb_neq in E. congruence.
Qed.

(** What follows the last separator holds no separator. *)
Lemma contains_after_last (sep : ascii) (s : string) :
  Str.contains sep (Str.after_last sep s) = false.
Proof.
  induction s as [|c r IH]; [reflexivity|]. cbn [Str.after_last].
  destruct (Str.contains sep r) eqn:Hr; [exact IH|].
  destruct (Ascii.eqb c sep) eqn:Hc; [exact Hr|].
  cbn [Str.contains]. now rewrite ascii_eqb_sym, Hc, Hr.
Qed.

Lemma basename_no_sep (p : string) :
  Str.contains Path.sep (Path.basename p) = false.
Proof. apply contains_after_last. Qed.

Lemma casefold_char_sep (c : ascii) :
  Ascii.eqb Path.sep (Str.casefold_char c) = Ascii.eqb Path.sep c.
Proof.
  destruct c as [[] [] [] [] [] [] [] []]; reflexivity.
Qed.

Lemma contains_sep_casefold (s : string) :
  Str.contains Path.sep (Str.casefold s) = Str.contains Path.sep s.
Proof.
  induction s as [|c r IH]; [reflexivity|].
  cbn [Str.casefold Str.contains]. now rewrite casefold_char_sep, IH.
Qed.

Lemma length_casefold (s : string) :
  String.length (Str.casefold s) = String.length s.
Proof. induction s as [|c r IH]; cbn; congruence. Qed.

Lemma substring_casefold (n m : nat) (s : string) :
  String.substring n m (Str.casefold s) = Str.casefold (String.substring n m s).
Proof.
  revert n m. induction s as [|c r IH]; intros n m.
  - destruct n, m; reflexivity.
  - destruct n as [|n]; [destruct m as [|m]|]; cbn; [reflexivity| |apply IH].
    now rewrite IH.
Qed.

Lemma substring_split (s : string) (n : nat) :
  (n <= String.length s)%nat ->
  s = (String.substring 0 n s ++ String.substring n (String.length s - n) s)%string.
Proof.
  revert n. induction s as [|c r IH]; intros n Hn.
  - destruct n; [reflexivity | cbn in Hn; lia].
  - destruct n as [|n].
    + cbn [String.substring String.append String.length Nat.sub].
      f_equal. clear. induction r as [|d r IH]; [reflexivity|].
      cbn. now rewrite <- IH.
    + cbn [String.substring String.append String.length Nat.sub].
      f_equal. apply IH. cbn in Hn. lia.
Qed.

(** A compressed path ends in four characters that fold to [.uz2], and
    the name is taken from what comes before them. *)
Lemma is_compressed_suffix (fn : string) :
  is_compressed fn = true ->
  exists stem suffix,
    fn = (stem ++ suffix)%string /\
    String.length suffix = 4%nat /\
    Str.casefold suffix = ".uz2" /\
    Str.drop_last4 fn = stem.
Proof.
  unfold is_compressed, Str.endswith.
  rewrite length_casefold. cbn [Path.extsep String.append String.length].
  intros H. apply andb_true_iff in H. destruct H as [Hlen Heq].
  apply Nat.leb_le in Hlen. apply String.eqb_eq in Heq.
  rewrite substring_casefold in Heq.
  exists (String.substring 0 (String.length fn - 4) fn),
         (String.substring (String.length fn - 4) 4 fn).
  split; [|split; [|split]].
  - pose proof (substring_split fn (String.length fn - 4)) as Hs.
    replace (String.length fn - (String.length fn - 4))%nat with 4%nat in Hs
      by lia.
    apply Hs. lia.
  - rewrite <- (length_casefold (String.substring _ _ _)), Heq. reflexivity.
  - exact Heq.
  - reflexivity.
Qed.

(** The loop returns the name it was given. *)
Lemma decode_name (fn rfn : string) (fuel : nat) (f : bytes) (fs size : Z)
    (h : MD5.state) (n : Z) (name : string) (x : option (Z * string)) :
  snd (decode fuel fn rfn f fs size h n) = Ok (name, x) -> name = rfn.
Proof.
  revert f fs size h n. induction fuel as [|fuel IH]; intros f fs size h n;
    cbn [decode].
  - destruct (fs <=? 0); cbn; congruence.
  - destruct (fs <=? 0); [cbn; congruence|].
    destruct (read 8 f) as [header f1].
    destruct (unpack_II header) as [[cs us]|]; [|cbn; congruence].
    rewrite snd_say. destruct (read cs f1) as [chunk f2].
    destruct (negb (blen chunk =? cs)); [cbn; congruence|].
    destruct (Zlib.decompress chunk 15 us); [apply IH | cbn; congruence].
Qed.

Lemma check_one_file_name (fn : string) (f : file) (skip : bool)
    (name : string) (x : option (Z * string)) :
  snd (check_one_file fn f skip) = Ok (name, x) -> name = indexed_name fn.
Proof.
  unfold check_one_file, indexed_name, with_open.
  destruct (is_compressed fn).
  - rewrite snd_say. destruct (readable f); [apply decode_name | cbn; congruence].
  - destruct (is_known fn); rewrite snd_say.
    + destruct (2147483647 <? getsize f); [cbn; congruence|].
      destruct (readable f); cbn; congruence.
    + destruct skip; [cbn; congruence|].
      destruct (2147483647 <? getsize f); [cbn; congruence|].
      destruct (readable f); cbn; congruence.
Qed.

Lemma indexed_name_no_sep (fn : string) :
  Str.contains Path.sep (indexed_name fn) = false.
Proof.
  unfold indexed_name. destruct (is_compressed fn); apply basename_no_sep.
Qed.

Lemma scan_one_rows (fp : string) (st : locals) (entry : string * dirent)
    (ev : list event) (res : locals + Database.t * exn) :
  scan_one fp st entry = (ev, res) ->
  let d' := match res with inl st' => db st' | inr (d', _) => d' end in
  Database.force_casefold d' = Database.force_casefold (db st) /\
  forall r, In r (Database.work d') ->
            In r (Database.work (db st)) \/ named_after fp [entry] (db st) r.
Proof.
  destruct entry as [name ent]. unfold scan_one.
  destruct ent as [|f].
  - intros [= <- <-]. cbn. auto.
  - destruct (check_one_file (Path.join fp name) f true) as [ev0 r0] eqn:Hc.
    destruct r0 as [[rfn0 [[size md5]|]]|e].
    + destruct (Database.put rfn0 size md5 (db st)) as [d1|e1] eqn:Hput;
        cbn [db rfn]; rewrite Hput; intros [= <- <-]; cbn [db];
        [|auto].
      destruct (put_ok _ _ _ _ _ Hput) as (nm & Hw & _ & Hcf & Hnm & _).
      split; [exact Hcf|]. intros r Hr. rewrite Hw in Hr.
      apply in_app_or in Hr. destruct Hr as [Hr|[<-|[]]]; [now left|].
      right. exists name, f. split; [now left|]. cbn [Database.r_filename].
      unfold stored_name. rewrite Hnm.
      rewrite (check_one_file_name (Path.join fp name) f true rfn0
                                   (Some (size, md5)));
        [reflexivity | now rewrite Hc].
    + intros [= <- <-]. cbn. auto.
    + destruct (rfn st); intros [= <- <-]; cbn; auto.
Qed.

Lemma scan_loop_rows (fp : string) (listing : list (string * dirent))
    (st : locals) (ev : list event) (res : locals + Database.t * exn) :
  scan_loop fp listing st = (ev, res) ->
  let d' := match res with inl st' => db st' | inr (d', _) => d' end in
  Database.force_casefold d' = Database.force_casefold (db st) /\
  forall r, In r (Database.work d') ->
            In r (Database.work (db st)) \/ named_after fp listing (db st) r.
Proof.
  revert st ev res. induction listing as [|entry rest IH]; intros st ev res.
  - cbn. intros [= <- <-]. cbn. auto.
  - cbn [scan_loop].
    destruct (scan_one fp st entry) as [ev1 [st1|[d1 e1]]] eqn:Hone.
    + destruct (scan_loop fp rest st1) as [ev2 r2] eqn:Hrest.
      intros [= <- <-].
      destruct (scan_one_rows _ _ _ _ _ Hone) as [Hcf1 Hrows1].
      destruct (IH _ _ _ Hrest) as [Hcf2 Hrows2]. cbn zeta in *.
      split; [congruence|]. intros r Hr.
      destruct (Hrows2 r Hr) as [Hin|(e & f & Hin & Hname)].
      * destruct (Hrows1 r Hin) as [Hin'|(e & f & Hin' & Hname)]; [now left|].
        right. exists e, f. split; [|exact Hname].
        destruct Hin' as [<-|[]]. now left.
      * right. exists e, f. split; [now right|].
        unfold stored_name in *. now rewrite <- Hcf1.
    + intros [= <- <-].
      destruct (scan_one_rows _ _ _ _ _ Hone) as [Hcf1 Hrows1]. cbn zeta in *.
      split; [exact Hcf1|]. intros r Hr.
      destruct (Hrows1 r Hr) as [Hin|(e & f & Hin & Hname)]; [now left|].
      right. exists e, f. split; [|exact Hname].
      destruct Hin as [<-|[]]. now left.
Qed.

End NameFacts.

Section ClassifierClaims.

Import HashGrabber.

(** C10.  The name [check_one_file] returns is the basename of the path,
    taken after the last four characters have been cut off when the path
    is a compressed one (they are the container suffix, in any case of
    letters); it holds no path separator.  Every row [scan_directory]
    adds is named so, after one of the files of the listing, folded to
    lower case when the index is set to; so stored names hold no path
    separator either. *)
Theorem C10_indexed_name_is_basename :
  (forall fn f skip name x,
     snd (check_one_file fn f skip) = Ok (name, x) ->
     name = (if is_compressed fn
             then Path.basename (Str.drop_last4 fn)
             else Path.basename fn)
     /\ Str.contains Path.sep name = false)
  /\ (forall fn,
        is_compressed fn = true ->
        exists stem suffix,
          fn = (stem ++ suffix)%string /\
          String.length suffix = 4%nat /\
          Str.casefold suffix = ".uz2" /\
          Str.drop_last4 fn = stem)
  /\ (forall fp listing d ev d' e,
        scan_directory fp listing d = (ev, d', e) ->
        forall r, In r (Database.work d') ->
                  In r (Database.work d)
                  \/ (named_after fp listing d r
                      /\ Str.contains Path.sep (Database.r_filename r) = false)).
Proof.
  split; [|split].
  - intros fn f skip name x H.
    apply check_one_file_name in H. subst name.
    split; [reflexivity | apply indexed_name_no_sep].
  - exact is_compressed_suffix.
  - intros fp listing d ev d' e. unfold scan_directory.
    destruct (scan_loop fp listing (mkLocals d None)) as [ev0 res] eqn:Hloop.
    destruct (scan_loop_rows _ _ _ _ _ Hloop) as [_ Hrows]. cbn [db] in Hrows.
    assert (Hsep : forall r, named_after fp listing d r ->
                             Str.contains Path.sep (Database.r_filename r) = false).
    { intros r (entry & f & _ & ->). unfold stored_name.
      destruct (Database.force_casefold d);
        [rewrite contains_sep_casefold|]; apply indexed_name_no_sep. }
    destruct res as [st|[d1 e1]]; intros [= <- <- <-] r Hr;
      (destruct (Hrows r Hr) as [Hin|Hn]; [now left | right; auto]).
Qed.

(** An instance: the sample container under [Maps/]. *)
Lemma C10_indexed_name_is_basename_witness :
  snd (check_one_file "Maps/DM-Test.ut2.UZ2"
         (mkFile true (container Sample.two_chunks)) true)
  = Ok ("DM-Test.ut2", Some (29, "08991c56e53d496bb6de1028044763ca"))
  /\ "DM-Test.ut2" = Path.basename (Str.drop_last4 "Maps/DM-Test.ut2.UZ2")
  /\ Str.contains Path.sep "DM-Test.ut2" = false.
Proof.
  assert (H : snd (check_one_file "Maps/DM-Test.ut2.UZ2"
                     (mkFile true (container Sample.two_chunks)) true)
              = Ok ("DM-Test.ut2", Some (29, "08991c56e53d496bb6de1028044763ca")))
    by (vm_compute; reflexivity).
  split; [exact H|].
  destruct C10_indexed_name_is_basename as (Hname & _ & _).
  exact (Hname _ _ _ _ _ H).
Defined.

Lemma validate_no_huge (fn : string) (cs us : Z) :
  ~ In HugeFile (validate fn cs us).
Proof.
  unfold validate.
  destruct (33096 <? cs); [|destruct (32768 <? us);
    [|destruct (cs =? 0); [|destruct (us =? 0)]]];
    cbn; intuition discriminate.
Qed.

(** The loop of the compressed branch never reports a file as too big. *)
Lemma decode_no_huge (fn rfn : string) (fuel : nat) (f : bytes) (fs size : Z)
    (h : MD5.state) (n : Z) :
  ~ In HugeFile (fst (decode fuel fn rfn f fs size h n)).
Proof.
  revert f fs size h n. induction fuel as [|fuel IH]; intros f fs size h n;
    cbn [decode].
  - destruct (fs <=? 0); cbn; tauto.
  - destruct (fs <=? 0); [cbn; tauto|].
    destruct (read 8 f) as [header f1].
    destruct (unpack_II header) as [[cs us]|];
      [|cbn; intuition discriminate].
    rewrite fst_say. intros H. apply in_app_or in H.
    destruct H as [H|H]; [exact (validate_no_huge _ _ _ H)|].
    destruct (read cs f1) as [chunk f2].
    destruct (negb (blen chunk =? cs)); [cbn in H; intuition discriminate|].
    destruct (Zlib.decompress chunk 15 us); [exact (IH _ _ _ _ _ H) | destruct H].
Qed.

Lemma blen_zeros : blen Sample.zeros = 2147483632.
Proof.
  unfold Sample.zeros, blen. rewrite repeat_length. apply Z2Nat.id. lia.
Qed.

Lemma huge_chunk_size :
  compressed_size (mkChunk 0 (Sample.empty_z ++ Sample.zeros)) = 2147483640.
Proof.
  unfold compressed_size. cbn [payload]. rewrite blen_app, blen_zeros.
  reflexivity.
Qed.

(** The sample of 2 GiB. *)
Lemma huge_size : getsize Sample.huge = 2147483648.
Proof.
  unfold getsize, Sample.huge. cbn [content]. unfold container.
  cbn [flat_map]. rewrite app_nil_r, blen_encode_chunk, huge_chunk_size.
  reflexivity.
Qed.

Lemma inflate_empty_then_anything (junk : bytes) (us : Z) :
  0 <= us -> Zlib.decompress (Sample.empty_z ++ junk) 15 us = Ok [].
Proof.
  intros H. unfold Zlib.decompress.
  assert (E : (us <? 0) = false) by (apply Z.ltb_ge; lia). rewrite E.
  vm_compute. reflexivity.
Qed.

Lemma check_one_file_huge (fn : string) (skip : bool) :
  is_compressed fn = true ->
  check_one_file fn Sample.huge skip =
  ([CompressedFile fn; OversizeCompressed fn 2147483640],
   Ok (Path.basename (Str.drop_last4 fn),
       Some (0, "d41d8cd98f00b204e9800998ecf8427e"))).
Proof.
  intros Hfn. unfold Sample.huge.
  pose proof huge_chunk_size as Hcs.
  rewrite (check_one_file_container fn _ [[]] skip Hfn).
  - cbn [validations flat_map]. rewrite Hcs. reflexivity.
  - constructor; [|constructor]. unfold encodable. rewrite Hcs. cbn. lia.
  - constructor; [|constructor]. unfold inflates_to. cbn [payload uncompressed_size].
    apply inflate_empty_then_anything. lia.
Qed.

(** C1, as the specification has it, fails: the size is looked at after
    the routing, and on the plain branch only.  A file of 2 GiB that is a
    container is decoded and gets a digest; a file of that size of an
    unknown type is skipped as such, and nothing is said of its size. *)
Lemma C1_huge_container_is_decoded :
  2147483647 < getsize Sample.huge
  /\ check_one_file "big.uz2" Sample.huge true =
     ([CompressedFile "big.uz2"; OversizeCompressed "big.uz2" 2147483640],
      Ok ("big", Some (0, "d41d8cd98f00b204e9800998ecf8427e")))
  /\ check_one_file "big.txt" Sample.huge true =
     ([WeirdFiletype "txt" "big.txt"], Ok ("big.txt", None)).
Proof.
  split; [rewrite huge_size; lia|]. split.
  - exact (check_one_file_huge "big.uz2" true eq_refl).
  - generalize Sample.huge. intros f. reflexivity.
Qed.

(** C1, amended.  On the plain branch, that is for a path that is not a
    compressed one and is either of a known type or hashed on demand
    ([skip_weird] off), a file of more than 2,147,483,647 bytes is
    reported as huge and gets no digest; the file is not opened.  The
    size is looked at after the routing: a compressed path is decoded
    whatever the size and never reported as huge, and an unknown type
    under [skip_weird] is skipped as such.  No file of at most
    2,147,483,647 bytes is reported as huge. *)
Theorem C1_size_check_on_plain_branch_only :
  (forall fn f skip,
     is_compressed fn = false ->
     is_known fn = true \/ skip = false ->
     2147483647 < getsize f ->
     exists ev,
       check_one_file fn f skip = (ev ++ [HugeFile], Ok (Path.basename fn, None))
       /\ ~ In HugeFile ev)
  /\ (forall fn f skip,
        is_compressed fn = true ->
        ~ In HugeFile (fst (check_one_file fn f skip)))
  /\ (forall fn f,
        is_compressed fn = false -> is_known fn = false ->
        check_one_file fn f true =
        ([WeirdFiletype (Str.after_last "."%char fn) fn],
         Ok (Path.basename fn, None)))
  /\ (forall fn f skip,
        getsize f <= 2147483647 ->
        ~ In HugeFile (fst (check_one_file fn f skip))).
Proof.
  split; [|split; [|split]].
  - intros fn f skip Hc Hroute Hsize. unfold check_one_file. rewrite Hc.
    apply Z.ltb_lt in Hsize. rewrite Hsize.
    destruct (is_known fn) eqn:Hk.
    + eexists. unfold say. cbn [fst snd]. split; [reflexivity|].
      destruct (Str.endswith _ "uxx"); cbn; intuition discriminate.
    + destruct Hroute as [Hroute|Hroute]; [discriminate|]. subst skip.
      eexists. unfold say. cbn [fst snd]. split; [reflexivity|].
      cbn; intuition discriminate.
  - intros fn f skip Hc. unfold check_one_file, with_open. rewrite Hc.
    rewrite fst_say. intros [H|H]; [discriminate|].
    destruct (readable f); [exact (decode_no_huge _ _ _ _ _ _ _ _ H) | destruct H].
  - intros fn f Hc Hk. unfold check_one_file. rewrite Hc, Hk. reflexivity.
  - intros fn f skip Hsize. unfold check_one_file, with_open.
    assert (E : (2147483647 <? getsize f) = false) by (apply Z.ltb_ge; lia).
    destruct (is_compressed fn).
    + rewrite fst_say. intros [H|H]; [discriminate|].
      destruct (readable f); [exact (decode_no_huge _ _ _ _ _ _ _ _ H) | destruct H].
    + rewrite E.
      destruct (is_known fn); [destruct (Str.endswith _ "uxx")|destruct skip];
        destruct (readable f); cbn; intuition discriminate.
Qed.

(** An instance: the 2 GiB sample under a name of a known type. *)
Lemma C1_size_check_on_plain_branch_only_witness :
  exists ev,
    check_one_file "Maps/big.ut2" Sample.huge true =
    (ev ++ [HugeFile], Ok ("big.ut2", None))
    /\ ~ In HugeFile ev.
Proof.
  destruct C1_size_check_on_plain_branch_only as (Hplain & _).
  apply (Hplain "Maps/big.ut2" Sample.huge true eq_refl (or_introl eq_refl)).
  rewrite huge_size. lia.
Defined.

End ClassifierClaims.

Section OrchestratorClaims.

Import HashGrabber.

(** When the first file of a listing makes [check_one_file] raise, the
    handler of [scan_directory] reads [rfn], which no call has bound yet:
    the scan ends there with [UnboundLocalError], whatever follows in the
    listing, and without the final commit. *)
Lemma scan_aborts_on_first_file (fp name : string) (f : file)
    (rest : list (string * dirent)) (d : Database.t) (ev : list event) (e : exn) :
  check_one_file (Path.join fp name) f true = (ev, Raise e) ->
  scan_directory fp ((name, Regular f) :: rest) d = (ev, d, Some UnboundLocalError).
Proof.
  intros H. unfold scan_directory. cbn [scan_loop scan_one rfn db].
  rewrite H. cbn. now rewrite app_nil_r.
Qed.

(** Once a call of [check_one_file] has returned, [rfn] is bound and a
    file that raises is reported, under the name of that earlier file, and
    skipped. *)
Lemma scan_skips_failure_once_bound (fp name bound : string) (f : file)
    (d : Database.t) (ev : list event) (e : exn) :
  check_one_file (Path.join fp name) f true = (ev, Raise e) ->
  scan_one fp (mkLocals d (Some bound)) (name, Regular f) =
  (ev ++ [ParseError bound; NoHash name], inl (mkLocals d (Some bound))).
Proof.
  intros H. cbn [scan_one rfn db]. rewrite H. reflexivity.
Qed.

(** C6.  The code at the failing input: a directory whose first file is a
    container with a payload that does not inflate, followed by a plain
    file of a known type.  The scan ends with [UnboundLocalError] at the
    first file; the second file is never looked at and the index is left
    without its row.  In the other order the failure is handled and the
    good file is indexed. *)
Theorem C6_scan_aborted_by_first_failing_file :
  snd (check_one_file "Maps/bad.uz2"
         (mkFile true (container [mkChunk 1 Sample.a_raw])) true)
  = Raise ZlibError
  /\ scan_directory "Maps" [("bad.uz2", Sample.bad); ("good.ut2", Sample.good)]
                    Sample.fresh =
     ([CompressedFile "Maps/bad.uz2"], Sample.fresh, Some UnboundLocalError)
  /\ scan_directory "Maps" [("good.ut2", Sample.good); ("bad.uz2", Sample.bad)]
                    Sample.fresh =
     ([Hashed "good.ut2" 23 "ace88c415d548f5e40851612925a6daa";
       CompressedFile "Maps/bad.uz2"; ParseError "good.ut2"; NoHash "bad.uz2"],
      Database.mkDb
        [Database.mkRow 1 "good.ut2" 23 "ace88c415d548f5e40851612925a6daa"]
        [Database.mkRow 1 "good.ut2" 23 "ace88c415d548f5e40851612925a6daa"]
        2 false,
      None).
Proof. repeat split; vm_compute; reflexivity. Qed.

End OrchestratorClaims.

(** * Queries on the hash index *)

Section OrderBy.

Variable A : Type.
Variable leb : A -> A -> bool.

Lemma insert_by_perm (x : A) (l : list A) :
  Permutation (Database.insert_by leb x l) (x :: l).
Proof.
  induction l as [|y r IH]; cbn; [reflexivity|].
  destruct (leb x y); [reflexivity|].
  rewrite IH. apply perm_swap.
Qed.

(** [ORDER BY] returns the rows it is given, each once. *)
Lemma order_by_perm (l : list A) : Permutation (Database.order_by leb l) l.
Proof.
  induction l as [|x l IH]; cbn; [reflexivity|].
  fold (Database.order_by leb l). rewrite insert_by_perm. now constructor.
Qed.

Lemma order_by_in (l : list A) (x : A) :
  In x (Database.order_by leb l) <-> In x l.
Proof.
  split; apply Permutation_in;
    [apply order_by_perm | symmetry; apply order_by_perm].
Qed.

Lemma order_by_length (l : list A) :
  List.length (Database.order_by leb l) = List.length l.
Proof. apply Permutation_length, order_by_perm. Qed.

Hypothesis leb_total : forall x y, leb x y = true \/ leb y x = true.

Lemma insert_by_sorted (x : A) (l : list A) :
  Sorted (fun a b => leb a b = true) l ->
  Sorted (fun a b => leb a b = true) (Database.insert_by leb x l).
Proof.
  induction l as [|y r IH]; intros Hs; cbn; [repeat constructor|].
  destruct (leb x y) eqn:E.
  - constructor; [exact Hs | constructor; exact E].
  - inversion Hs as [|? ? Hr Hhd]; subst.
    constructor; [now apply IH|].
    assert (Hyx : leb y x = true) by (destruct (leb_total x y); congruence).
    destruct r as [|z r]; cbn; [now constructor|].
    destruct (leb x z); constructor; [exact Hyx|].
    now inversion Hhd.
Qed.

(** ... each no larger than the next. *)
Lemma order_by_sorted (l : list A) :
  Sorted (fun a b => leb a b = true) (Database.order_by leb l).
Proof.
  induction l as [|x l IH]; cbn; [constructor|].
  now apply insert_by_sorted.
Qed.

End OrderBy.

Section QueryFacts.

Import Database.

Lemma by_filename_nocase_total (a b : string * Z * string) :
  by_filename_nocase a b = true \/ by_filename_nocase b a = true.
Proof. apply String.leb_total. Qed.

Lemma by_filename_total (a b : string * Z * string) :
  by_filename a b = true \/ by_filename b a = true.
Proof. apply String.leb_total. Qed.

Lemma filter_none {B : Type} (p : B -> bool) (l : list B) :
  (forall x, In x l -> p x = false) -> filter p l = [].
Proof.
  induction l as [|x l IH]; intros H; cbn; [reflexivity|].
  rewrite (H x (or_introl eq_refl)). apply IH. intros y Hy. apply H. now right.
Qed.

(** X1.  [find(md5)] returns the rows whose digest is [md5], as
    [(filename, size, md5)], each once, in the order of their names
    compared without regard to ASCII case; when no row has the digest it
    returns the empty list. *)
Theorem X1_find_returns_the_matching_rows_in_order (md5 : string) (d : t) :
  (forall x, In x (find md5 d) <->
             exists r, In r (work d) /\ r_md5 r = md5 /\ x = selected r)
  /\ Permutation (find md5 d)
       (map selected (filter (fun r => String.eqb (r_md5 r) md5) (work d)))
  /\ Sorted (fun a b => nocase_leb (fst (fst a)) (fst (fst b)) = true)
            (find md5 d)
  /\ (forall x, In x (find md5 d) -> snd x = md5)
  /\ ((forall r, In r (work d) -> r_md5 r <> md5) -> find md5 d = []).
Proof.
  assert (Hin : forall x, In x (find md5 d) <->
                exists r, In r (work d) /\ r_md5 r = md5 /\ x = selected r).
  { intros x. unfold find. rewrite order_by_in, in_map_iff. split.
    - intros (r & Hx & Hr). apply filter_In in Hr. destruct Hr as [Hr Hm].
      apply String.eqb_eq in Hm. exists r. auto.
    - intros (r & Hr & Hm & ->). exists r. split; [reflexivity|].
      apply filter_In. split; [exact Hr | now apply String.eqb_eq]. }
  split; [exact Hin|]. split; [apply order_by_perm|].
  split; [apply (order_by_sorted _ _ by_filename_nocase_total)|]. split.
  - intros x Hx. apply Hin in Hx. destruct Hx as (r & _ & Hm & ->). exact Hm.
  - intros Hnone. unfold find. rewrite filter_none; [reflexivity|].
    intros r Hr. apply String.eqb_neq. now apply Hnone.
Qed.

(** An instance: a digest no row has. *)
Lemma X1_find_returns_the_matching_rows_in_order_witness :
  find "00000000000000000000000000000000" Sample.with_duplicate = [].
Proof.
  destruct (X1_find_returns_the_matching_rows_in_order
              "00000000000000000000000000000000" Sample.with_duplicate)
    as (_ & _ & _ & _ & H).
  apply H. intros r Hr. cbn in Hr.
  destruct Hr as [<-|[<-|[<-|[]]]]; discriminate.
Defined.

(** X2.  [find_by_name(filename)] returns the rows with exactly that
    name, case included, each once; the empty list when there is none. *)
Theorem X2_find_by_name_is_exact (name : string) (d : t) :
  (forall x, In x (find_by_name name d) <->
             exists r, In r (work d) /\ r_filename r = name /\ x = selected r)
  /\ Permutation (find_by_name name d)
       (map selected (filter (fun r => String.eqb (r_filename r) name) (work d)))
  /\ ((forall r, In r (work d) -> r_filename r <> name) -> find_by_name name d = []).
Proof.
  split; [|split].
  - intros x. unfold find_by_name. rewrite order_by_in, in_map_iff. split.
    + intros (r & Hx & Hr). apply filter_In in Hr. destruct Hr as [Hr Hm].
      apply String.eqb_eq in Hm. exists r. auto.
    + intros (r & Hr & Hm & ->). exists r. split; [reflexivity|].
      apply filter_In. split; [exact Hr | now apply String.eqb_eq].
  - apply order_by_perm.
  - intros Hnone. unfold find_by_name. rewrite filter_none; [reflexivity|].
    intros r Hr. apply String.eqb_neq. now apply Hnone.
Qed.

(** An instance: the sample store holds no name in lower case. *)
Lemma X2_find_by_name_is_exact_witness :
  find_by_name "a" Sample.with_duplicate = [].
Proof.
  destruct (X2_find_by_name_is_exact "a" Sample.with_duplicate) as (_ & _ & H).
  apply H. intros r Hr. cbn in Hr.
  destruct Hr as [<-|[<-|[<-|[]]]]; discriminate.
Defined.

End QueryFacts.

Section InsertAndLookup.

Import Database.

Lemma has_id_false_iff (i : Z) (rows : table) :
  has_id i rows = false <-> forall r, In r rows -> r_id r <> i.
Proof.
  unfold has_id. split.
  - intros H r Hr Heq.
    assert (E : existsb (fun r => r_id r =? i) rows = true).
    { apply existsb_exists. exists r. split; [exact Hr | now apply Z.eqb_eq]. }
    congruence.
  - intros H. destruct (existsb _ rows) eqn:E; [|reflexivity].
    apply existsb_exists in E. destruct E as (r & Hr & Heq).
    apply Z.eqb_eq in Heq. now destruct (H r Hr).
Qed.




Lemma filter_snoc {B : Type} (p : B -> bool) (l : list B) (x : B) :
  filter p (l ++ [x]) = filter p l ++ (if p x then [x] else []).
Proof. rewrite filter_app. reflexivity. Qed.

(** X4.  After a successful [put], the row is found under its digest and
    under the name it was stored with (the name given, folded to lower
    case when the index is set to); what the two queries returned before
    they still return, and nothing else is added; [count_rows] is one
    more. *)
Theorem X4_put_then_lookup (fn : string) (size : Z) (md5 : string) (d d' : t) :
  put fn size md5 d = Ok d' ->
  In (stored_name d fn, size, md5) (find md5 d')
  /\ In (stored_name d fn, size, md5) (find_by_name (stored_name d fn) d')
  /\ (forall q x, In x (find q d') <->
                  In x (find q d) \/ (q = md5 /\ x = (stored_name d fn, size, md5)))
  /\ (forall q x, In x (find_by_name q d') <->
                  In x (find_by_name q d)
                  \/ (q = stored_name d fn /\ x = (stored_name d fn, size, md5)))
  /\ count_rows d' = count_rows d + 1.
Proof.
  intros Hput.
  destruct (put_ok _ _ _ _ _ Hput) as (name & Hw & _ & _ & Hname & _).
  fold (stored_name d fn) in Hname. subst name.
  assert (Hfind : forall q x, In x (find q d') <->
            In x (find q d) \/ (q = md5 /\ x = (stored_name d fn, size, md5))).
  { intros q x. unfold find. rewrite !order_by_in, Hw, filter_snoc, map_app, in_app_iff.
    cbn [r_md5]. destruct (String.eqb md5 q) eqn:E.
    - apply String.eqb_eq in E. subst q. unfold selected. cbn.
      intuition congruence.
    - apply String.eqb_neq in E. cbn. intuition congruence. }
  assert (Hname : forall q x, In x (find_by_name q d') <->
            In x (find_by_name q d)
            \/ (q = stored_name d fn /\ x = (stored_name d fn, size, md5))).
  { intros q x. unfold find_by_name.
    rewrite !order_by_in, Hw, filter_snoc, map_app, in_app_iff.
    cbn [r_filename]. destruct (String.eqb (stored_name d fn) q) eqn:E.
    - apply String.eqb_eq in E. subst q. unfold selected. cbn.
      intuition congruence.
    - apply String.eqb_neq in E. cbn. intuition congruence. }
  split; [apply Hfind; auto|]. split; [apply Hname; auto|].
  split; [exact Hfind|]. split; [exact Hname|].
  unfold count_rows. rewrite Hw, length_app. cbn. lia.
Qed.

(** An instance: the first row of a new store. *)
Lemma X4_put_then_lookup_witness :
  exists d', put "A.u" 7 Sample.md5_of_nothing Sample.fresh = Ok d' /\
             In ("A.u", 7, Sample.md5_of_nothing) (find Sample.md5_of_nothing d') /\
             count_rows d' = 1.
Proof.
  destruct (put "A.u" 7 Sample.md5_of_nothing Sample.fresh) as [d'|e] eqn:E;
    [|vm_compute in E; discriminate E].
  exists d'.
  destruct (X4_put_then_lookup _ _ _ _ _ E) as (H1 & _ & _ & _ & H5).
  split; [reflexivity|]. split; [exact H1 | exact H5].
Defined.

Lemma casefold_idempotent (s : string) :
  Str.casefold (Str.casefold s) = Str.casefold s.
Proof.
  induction s as [|c r IH]; [reflexivity|]. cbn [Str.casefold]. rewrite IH.
  f_equal. destruct c as [[] [] [] [] [] [] [] []]; reflexivity.
Qed.

(** X5.  With case folding on, [put] stores the name in lower case: the
    row is found under the folded name, and a lookup under the name as it
    was given returns what it returned before the insert whenever that
    name has an upper case letter.  With case folding off the row is
    found under the name as given. *)
Theorem X5_lookup_by_name_after_casefold (fn : string) (size : Z) (md5 : string)
    (d d' : t) :
  put fn size md5 d = Ok d' ->
  (force_casefold d = true ->
   In (Str.casefold fn, size, md5) (find_by_name (Str.casefold fn) d')
   /\ (Str.casefold fn <> fn -> find_by_name fn d' = find_by_name fn d))
  /\ (force_casefold d = false ->
      In (fn, size, md5) (find_by_name fn d')).
Proof.
  intros Hput.
  destruct (put_ok _ _ _ _ _ Hput) as (name & Hw & _ & _ & Hname & _).
  split.
  - intros Hcf. rewrite Hcf in Hname. subst name. split.
    + unfold find_by_name. rewrite order_by_in, Hw, filter_snoc, map_app.
      cbn [r_filename]. rewrite String.eqb_refl. apply in_or_app. right. now left.
    + intros Hne. unfold find_by_name. rewrite Hw, filter_snoc.
      cbn [r_filename].
      assert (E : String.eqb (Str.casefold fn) fn = false)
        by now apply String.eqb_neq.
      rewrite E. now rewrite app_nil_r.
  - intros Hcf. rewrite Hcf in Hname. subst name.
    unfold find_by_name. rewrite order_by_in, Hw, filter_snoc, map_app.
    cbn [r_filename]. rewrite String.eqb_refl. apply in_or_app. right. now left.
Qed.

(** An instance: a name with upper case letters, in a store that folds. *)
Lemma X5_lookup_by_name_after_casefold_witness :
  exists d', put "DM-Test.ut2" 7 Sample.md5_of_nothing Sample.folding = Ok d' /\
             In ("dm-test.ut2", 7, Sample.md5_of_nothing)
                (find_by_name "dm-test.ut2" d') /\
             find_by_name "DM-Test.ut2" d' = find_by_name "DM-Test.ut2" Sample.folding.
Proof.
  destruct (put "DM-Test.ut2" 7 Sample.md5_of_nothing Sample.folding)
    as [d'|e] eqn:E; [|vm_compute in E; discriminate E].
  exists d'. split; [reflexivity|].
  destruct (X5_lookup_by_name_after_casefold _ _ _ _ _ E) as (H & _).
  destruct (H eq_refl) as (H1 & H2).
  split; [exact H1|]. apply H2. vm_compute. discriminate.
Defined.

End InsertAndLookup.

Section DuplicateFacts.

Import Database.

Lemma same_group_key (a b : row) :
  same_group a b = true <-> name_and_digest a = name_and_digest b.
Proof.
  rewrite same_group_iff. unfold name_and_digest. split.
  - intros [-> ->]. reflexivity.
  - intros [= -> ->]. auto.
Qed.

Lemma NoDup_map_filter {B C : Type} (f : B -> C) (p : B -> bool) (l : list B) :
  NoDup (map f l) -> NoDup (map f (filter p l)).
Proof.
  induction l as [|x l IH]; cbn; intros H; [constructor|].
  inversion H as [|? ? Hnotin Hnd]; subst.
  destruct (p x); cbn; [constructor|]; auto.
  intros Hin. apply Hnotin. apply in_map_iff in Hin.
  destruct Hin as (y & Hy & Hin). apply filter_In in Hin.
  apply in_map_iff. exists y. tauto.
Qed.

(** The heads name every group once. *)
Lemma group_heads_keys_nodup (rows : table) :
  NoDup (map name_and_digest (group_heads rows)).
Proof.
  induction rows as [|r rest IH]; cbn; constructor.
  - intros Hin. apply in_map_iff in Hin. destruct Hin as (x & Hx & Hin).
    apply filter_In in Hin. destruct Hin as [_ Hneg].
    assert (same_group r x = true) by now apply same_group_key.
    rewrite H in Hneg. discriminate.
  - now apply NoDup_map_filter.
Qed.

Lemma group_heads_keys (rows : table) (k : string * string) :
  In k (map name_and_digest (group_heads rows)) <-> In k (map name_and_digest rows).
Proof.
  rewrite !in_map_iff. split.
  - intros (g & Hk & Hg). exists g. split; [exact Hk|].
    now apply group_heads_incl.
  - intros (r & Hk & Hr). destruct (group_heads_cover _ _ Hr) as (g & Hg & Hs).
    exists g. split; [|exact Hg]. apply same_group_key in Hs. congruence.
Qed.

Lemma NoDup_rows (rows : table) : NoDup (map r_id rows) -> NoDup rows.
Proof. apply NoDup_map_inv. Qed.

(** After the deletion no two rows share a name and a digest, and the
    pairs of name and digest are those of before. *)
Lemma survivors_keys_nodup (rows : table) :
  NoDup (map r_id rows) ->
  NoDup (map name_and_digest (delete_not_in (select_max_ids rows) rows)).
Proof.
  intros Hnd. apply NoDup_map_NoDup_ForallPairs.
  - intros a b Ha Hb Hk.
    destruct (survivor_is_largest _ _ Hnd Ha) as [Ha' Hamax].
    destruct (survivor_is_largest _ _ Hnd Hb) as [Hb' Hbmax].
    apply (unique_by_id rows); auto.
    assert (Hab : same_group a b = true) by now apply same_group_key.
    pose proof (Hamax b Hb' Hab).
    pose proof (Hbmax a Ha' (same_group_sym _ _ Hab)). lia.
  - unfold delete_not_in. apply NoDup_filter. now apply NoDup_rows.
Qed.

Lemma survivors_keys (rows : table) (k : string * string) :
  In k (map name_and_digest (delete_not_in (select_max_ids rows) rows)) <->
  In k (map name_and_digest rows).
Proof.
  rewrite !in_map_iff. split.
  - intros (r & Hk & Hr). exists r. split; [exact Hk|].
    apply in_delete_not_in in Hr. tauto.
  - intros (r & Hk & Hr). destruct (group_keeps_a_row _ _ Hr) as (r' & Hr' & Hs & _).
    exists r'. split; [|exact Hr']. apply same_group_key in Hs. congruence.
Qed.

(** In a table where no two rows share a name and a digest, every row is
    the largest of its group. *)
Lemma all_survive (rows : table) :
  NoDup (map name_and_digest rows) ->
  delete_not_in (select_max_ids rows) rows = rows.
Proof.
  intros Hnd. unfold delete_not_in. apply forallb_filter_id.
  apply forallb_forall. intros r Hr.
  assert (Hin : In r (delete_not_in (select_max_ids rows) rows)).
  { apply largest_survives; [exact Hr|]. intros r' Hr' Hs.
    apply same_group_key in Hs.
    assert (r' = r); [|subst; lia].
    revert Hnd Hr Hr' Hs. clear. induction rows as [|x rows IH]; [easy|].
    cbn. intros Hnd Hr Hr' Hs. inversion Hnd as [|? ? Hnotin Hnd']; subst.
    destruct Hr as [->|Hr], Hr' as [->|Hr']; auto.
    - exfalso. apply Hnotin. rewrite Hs. now apply in_map.
    - exfalso. apply Hnotin. rewrite <- Hs. now apply in_map. }
  apply in_delete_not_in in Hin. destruct Hin as [_ Hin].
  apply existsb_exists. exists (r_id r). split; [exact Hin | apply Z.eqb_refl].
Qed.

Lemma group_of_one (rows : table) (g : row) :
  NoDup (map name_and_digest rows) ->
  (List.length (filter (same_group g) rows) <= 1)%nat.
Proof.
  induction rows as [|x rows IH]; cbn; intros Hnd; [lia|].
  inversion Hnd as [|? ? Hnotin Hnd']; subst.
  destruct (same_group g x) eqn:E; [|auto]. cbn.
  rewrite filter_none; [cbn; lia|].
  intros y Hy. destruct (same_group g y) eqn:E'; [|reflexivity].
  exfalso. apply Hnotin. apply same_group_key in E, E'.
  rewrite <- E, E'. now apply in_map.
Qed.

Lemma find_duplicates_none (d : t) :
  NoDup (map name_and_digest (work d)) -> find_duplicates d = [].
Proof.
  intros Hnd. unfold find_duplicates.
  induction (group_heads (work d)) as [|g gs IH]; [reflexivity|].
  cbn [flat_map]. rewrite IH, app_nil_r.
  pose proof (group_of_one (work d) g Hnd).
  destruct (1 <? _) eqn:E; [|reflexivity]. apply Z.ltb_lt in E. lia.
Qed.

(** X6.  After [remove_duplicates()] no two rows share a name and a
    digest, while every pair of name and digest that was in the table is
    still there: [count_rows] is the number of groups, [find_duplicates]
    has nothing to report, and a second [remove_duplicates()] changes
    nothing. *)
Theorem X6_remove_duplicates_leaves_one_row_per_group (d : t) :
  NoDup (map r_id (work d)) ->
  NoDup (map name_and_digest (work (remove_duplicates d)))
  /\ (forall k, In k (map name_and_digest (work (remove_duplicates d))) <->
                In k (map name_and_digest (work d)))
  /\ count_rows (remove_duplicates d) = Z.of_nat (List.length (group_heads (work d)))
  /\ find_duplicates (remove_duplicates d) = []
  /\ remove_duplicates (remove_duplicates d) = remove_duplicates d.
Proof.
  intros Hnd.
  pose proof (survivors_keys_nodup _ Hnd) as Hkeys.
  pose proof (survivors_keys (work d)) as Hsame.
  unfold remove_duplicates, commit at 1 2 3 4. cbn [work disk count force_casefold].
  split; [exact Hkeys|]. split; [exact Hsame|]. split; [|split].
  - unfold count_rows. cbn [work]. f_equal.
    rewrite <- (length_map name_and_digest),
            <- (length_map name_and_digest (group_heads (work d))).
    apply Permutation_length, NoDup_Permutation;
      [exact Hkeys | apply group_heads_keys_nodup|].
    intros k. rewrite Hsame, group_heads_keys. reflexivity.
  - apply find_duplicates_none. exact Hkeys.
  - unfold commit. cbn [work disk count force_casefold].
    now rewrite (all_survive _ Hkeys).
Qed.

(** An instance: the sample store with a duplicate. *)
Lemma X6_remove_duplicates_leaves_one_row_per_group_witness :
  count_rows (remove_duplicates Sample.with_duplicate) = 2
  /\ find_duplicates (remove_duplicates Sample.with_duplicate) = [].
Proof.
  assert (Hnd : NoDup (map r_id (work Sample.with_duplicate))).
  { cbn. repeat constructor; cbn; intuition lia. }
  destruct (X6_remove_duplicates_leaves_one_row_per_group _ Hnd)
    as (_ & _ & Hc & Hf & _).
  split; [rewrite Hc; reflexivity | exact Hf].
Defined.

End DuplicateFacts.

Section DuplicateReports.

Import Database.

Lemma filter_two {B : Type} (p : B -> bool) (x : B) (l : list B) :
  p x = true -> In x l -> (1 <= List.length (filter p l))%nat.
Proof.
  intros Hp Hin. assert (H : In x (filter p l)) by (apply filter_In; auto).
  destruct (filter p l); [destruct H | cbn; lia].
Qed.

Lemma find_duplicates_in (d : t) (fn m : string) (n : Z) :
  In (DuplicateRow fn m n) (find_duplicates d) <->
  1 < n /\
  n = Z.of_nat (List.length
                  (filter (fun r => String.eqb fn (r_filename r)
                                    && String.eqb m (r_md5 r))%bool (work d))).
Proof.
  unfold find_duplicates. rewrite in_flat_map. split.
  - intros (g & Hg & Hin).
    destruct (1 <? _) eqn:E; [|destruct Hin].
    destruct Hin as [Heq|[]]. injection Heq as <- <- <-.
    apply Z.ltb_lt in E. split; [exact E | reflexivity].
  - intros [Hn ->].
    destruct (filter _ (work d)) as [|r rest] eqn:Hf; [cbn in Hn; lia|].
    assert (Hr : In r (filter (fun r => String.eqb fn (r_filename r)
                                        && String.eqb m (r_md5 r))%bool (work d)))
      by (rewrite Hf; now left).
    apply filter_In in Hr. destruct Hr as [Hr Hk].
    apply andb_true_iff in Hk. destruct Hk as [Hk1 Hk2].
    apply String.eqb_eq in Hk1, Hk2.
    destruct (group_heads_cover _ _ Hr) as (g & Hg & Hs).
    apply same_group_iff in Hs. destruct Hs as [Hs1 Hs2].
    exists g. split; [exact Hg|].
    assert (Hsame : filter (same_group g) (work d) = r :: rest).
    { rewrite <- Hf. apply filter_ext. intros a. unfold same_group.
      now rewrite Hs1, Hs2, <- Hk1, <- Hk2. }
    rewrite Hsame. apply Z.ltb_lt in Hn. rewrite Hn.
    left. f_equal; congruence.
Qed.

Lemma find_duplicates_some (d : t) (a b : row) (l1 l2 l3 : table) :
  work d = l1 ++ a :: l2 ++ b :: l3 ->
  name_and_digest a = name_and_digest b ->
  find_duplicates d <> [].
Proof.
  intros Hw Hk Hnone.
  assert (Ha : In a (work d)) by (rewrite Hw; apply in_or_app; right; now left).
  set (n := Z.of_nat (List.length
              (filter (fun r => String.eqb (r_filename a) (r_filename r)
                                && String.eqb (r_md5 a) (r_md5 r))%bool (work d)))).
  assert (Hin : In (DuplicateRow (r_filename a) (r_md5 a) n) (find_duplicates d)).
  { apply find_duplicates_in. split; [|reflexivity]. subst n.
    rewrite Hw, filter_app. cbn [filter]. rewrite !String.eqb_refl. cbn [andb].
    rewrite filter_app. cbn [filter].
    injection Hk as Hk1 Hk2. rewrite Hk1, Hk2, !String.eqb_refl. cbn [andb].
    rewrite length_app. cbn [List.length]. rewrite length_app. cbn [List.length].
    lia. }
  rewrite Hnone in Hin. destruct Hin.
Qed.

(** X7.  [find_duplicates()] reports a name and a digest, with the number
    of rows that have both, exactly when that number is more than one.
    It reports nothing exactly when no two rows of the table share a name
    and a digest. *)
Theorem X7_find_duplicates_reports_groups_of_two_or_more (d : t) :
  (forall fn m n,
     In (DuplicateRow fn m n) (find_duplicates d) <->
     1 < n /\
     n = Z.of_nat (List.length
                     (filter (fun r => String.eqb fn (r_filename r)
                                       && String.eqb m (r_md5 r))%bool (work d))))
  /\ (forall x, In x (find_duplicates d) -> exists fn m n, x = DuplicateRow fn m n)
  /\ (find_duplicates d = [] <-> NoDup (map name_and_digest (work d))).
Proof.
  split; [intros; apply find_duplicates_in|]. split.
  - unfold find_duplicates. intros x Hx. apply in_flat_map in Hx.
    destruct Hx as (g & _ & Hx). destruct (1 <? _); [|destruct Hx].
    destruct Hx as [<-|[]]. eauto.
  - split; [|apply find_duplicates_none].
    intros Hnone.
    assert (Hgen : forall l1 l2, work d = l1 ++ l2 -> NoDup (map name_and_digest l2)).
    { intros l1 l2. revert l1. induction l2 as [|a l2 IH]; intros l1 Hw;
        [constructor|].
      cbn. constructor.
      - intros Hin. apply in_map_iff in Hin. destruct Hin as (b & Hk & Hb).
        apply in_split in Hb. destruct Hb as (m1 & m2 & ->).
        now apply (find_duplicates_some d a b l1 m1 m2 Hw).
      - apply (IH (l1 ++ [a])). now rewrite <- app_assoc. }
    now apply (Hgen []).
Qed.

(** An instance: the duplicate of the sample store. *)
Lemma X7_find_duplicates_reports_groups_of_two_or_more_witness :
  In (DuplicateRow "A" "h1" 2) (find_duplicates Sample.with_duplicate).
Proof.
  destruct (X7_find_duplicates_reports_groups_of_two_or_more Sample.with_duplicate)
    as (H & _).
  apply H. split; [lia | reflexivity].
Defined.

Lemma put_id_is_new (fn : string) (size : Z) (md5 : string) (d d' : t) :
  put fn size md5 d = Ok d' -> forall r, In r (work d) -> r_id r <> count d.
Proof.
  unfold put, insert. cbn [r_id r_size].
  destruct (negb (Z.eqb (Str.len md5) 32)); [discriminate|].
  destruct (negb _); [discriminate|].
  destruct (has_id (count d) (work d)) eqn:E; [discriminate|].
  intros _. now apply has_id_false_iff.
Qed.

Lemma put_keeps_ids_distinct (fn : string) (size : Z) (md5 : string) (d d' : t) :
  NoDup (map r_id (work d)) -> put fn size md5 d = Ok d' ->
  NoDup (map r_id (work d')).
Proof.
  intros Hnd Hput.
  destruct (put_ok _ _ _ _ _ Hput) as (name & Hw & _).
  rewrite Hw, map_app. cbn [map r_id].
  apply (Permutation_NoDup (l := count d :: map r_id (work d))).
  - apply Permutation_cons_append.
  - constructor; [|exact Hnd]. intros Hin. apply in_map_iff in Hin.
    destruct Hin as (r & Hid & Hr).
    exact (put_id_is_new _ _ _ _ _ Hput r Hr Hid).
Qed.

(** X8.  With case folding on, two inserts of one digest under names that
    differ only in the case of their letters land in one group: after
    [remove_duplicates()] the row of the second insert is there and the
    row of the first is not, and no other row has that name and digest. *)
Theorem X8_casefold_merges_names_that_differ_in_case
    (fn1 fn2 : string) (size1 size2 : Z) (md5 : string) (d d1 d2 : t) :
  force_casefold d = true ->
  Str.casefold fn1 = Str.casefold fn2 ->
  NoDup (map r_id (work d)) ->
  next_id_ok d ->
  put fn1 size1 md5 d = Ok d1 ->
  put fn2 size2 md5 d1 = Ok d2 ->
  In (mkRow (count d + 1) (Str.casefold fn2) size2 md5) (work (remove_duplicates d2))
  /\ ~ In (mkRow (count d) (Str.casefold fn1) size1 md5) (work (remove_duplicates d2))
  /\ (forall r, In r (work (remove_duplicates d2)) ->
                r_filename r = Str.casefold fn1 -> r_md5 r = md5 ->
                r = mkRow (count d + 1) (Str.casefold fn2) size2 md5).
Proof.
  intros Hcf Hfold Hnd Hinv Hput1 Hput2.
  destruct (put_ok _ _ _ _ _ Hput1) as (n1 & Hw1 & Hc1 & Hcf1 & Hn1 & _).
  destruct (put_ok _ _ _ _ _ Hput2) as (n2 & Hw2 & Hc2 & _ & Hn2 & _).
  rewrite Hcf in Hn1. rewrite Hcf1, Hcf in Hn2. subst n1 n2.
  rewrite Hc1 in Hw2.
  pose proof (put_keeps_ids_distinct _ _ _ _ _ Hnd Hput1) as Hnd1.
  pose proof (put_keeps_ids_distinct _ _ _ _ _ Hnd1 Hput2) as Hnd2.
  set (row1 := mkRow (count d) (Str.casefold fn1) size1 md5) in *.
  set (row2 := mkRow (count d + 1) (Str.casefold fn2) size2 md5) in *.
  assert (Hin1 : In row1 (work d2)).
  { rewrite Hw2, Hw1. apply in_or_app. left. apply in_or_app. right. now left. }
  assert (Hin2 : In row2 (work d2)).
  { rewrite Hw2. apply in_or_app. right. now left. }
  assert (Hbound : forall r, In r (work d2) -> r_id r <= count d + 1).
  { intros r Hr. rewrite Hw2, Hw1 in Hr.
    apply in_app_or in Hr. destruct Hr as [Hr|[<-|[]]]; [|cbn; lia].
    apply in_app_or in Hr. destruct Hr as [Hr|[<-|[]]]; [|cbn; lia].
    pose proof (next_id_ok_bound _ _ Hinv Hr). lia. }
  assert (Hkeep : In row2 (delete_not_in (select_max_ids (work d2)) (work d2))).
  { apply largest_survives; [exact Hin2|]. intros r Hr _. now apply Hbound. }
  unfold remove_duplicates, commit. cbn [work].
  split; [exact Hkeep|]. split.
  - intros H. destruct (survivor_is_largest _ _ Hnd2 H) as [_ Hmax].
    assert (Hs : same_group row1 row2 = true).
    { apply same_group_iff. cbn. auto. }
    pose proof (Hmax row2 Hin2 Hs) as Hle. cbn in Hle. lia.
  - intros r Hr Hf Hm.
    destruct (survivor_is_largest _ _ Hnd2 Hr) as [Hr' Hmax].
    assert (Hs : same_group r row2 = true).
    { apply same_group_iff. cbn. split; congruence. }
    pose proof (Hmax row2 Hin2 Hs) as Hle. cbn in Hle.
    pose proof (Hbound r Hr').
    apply (unique_by_id (work d2)); auto. cbn. lia.
Qed.

(** An instance: [DM-Test.ut2] and [dm-test.UT2]. *)
Lemma X8_casefold_merges_names_that_differ_in_case_witness :
  exists d1 d2,
    put "DM-Test.ut2" 7 Sample.md5_of_nothing Sample.folding = Ok d1 /\
    put "dm-test.UT2" 7 Sample.md5_of_nothing d1 = Ok d2 /\
    In (mkRow 2 "dm-test.ut2" 7 Sample.md5_of_nothing) (work (remove_duplicates d2)) /\
    ~ In (mkRow 1 "dm-test.ut2" 7 Sample.md5_of_nothing) (work (remove_duplicates d2)).
Proof.
  destruct (put "DM-Test.ut2" 7 Sample.md5_of_nothing Sample.folding)
    as [d1|e] eqn:E1; [|vm_compute in E1; discriminate E1].
  destruct (put "dm-test.UT2" 7 Sample.md5_of_nothing d1)
    as [d2|e] eqn:E2;
    [|vm_compute in E1; injection E1 as <-; vm_compute in E2; discriminate E2].
  exists d1, d2. split; [reflexivity|]. split; [exact E2|].
  destruct (X8_casefold_merges_names_that_differ_in_case
              "DM-Test.ut2" "dm-test.UT2" 7 7 Sample.md5_of_nothing
              Sample.folding d1 d2 eq_refl eq_refl) as (H1 & H2 & _);
    [constructor | reflexivity | exact E1 | exact E2 |].
  split; [exact H1 | exact H2].
Defined.

(** X9.  [reinitialize(delete=True)] leaves an empty table: no row is
    counted or found any more, and the ids start again at 1, whatever ids
    the store held before. *)
Theorem X9_wipe_empties_and_restarts_ids (d : t) :
  count_rows (HashGrabber.reinitialize true d) = 0
  /\ (forall q, find q (HashGrabber.reinitialize true d) = [])
  /\ (forall q, find_by_name q (HashGrabber.reinitialize true d) = [])
  /\ find_duplicates (HashGrabber.reinitialize true d) = []
  /\ (forall fn size md5 d',
        put fn size md5 (HashGrabber.reinitialize true d) = Ok d' ->
        work d' = [mkRow 1 (stored_name d fn) size md5]).
Proof.
  repeat split; try reflexivity.
  intros fn size md5 d' Hput.
  destruct (put_ok _ _ _ _ _ Hput) as (name & Hw & _ & _ & Hname & _).
  rewrite Hw, Hname. reflexivity.
Qed.

(** An instance: a wipe of the sample store, then an insert. *)
Lemma X9_wipe_empties_and_restarts_ids_witness :
  exists d',
    put "a.u" 7 Sample.md5_of_nothing
        (HashGrabber.reinitialize true Sample.with_duplicate) = Ok d'
    /\ work d' = [mkRow 1 "a.u" 7 Sample.md5_of_nothing].
Proof.
  destruct (put "a.u" 7 Sample.md5_of_nothing
              (HashGrabber.reinitialize true Sample.with_duplicate))
    as [d'|e] eqn:E; [|vm_compute in E; discriminate E].
  exists d'. split; [reflexivity|].
  destruct (X9_wipe_empties_and_restarts_ids Sample.with_duplicate)
    as (_ & _ & _ & _ & H).
  exact (H _ _ _ _ E).
Defined.

(** X10.  After [remove_duplicates()], [find(md5)] lists a name at most
    once. *)
Theorem X10_find_after_remove_duplicates_has_distinct_names (md5 : string) (d : t) :
  NoDup (map r_id (work d)) ->
  NoDup (map (fun x => fst (fst x)) (find md5 (remove_duplicates d))).
Proof.
  intros Hnd. pose proof (survivors_keys_nodup _ Hnd) as Hkeys.
  unfold find, remove_duplicates, commit. cbn [work].
  eapply Permutation_NoDup.
  { apply Permutation_map. symmetry. apply order_by_perm. }
  rewrite map_map. cbn [selected fst].
  induction (delete_not_in (select_max_ids (work d)) (work d)) as [|r rows IH];
    [constructor|].
  cbn in Hkeys. inversion Hkeys as [|? ? Hnotin Hrest]; subst.
  cbn [filter]. destruct (String.eqb (r_md5 r) md5) eqn:E; [|now apply IH].
  cbn [map]. constructor; [|now apply IH].
  intros Hin. apply in_map_iff in Hin. destruct Hin as (r' & Hname & Hr').
  apply filter_In in Hr'. destruct Hr' as [Hr' Hm].
  apply String.eqb_eq in E, Hm. apply Hnotin. apply in_map_iff.
  exists r'. split; [|exact Hr']. unfold name_and_digest. congruence.
Qed.

(** An instance: the sample store. *)
Lemma X10_find_after_remove_duplicates_has_distinct_names_witness :
  NoDup (map (fun x => fst (fst x))
             (find "h1" (remove_duplicates Sample.with_duplicate))).
Proof.
  apply X10_find_after_remove_duplicates_has_distinct_names.
  cbn. repeat constructor; cbn; intuition lia.
Defined.

(** X11.  [dump(raw=True)] returns every row of the table once, as
    [(filename, size, md5)], in the byte order of the names; [dump()]
    logs one message for each of them, in that order. *)
Theorem X11_dump_lists_every_row_once (d : t) :
  Permutation (dump_raw d) (map selected (work d))
  /\ Sorted (fun a b => String.leb (fst (fst a)) (fst (fst b)) = true) (dump_raw d)
  /\ dump d = map (fun r => DumpedRow (fst (fst r)) (snd (fst r)) (snd r)) (dump_raw d)
  /\ Z.of_nat (List.length (dump d)) = count_rows d.
Proof.
  split; [apply order_by_perm|].
  split; [apply (order_by_sorted _ _ by_filename_total)|].
  split; [reflexivity|].
  unfold dump, dump_raw, count_rows.
  now rewrite length_map, order_by_length, length_map.
Qed.

End DuplicateReports.

(** * More on the classifier and the scans *)

Section DigestShape.

Lemma length_hex (bs : bytes) :
  String.length (MD5.hex bs) = (2 * List.length bs)%nat.
Proof.
  induction bs as [|b r IH]; [reflexivity|].
  cbn [MD5.hex String.length List.length]. rewrite IH. lia.
Qed.

Lemma length_digest (h : MD5.state) : List.length (MD5.digest h) = 16%nat.
Proof.
  unfold MD5.digest.
  destruct (MD5.chain (MD5.update h (MD5.padding h))) as [[[a b] c] e].
  reflexivity.
Qed.

(** A digest is 32 characters long. *)
Lemma length_hexdigest (h : MD5.state) :
  String.length (MD5.hexdigest h) = 32%nat.
Proof. unfold MD5.hexdigest. now rewrite length_hex, length_digest. Qed.

Lemma hex_digit_lower (n : Z) :
  0 <= n < 16 -> Str.contains (MD5.hex_digit n) "0123456789abcdef" = true.
Proof.
  intros H. rewrite <- (Z2Nat.id n) by lia.
  assert (Hk : (Z.to_nat n < 16)%nat) by lia.
  revert Hk. generalize (Z.to_nat n). clear H. intros k Hk.
  do 16 (destruct k as [|k]; [reflexivity|]). lia.
Qed.

(** ... each a digit or a letter from [a] to [f]. *)
Lemma hex_lower (bs : bytes) (c : ascii) :
  Str.contains c (MD5.hex bs) = true ->
  Str.contains c "0123456789abcdef" = true.
Proof.
  induction bs as [|b r IH]; [discriminate|].
  cbn [MD5.hex Str.contains]. intros H.
  pose proof (byte_val_range b) as Hb.
  apply orb_true_iff in H. destruct H as [H|H].
  - apply Ascii.eqb_eq in H. subst c. apply hex_digit_lower.
    Z.div_mod_to_equations. lia.
  - apply orb_true_iff in H. destruct H as [H|H]; [|now apply IH].
    apply Ascii.eqb_eq in H. subst c. apply hex_digit_lower.
    Z.div_mod_to_equations. lia.
Qed.

End DigestShape.

Section ClassifierFacts.

Import HashGrabber.

(** What the loop returns with a digest: a size no smaller than the one
    it started from, and the digest of some hash object. *)
Lemma decode_result (fn rfn : string) (fuel : nat) (f : bytes) (fs size : Z)
    (h : MD5.state) (n : Z) (name : string) (size' : Z) (md5 : string) :
  snd (decode fuel fn rfn f fs size h n) = Ok (name, Some (size', md5)) ->
  size <= size' /\ exists h', md5 = MD5.hexdigest h'.
Proof.
  revert f fs size h n. induction fuel as [|fuel IH]; intros f fs size h n;
    cbn [decode].
  - destruct (fs <=? 0); cbn; intros [= _ <- <-]; split; eauto; lia.
  - destruct (fs <=? 0); [cbn; intros [= _ <- <-]; split; eauto; lia|].
    destruct (read 8 f) as [header f1].
    destruct (unpack_II header) as [[cs us]|] eqn:U;
      [|cbn; intros [= _ <- <-]; split; eauto; lia].
    destruct (unpack_II_nonneg _ _ _ U) as [_ Hus].
    rewrite snd_say. destruct (read cs f1) as [chunk f2].
    destruct (negb (blen chunk =? cs)); [cbn; discriminate|].
    destruct (Zlib.decompress chunk 15 us); [|cbn; discriminate].
    intros H. destruct (IH _ _ _ _ _ H) as [Hle Hh]. split; [lia | exact Hh].
Qed.

(** What [check_one_file] returns with a digest: a size that is not
    negative, and the digest of some hash object. *)
Lemma check_one_file_digest (fn : string) (f : file) (skip : bool)
    (name : string) (size : Z) (md5 : string) :
  snd (check_one_file fn f skip) = Ok (name, Some (size, md5)) ->
  0 <= size /\ exists h, md5 = MD5.hexdigest h.
Proof.
  unfold check_one_file, with_open.
  pose proof (blen_nonneg (content f)) as Hsize. fold (getsize f) in Hsize.
  destruct (is_compressed fn).
  - rewrite snd_say. destruct (readable f); [|cbn [snd]; discriminate].
    intros H. apply decode_result in H. destruct H as [Hle Hh].
    split; [lia | exact Hh].
  - destruct (is_known fn); rewrite snd_say.
    + destruct (2147483647 <? getsize f); [cbn [snd]; discriminate|].
      destruct (readable f); cbn [snd]; [|discriminate].
      generalize (hash_blocks (S (List.length (content f))) (content f) MD5.new).
      intros h0 [= _ <- <-]. split; eauto.
    + destruct skip; [cbn [snd]; discriminate|].
      destruct (2147483647 <? getsize f); [cbn [snd]; discriminate|].
      destruct (readable f); cbn [snd]; [|discriminate].
      generalize (hash_blocks (S (List.length (content f))) (content f) MD5.new).
      intros h0 [= _ <- <-]. split; eauto.
Qed.

(** X12.  Whatever [check_one_file] returns with a digest, the digest is
    32 characters long, all of them digits or letters from [a] to [f], and
    the size is not negative. *)
Theorem X12_returned_digest_is_well_formed (fn : string) (f : file) (skip : bool)
    (name : string) (size : Z) (md5 : string) :
  snd (check_one_file fn f skip) = Ok (name, Some (size, md5)) ->
  Str.len md5 = 32
  /\ (forall c, Str.contains c md5 = true ->
                Str.contains c "0123456789abcdef" = true)
  /\ 0 <= size.
Proof.
  intros H. destruct (check_one_file_digest _ _ _ _ _ _ H) as [Hsize [h ->]].
  split; [unfold Str.len; now rewrite length_hexdigest|].
  split; [intros c; apply hex_lower | exact Hsize].
Qed.

(** An instance: the sample container. *)
Lemma X12_returned_digest_is_well_formed_witness :
  Str.len "08991c56e53d496bb6de1028044763ca" = 32.
Proof.
  refine (proj1 (X12_returned_digest_is_well_formed
                   "Maps/DM-Test.ut2.uz2" (mkFile true (container Sample.two_chunks))
                   true "DM-Test.ut2" 29 "08991c56e53d496bb6de1028044763ca" _)).
  vm_compute. reflexivity.
Defined.

(** X13.  On the plain branch (a path that is not a compressed one, of a
    known type or hashed with [skip_weird] off) a file of at most
    2,147,483,647 bytes that can be opened gets its size and the digest of
    all its bytes: reading it 32 KiB at a time hashes the same as hashing
    it at once.  A file that cannot be opened makes [check_one_file] raise
    [OSError]. *)
Theorem X13_plain_file_is_hashed_whole (fn : string) (f : file) (skip : bool) :
  is_compressed fn = false ->
  is_known fn = true \/ skip = false ->
  getsize f <= 2147483647 ->
  (readable f = true ->
   snd (check_one_file fn f skip) =
   Ok (Path.basename fn,
       Some (getsize f, MD5.hexdigest (MD5.update MD5.new (content f)))))
  /\ (readable f = false -> snd (check_one_file fn f skip) = Raise OSError).
Proof.
  intros Hc Hroute Hsize. unfold check_one_file, with_open. rewrite Hc.
  assert (E : (2147483647 <? getsize f) = false) by (apply Z.ltb_ge; lia).
  rewrite E.
  assert (Hplain : forall ev,
            (readable f = true ->
             snd (say ev (if readable f
                          then ([], Ok (Path.basename fn,
                                        Some (getsize f,
                                              MD5.hexdigest
                                                (hash_blocks (S (List.length (content f)))
                                                             (content f) MD5.new))))
                          else ([], Raise OSError))) =
             Ok (Path.basename fn,
                 Some (getsize f, MD5.hexdigest (MD5.update MD5.new (content f)))))
            /\ (readable f = false ->
                snd (say ev (if readable f
                             then ([], Ok (Path.basename fn,
                                           Some (getsize f,
                                                 MD5.hexdigest
                                                   (hash_blocks (S (List.length (content f)))
                                                                (content f) MD5.new))))
                             else ([], Raise OSError))) = Raise OSError)).
  { intros ev. rewrite snd_say. split; intros ->; cbn [snd]; [|reflexivity].
    rewrite hash_blocks_all by lia. reflexivity. }
  destruct (is_known fn).
  - apply Hplain.
  - destruct Hroute as [Hroute | ->]; [discriminate|]. apply Hplain.
Qed.

(** An instance: a plain file of a known type. *)
Lemma X13_plain_file_is_hashed_whole_witness :
  snd (check_one_file "Maps/good.ut2" (mkFile true Sample.hello) true) =
  Ok ("good.ut2", Some (23, "ace88c415d548f5e40851612925a6daa")).
Proof.
  destruct (X13_plain_file_is_hashed_whole "Maps/good.ut2" (mkFile true Sample.hello)
              true eq_refl (or_introl eq_refl)) as [H _];
    [vm_compute; discriminate|].
  refine (eq_trans (H eq_refl) _). vm_compute. reflexivity.
Defined.

(** X14.  Fewer than eight bytes left over after the last chunk are taken
    for the end of the file: they are reported, and the name, the size and
    the digest are those of the container without them.  So a compressed
    file shorter than eight bytes gets the digest of no byte at all. *)
Theorem X14_short_tail_is_a_clean_end (fn : string) (chunks : list chunk)
    (datas : list bytes) (tail : bytes) (skip : bool) :
  is_compressed fn = true ->
  Forall encodable chunks ->
  Forall2 inflates_to chunks datas ->
  tail <> [] -> (List.length tail < 8)%nat ->
  check_one_file fn (mkFile true (container chunks ++ tail)) skip =
  (CompressedFile fn :: validations fn chunks
     ++ [ExpectedEOF fn (Z.of_nat (List.length chunks))],
   snd (check_one_file fn (mkFile true (container chunks)) skip))
  /\ snd (check_one_file fn (mkFile true (container chunks)) skip) =
     Ok (Path.basename (Str.drop_last4 fn),
         Some (logical_size chunks,
               MD5.hexdigest (MD5.update MD5.new (List.concat datas)))).
Proof.
  intros Hfn Henc Hinf Hne Hlen.
  rewrite (check_one_file_container _ _ _ _ Hfn Henc Hinf). cbn [snd].
  split; [|reflexivity].
  rewrite (check_one_file_prefix _ _ _ _ _ (S (Z.to_nat (blen tail))) Hfn Henc Hinf)
    by lia.
  rewrite decode_eof; [reflexivity | exact Hlen|].
  unfold blen. destruct tail; [congruence | cbn; lia].
Qed.

(** An instance: the sample container followed by three bytes. *)
Lemma X14_short_tail_is_a_clean_end_witness :
  snd (check_one_file "a.uz2"
         (mkFile true (container Sample.two_chunks ++ [x00; x01; x02])) true) =
  Ok ("a", Some (29, "08991c56e53d496bb6de1028044763ca")).
Proof.
  destruct (X14_short_tail_is_a_clean_end "a.uz2" Sample.two_chunks
              [Sample.hello; Sample.ut2004] [x00; x01; x02] true eq_refl)
    as [H1 H2].
  - repeat constructor; vm_compute; congruence.
  - repeat constructor; vm_compute; reflexivity.
  - discriminate.
  - cbn. lia.
  - rewrite H1. cbn [snd]. rewrite H2. vm_compute. reflexivity.
Defined.

(** X15.  When every chunk declares the length its payload really inflates
    to, the size [check_one_file] returns for a container is the number of
    bytes it has hashed. *)
Theorem X15_size_is_length_for_honest_chunks (fn : string) (chunks : list chunk)
    (datas : list bytes) (skip : bool) :
  is_compressed fn = true ->
  Forall encodable chunks ->
  Forall2 inflates_to chunks datas ->
  Forall2 (fun c d => uncompressed_size c = blen d) chunks datas ->
  snd (check_one_file fn (mkFile true (container chunks)) skip) =
  Ok (Path.basename (Str.drop_last4 fn),
      Some (blen (List.concat datas),
            MD5.hexdigest (MD5.update MD5.new (List.concat datas)))).
Proof.
  intros Hfn Henc Hinf Hhonest.
  rewrite (check_one_file_container _ _ _ _ Hfn Henc Hinf). cbn [snd].
  assert (Hsize : logical_size chunks = blen (List.concat datas)).
  { clear - Hhonest. induction Hhonest as [|c d chunks datas Hc _ IH];
      [reflexivity|].
    cbn [logical_size fold_right List.concat]. fold (logical_size chunks).
    rewrite blen_app. lia. }
  now rewrite Hsize.
Qed.

(** An instance: the sample container. *)
Lemma X15_size_is_length_for_honest_chunks_witness :
  snd (check_one_file "a.uz2" (mkFile true (container Sample.two_chunks)) true) =
  Ok ("a", Some (29, "08991c56e53d496bb6de1028044763ca")).
Proof.
  refine (eq_trans (X15_size_is_length_for_honest_chunks "a.uz2" Sample.two_chunks
                      [Sample.hello; Sample.ut2004] true eq_refl _ _ _) _).
  - repeat constructor; vm_compute; congruence.
  - repeat constructor; vm_compute; reflexivity.
  - repeat constructor.
  - vm_compute. reflexivity.
Defined.

End ClassifierFacts.

Section ScanFacts.

Import HashGrabber.










End ScanFacts.

Section GameScanFacts.

Import HashGrabber.






End GameScanFacts.
(** * The console and the query commands *)

Section ConsoleFacts.

Lemma prefix_of_other (l : Z) :
  l < -3 \/ l = -1 \/ 4 < l -> Console.prefix_of l = None.
Proof.
  intros H. unfold Console.prefix_of.
  destruct (Z.eqb_spec l 4); [lia|]. destruct (Z.eqb_spec l 3); [lia|].
  destruct (Z.eqb_spec l (-3)); [lia|]. destruct (Z.eqb_spec l 2); [lia|].
  destruct (Z.eqb_spec l (-2)); [lia|]. destruct (Z.eqb_spec l 1); [lia|].
  destruct (Z.eqb_spec l 0); [lia|]. reflexivity.
Qed.

Lemma muted_plain (m l : Z) :
  l <> -2 -> l <> -3 -> Console.muted m l = negb (l <=? m).
Proof.
  intros H2 H3. unfold Console.muted.
  destruct (Z.eqb_spec l (-2)); [lia|]. destruct (Z.eqb_spec l (-3)); [lia|].
  cbn. rewrite andb_true_r. destruct (Z.ltb_spec m l), (Z.leb_spec l m); auto; lia.
Qed.

(** X19.  Under verbosity [m], [log] prints a message of level 0 to 4
    exactly when the level is at most [m], errors and fatal errors on
    the error stream and the rest on the output stream; the levels -2 and
    -3 are printed whatever [m] is.  No other level has a prefix: the call
    warns about the level when [m] is 2 or more, and then raises
    [UnboundLocalError] unless the level is above [m].  Every message of
    the classifier and of the scans has a level from 1 to 4. *)
Theorem X19_log_prints_by_level (m : Z) (msg : string) (l : Z) :
  (0 <= l <= 4 ->
   exists p, Console.log m msg l =
             (if l <=? m
              then [(p, msg, if l <=? 1 then Console.stderr else Console.stdout)]
              else [], None))
  /\ (l = -2 \/ l = -3 ->
      exists p, Console.log m msg l = ([(p, msg, Console.stdout)], None))
  /\ (l < -3 \/ l = -1 \/ 4 < l ->
      Console.log m msg l =
        (if 2 <=? m then [("WARN :", "Invalid level", Console.stdout)] else [],
         if l <=? m then Some UnboundLocalError else None))
  /\ (forall e : event, 1 <= level e <= 4).
Proof.
  split; [|split; [|split]].
  - intros H.
    assert (l = 0 \/ l = 1 \/ l = 2 \/ l = 3 \/ l = 4) as Hl by lia.
    unfold Console.log.
    destruct Hl as [->|[->|[->|[->| ->]]]];
      unfold Console.prefix_of, Console.muted;
      match goal with
      | |- context [m <? ?k] =>
          destruct (Z.ltb_spec m k), (Z.leb_spec k m); try lia
      end; cbn; first [now exists EmptyString | eexists; reflexivity].
  - intros [-> | ->]; unfold Console.log, Console.muted; cbn;
      destruct (m <? _); eexists; reflexivity.
  - intros H. unfold Console.log. rewrite (prefix_of_other l H).
    rewrite !muted_plain by lia.
    destruct (2 <=? m), (l <=? m); reflexivity.
  - intros e. destruct e; cbn; lia.
Qed.

(** An instance: under verbosity 3, an error is printed on the error
    stream, and the level -1 makes [log] raise. *)
Lemma X19_log_prints_by_level_witness :
  (exists p, Console.log 3 "hello" 1 = ([(p, "hello", Console.stderr)], None))
  /\ Console.log 3 "hello" (-1)
     = ([("WARN :", "Invalid level", Console.stdout)], Some UnboundLocalError).
Proof.
  destruct (X19_log_prints_by_level 3 "hello" 1) as (H1 & _).
  destruct (X19_log_prints_by_level 3 "hello" (-1)) as (_ & _ & H3 & _).
  split; [apply H1; lia | apply H3; lia].
Defined.

End ConsoleFacts.

Section QueryCommands.

Import Database HashGrabber UserInterface.

Lemma all_in_true (allowed s : string) :
  all_in allowed s = true <->
  forall c, Str.contains c s = true -> Str.contains c allowed = true.
Proof.
  induction s as [|a r IH]; cbn [all_in Str.contains].
  - split; [discriminate | reflexivity].
  - rewrite andb_true_iff, IH. split.
    + intros [Ha Hr] c H. apply orb_true_iff in H. destruct H as [H|H].
      * apply Ascii.eqb_eq in H. now subst c.
      * now apply Hr.
    + intros H. split.
      * apply H. now rewrite Ascii.eqb_refl.
      * intros c Hc. apply H. rewrite Hc. apply orb_true_r.
Qed.

Lemma all_in_false (allowed s : string) :
  all_in allowed s = false <->
  exists c, Str.contains c s = true /\ Str.contains c allowed = false.
Proof.
  split.
  - induction s as [|a r IH]; cbn [all_in Str.contains]; [discriminate|].
    intros H. apply andb_false_iff in H. destruct H as [H|H].
    + exists a. now rewrite Ascii.eqb_refl.
    + destruct (IH H) as (c & Hc & Hn). exists c. rewrite Hc.
      split; [apply orb_true_r | exact Hn].
  - intros (c & Hc & Hn). destruct (all_in allowed s) eqn:E; [|reflexivity].
    rewrite (proj1 (all_in_true _ _) E c Hc) in Hn. discriminate.
Qed.

Lemma casefold_length (s : string) :
  Str.len (Str.casefold s) = Str.len s.
Proof.
  unfold Str.len. f_equal.
  induction s as [|c r IH]; cbn; [reflexivity | now rewrite IH].
Qed.

Lemma hex_digits_any_order (c : ascii) :
  Str.contains c "0123456789abcdef" = true -> Str.contains c hex_digits = true.
Proof. destruct c as [[] [] [] [] [] [] [] []]; cbn; intros H; congruence. Qed.

(** A digest passes the test on search strings. *)
Lemma hexdigest_accepted (h : MD5.state) :
  md5_refused (MD5.hexdigest h) = false.
Proof.
  unfold md5_refused, Str.len. rewrite length_hexdigest. cbn. apply andb_false_r.
Qed.

Lemma put_row_found (fn : string) (size : Z) (md5 : string) (d d' : t) :
  put fn size md5 d = Ok d' ->
  In (stored_name d fn, size, md5) (find md5 d')
  /\ In (stored_name d fn, size, md5) (find_by_name (stored_name d fn) d').
Proof.
  intros Hput.
  destruct (put_ok _ _ _ _ _ Hput) as (name & Hw & _ & _ & Hname & _).
  fold (stored_name d fn) in Hname. subst name.
  unfold find, find_by_name.
  rewrite !order_by_in, Hw, !filter_snoc, !map_app, !in_app_iff.
  cbn [r_md5 r_filename]. rewrite !String.eqb_refl. unfold selected. cbn. auto.
Qed.

(** X20.  [find] refuses a string only when it has a character that,
    in lower case, is no hexadecimal digit and its length is not 32 as
    well: a string of 32 characters of any kind is looked up, and so is a
    string of hexadecimal digits of any length.  What is looked up is the
    string in lower case, so a digest that [check_one_file] returned and
    [put] stored is found whatever the case it is typed in. *)
Theorem X20_cmd_find_looks_up_in_lower_case (arg : string) (d : t) :
  (cmd_find arg d = None <->
   (exists c, Str.contains c (Str.casefold arg) = true
              /\ Str.contains c hex_digits = false)
   /\ Str.len arg <> 32)
  /\ (forall rows, cmd_find arg d = Some rows -> rows = find (Str.casefold arg) d)
  /\ (forall fn f skip name size md5 d0,
        snd (check_one_file fn f skip) = Ok (name, Some (size, md5)) ->
        put name size md5 d0 = Ok d ->
        Str.casefold arg = md5 ->
        exists rows, cmd_find arg d = Some rows
                     /\ In (stored_name d0 name, size, md5) rows).
Proof.
  unfold cmd_find. split; [|split].
  - unfold md5_refused. rewrite casefold_length.
    destruct (all_in hex_digits (Str.casefold arg)) eqn:A; cbn [negb andb].
    + split; [discriminate|]. intros [(c & Hc & Hn) _].
      rewrite (proj1 (all_in_true _ _) A c Hc) in Hn. discriminate.
    + apply all_in_false in A.
      destruct (Z.eqb_spec (Str.len arg) 32) as [E|E]; cbn [negb].
      * split; [discriminate | tauto].
      * split; auto.
  - intros rows. destruct (md5_refused _); [discriminate|]. now intros [= <-].
  - intros fn f skip name size md5 d0 Hc Hput Hq.
    destruct (check_one_file_digest _ _ _ _ _ _ Hc) as [_ [h ->]].
    rewrite Hq, hexdigest_accepted. eexists. split; [reflexivity|].
    apply (put_row_found _ _ _ _ _ Hput).
Qed.

(** An instance: the digest of the sample container, typed in upper
    case. *)
Lemma X20_cmd_find_looks_up_in_lower_case_witness :
  exists d rows,
    cmd_find "08991C56E53D496BB6DE1028044763CA" d = Some rows
    /\ In ("dm-test.ut2", 29, "08991c56e53d496bb6de1028044763ca") rows.
Proof.
  destruct (put "DM-Test.ut2" 29 "08991c56e53d496bb6de1028044763ca" Sample.folding)
    as [d|e] eqn:E; [|vm_compute in E; discriminate E].
  exists d.
  destruct (X20_cmd_find_looks_up_in_lower_case
              "08991C56E53D496BB6DE1028044763CA" d) as (_ & _ & H).
  apply (H "Maps/DM-Test.ut2.uz2" (mkFile true (container Sample.two_chunks)) true
           "DM-Test.ut2" 29 "08991c56e53d496bb6de1028044763ca" Sample.folding).
  - vm_compute. reflexivity.
  - exact E.
  - reflexivity.
Defined.

(** X21.  [name] refuses exactly the names that hold a semicolon, a
    colon or a space, and looks the others up as they are typed.  So a
    file whose name has a space is stored by [put] and found by
    [find_by_name], but the command does not look it up. *)
Theorem X21_cmd_name_refuses_names_with_a_space (arg : string) (d : t) :
  (cmd_name arg d = None <->
   Str.contains ";"%char arg = true \/ Str.contains ":"%char arg = true
   \/ Str.contains " "%char arg = true)
  /\ (forall rows, cmd_name arg d = Some rows -> rows = find_by_name arg d)
  /\ (forall fn size md5 d0,
        put fn size md5 d0 = Ok d ->
        stored_name d0 fn = arg ->
        Str.contains " "%char arg = true ->
        In (arg, size, md5) (find_by_name arg d) /\ cmd_name arg d = None).
Proof.
  unfold cmd_name. split; [|split].
  - destruct (Str.contains ";"%char arg), (Str.contains ":"%char arg),
      (Str.contains " "%char arg); cbn [orb];
      (split; [try discriminate; auto | try reflexivity; intuition discriminate]).
  - intros rows. destruct (_ || _)%bool; [discriminate|]. now intros [= <-].
  - intros fn size md5 d0 Hput <- Hsp. split.
    + apply (put_row_found _ _ _ _ _ Hput).
    + rewrite Hsp, !orb_true_r. reflexivity.
Qed.

(** An instance: a map with a space in its name. *)
Lemma X21_cmd_name_refuses_names_with_a_space_witness :
  exists d,
    In ("my map.ut2", 7, Sample.md5_of_nothing) (find_by_name "my map.ut2" d)
    /\ cmd_name "my map.ut2" d = None.
Proof.
  destruct (put "my map.ut2" 7 Sample.md5_of_nothing Sample.fresh)
    as [d|e] eqn:E; [|vm_compute in E; discriminate E].
  exists d.
  destruct (X21_cmd_name_refuses_names_with_a_space "my map.ut2" d) as (_ & _ & H).
  apply (H "my map.ut2" 7 Sample.md5_of_nothing Sample.fresh E);
    vm_compute; reflexivity.
Defined.

End QueryCommands.
(** * Files that share a digest *)

Section DigestGroups.

Import Database.

Lemma same_digest_iff (a b : row) : same_digest a b = true <-> r_md5 a = r_md5 b.
Proof. unfold same_digest. apply String.eqb_eq. Qed.

Lemma digest_heads_incl (rows : table) (g : row) :
  In g (digest_heads rows) -> In g rows.
Proof.
  induction rows as [|r rest IH]; cbn; [tauto|].
  intros [->|H]; [now left|]. right. apply IH. apply filter_In in H. tauto.
Qed.

Lemma digest_heads_cover (rows : table) (r : row) :
  In r rows -> exists g, In g (digest_heads rows) /\ same_digest g r = true.
Proof.
  induction rows as [|x rest IH]; cbn; [tauto|].
  intros [->|Hin].
  - exists r. split; [now left | now apply same_digest_iff].
  - destruct (IH Hin) as (g & Hg & Hs).
    destruct (same_digest x r) eqn:E.
    + exists x. split; [now left | exact E].
    + exists g. split; [|exact Hs]. right. apply filter_In. split; [exact Hg|].
      destruct (same_digest x g) eqn:E'; [|reflexivity].
      apply same_digest_iff in E', Hs.
      assert (same_digest x r = true) by (apply same_digest_iff; congruence).
      congruence.
Qed.

Lemma two_members {B : Type} (x y : B) (l : list B) :
  In x l -> In y l -> x <> y -> (2 <= List.length l)%nat.
Proof.
  destruct l as [|a [|b l]]; cbn; [tauto | | lia].
  intros [<-|[]] [<-|[]] H. now destruct H.
Qed.

Lemma work_remove_duplicates (d : t) :
  work (remove_duplicates d) = delete_not_in (select_max_ids (work d)) (work d).
Proof. reflexivity. Qed.

(** X22.  [find_duplicate_hashes()] reports a digest, with the number of
    rows that have it, exactly when that number is more than one; the name
    reported with it is the name of one of these rows, whichever row
    gives the bare column.  [remove_duplicates()] does not merge such
    rows when their names differ: a digest that two names share is still
    reported afterwards. *)
Theorem X22_find_duplicate_hashes_reports_shared_digests
    (pick : table -> row) (d : t) :
  (forall rows r, In r rows -> In (pick rows) rows) ->
  (forall fn m n,
     In (DuplicateRow fn m n) (find_duplicate_hashes pick d) ->
     1 < n
     /\ n = Z.of_nat (List.length (filter (fun r => String.eqb m (r_md5 r)) (work d)))
     /\ exists r, In r (work d) /\ r_md5 r = m /\ r_filename r = fn)
  /\ (forall m,
        1 < Z.of_nat (List.length (filter (fun r => String.eqb m (r_md5 r)) (work d))) ->
        exists fn,
          In (DuplicateRow fn m
                (Z.of_nat (List.length
                             (filter (fun r => String.eqb m (r_md5 r)) (work d)))))
             (find_duplicate_hashes pick d))
  /\ (forall a b,
        In a (work d) -> In b (work d) ->
        r_md5 a = r_md5 b -> r_filename a <> r_filename b ->
        exists fn n,
          In (DuplicateRow fn (r_md5 a) n)
             (find_duplicate_hashes pick (remove_duplicates d))).
Proof.
  intros Hpick.
  assert (Hconv : forall (e : t) m,
            1 < Z.of_nat (List.length
                            (filter (fun r => String.eqb m (r_md5 r)) (work e))) ->
            exists fn,
              In (DuplicateRow fn m
                    (Z.of_nat (List.length
                                 (filter (fun r => String.eqb m (r_md5 r)) (work e)))))
                 (find_duplicate_hashes pick e)).
  { intros e m Hn.
    destruct (filter _ (work e)) as [|r rest] eqn:Hf; [cbn in Hn; lia|].
    assert (Hr : In r (filter (fun r => String.eqb m (r_md5 r)) (work e)))
      by (rewrite Hf; now left).
    apply filter_In in Hr. destruct Hr as [Hr Hk]. apply String.eqb_eq in Hk.
    destruct (digest_heads_cover _ _ Hr) as (g & Hg & Hs).
    apply same_digest_iff in Hs.
    assert (Hsame : filter (same_digest g) (work e) = r :: rest).
    { rewrite <- Hf. apply filter_ext. intros x. unfold same_digest.
      now rewrite Hs, <- Hk. }
    exists (r_filename (pick (r :: rest))).
    unfold find_duplicate_hashes. apply in_flat_map. exists g.
    split; [exact Hg|]. cbn zeta. rewrite Hsame.
    apply Z.ltb_lt in Hn. rewrite Hn. left. f_equal. congruence. }
  split; [|split].
  - intros fn m n Hin. unfold find_duplicate_hashes in Hin.
    apply in_flat_map in Hin. destruct Hin as (g & Hg & Hin). cbn zeta in Hin.
    destruct (1 <? _) eqn:E; [|destruct Hin].
    destruct Hin as [Heq|[]]. injection Heq as <- <- <-.
    apply Z.ltb_lt in E. split; [exact E|]. split; [reflexivity|].
    apply digest_heads_incl in Hg.
    assert (Hgg : In g (filter (same_digest g) (work d))).
    { apply filter_In. split; [exact Hg | now apply same_digest_iff]. }
    pose proof (Hpick _ _ Hgg) as Hp. apply filter_In in Hp.
    destruct Hp as [Hp Hs]. apply same_digest_iff in Hs.
    exists (pick (filter (same_digest g) (work d))). auto.
  - intros m. apply Hconv.
  - intros a b Ha Hb Hm Hname.
    destruct (group_keeps_a_row _ _ Ha) as (a' & Ha' & Hsa & _).
    destruct (group_keeps_a_row _ _ Hb) as (b' & Hb' & Hsb & _).
    apply same_group_iff in Hsa, Hsb.
    destruct Hsa as [Hna Hma]. destruct Hsb as [Hnb Hmb].
    destruct (Hconv (remove_duplicates d) (r_md5 a)) as [fn Hfn]; [|eauto].
    rewrite work_remove_duplicates.
    assert (2 <= List.length
                   (filter (fun r => String.eqb (r_md5 a) (r_md5 r))
                           (delete_not_in (select_max_ids (work d)) (work d))))%nat;
      [|lia].
    apply (two_members a' b').
    + apply filter_In. split; [exact Ha' | now apply String.eqb_eq].
    + apply filter_In. split; [exact Hb' | apply String.eqb_eq; congruence].
    + intros ->. congruence.
Qed.

(** An instance: one content under two names, one of them twice. *)
Lemma X22_find_duplicate_hashes_reports_shared_digests_witness :
  exists fn n,
    In (DuplicateRow fn Sample.md5_of_nothing n)
       (find_duplicate_hashes Sample.first_of (remove_duplicates Sample.copies)).
Proof.
  destruct (X22_find_duplicate_hashes_reports_shared_digests
              Sample.first_of Sample.copies) as (_ & _ & H).
  - intros rows r Hr. destruct rows; [destruct Hr | now left].
  - apply (H (mkRow 1 "a.u" 0 Sample.md5_of_nothing)
             (mkRow 3 "b.u" 0 Sample.md5_of_nothing)).
    + cbn. auto.
    + cbn. auto.
    + reflexivity.
    + cbn. discriminate.
Defined.

End DigestGroups.
